(** * prompt-discipline: session parser, prompt triage and scorecard engine

    A shallow embedding of the TypeScript sources
    - [lib/session-parser.ts]  (JSONL session logs to timeline events;
      the second document of [mcp-server/src/lib/embeddings.ts]),
    - [lib/triage.ts]          (prompt triage classifier;
      [unnamed/part_010]),
    - [tools/generate-scorecard.ts] (event classification, the twelve
      category scores, highlights and the persisted baseline;
      [unnamed/part_011]),
    together with the properties of the specification that concern them.

    Conventions of the embedding.
    - A JavaScript string is a Rocq [string]: a sequence of code units
      below 256 (Latin-1).  [toLowerCase], [trim], [\s], [\w] and [\b] are
      written out for that range.
    - A JavaScript number that is a count or a score is a [Z]; a number
      obtained by a division is an exact rational [Q], with [NaN] and the
      infinities made explicit where the source can divide by zero.
      (IEEE rounding of intermediate quotients is not modelled.)
    - A regular expression literal is a [regex] term, run by a backtracking
      matcher with the priorities of the JavaScript engine (leftmost start,
      alternatives in order, greedy repetition).
    - Exceptions are explicit: a computation that can throw returns a
      [result]. *)

From Stdlib Require Import ZArith QArith Qabs Qround String Ascii List Bool Lia Sorted.
From stdpp Require Import base option list strings pretty gmap.

Local Open Scope string_scope.
Local Open Scope Z_scope.

(** ** JavaScript strings and regular expressions *)

Module Js.

Definition code (c : ascii) : N := N_of_ascii c.

Definition in_range (lo hi : N) (c : ascii) : bool :=
  ((lo <=? code c) && (code c <=? hi))%N.

Definition is_char (n : N) (c : ascii) : bool := (code c =? n)%N.

Definition is_digit (c : ascii) : bool := in_range 48 57 c.
Definition is_upper (c : ascii) : bool := in_range 65 90 c.
Definition is_lower (c : ascii) : bool := in_range 97 122 c.

(** [\w] is [[A-Za-z0-9_]]. *)
Definition is_word (c : ascii) : bool :=
  is_digit c || is_upper c || is_lower c || is_char 95 c.

(** [\s] and the characters removed by [trim]: TAB, LF, VT, FF, CR, space
    and the no-break space. *)
Definition is_space (c : ascii) : bool :=
  in_range 9 13 c || is_char 32 c || is_char 160 c.

(** [.] matches everything but the line terminators. *)
Definition is_dot (c : ascii) : bool :=
  negb (is_char 10 c || is_char 13 c).

(** [toLowerCase] on one code unit: [A-Z] and the Latin-1 capitals
    U+00C0..U+00DE (except the multiplication sign U+00D7). *)
Definition lower_char (c : ascii) : ascii :=
  if is_upper c || (in_range 192 222 c && negb (is_char 215 c))
  then ascii_of_N (code c + 32) else c.

Fixpoint toLowerCase (s : string) : string :=
  match s with
  | EmptyString => EmptyString
  | String c s' => String (lower_char c) (toLowerCase s')
  end.

Fixpoint trimStart (s : string) : string :=
  match s with
  | String c s' => if is_space c then trimStart s' else s
  | EmptyString => EmptyString
  end.

(** [trimEnd] keeps a character when it is not a space or when something
    is kept after it. *)
Fixpoint trimEnd (s : string) : string :=
  match s with
  | EmptyString => EmptyString
  | String c s' =>
      match trimEnd s' with
      | EmptyString => if is_space c then EmptyString else String c EmptyString
      | t => String c t
      end
  end.

Definition trim (s : string) : string := trimEnd (trimStart s).

Definition len (s : string) : Z := Z.of_nat (String.length s).

(** [s.startsWith(p)] *)
Fixpoint startsWith (p s : string) : bool :=
  match p, s with
  | EmptyString, _ => true
  | String a p', String b s' => Ascii.eqb a b && startsWith p' s'
  | String _ _, EmptyString => false
  end.

(** [s.includes(p)] *)
Fixpoint includes (p s : string) : bool :=
  startsWith p s ||
  match s with
  | EmptyString => false
  | String _ s' => includes p s'
  end.

Fixpoint take (n : nat) (s : string) : string :=
  match n, s with
  | S n', String c s' => String c (take n' s')
  | _, _ => EmptyString
  end.

Fixpoint drop (n : nat) (s : string) : string :=
  match n, s with
  | S n', String _ s' => drop n' s'
  | _, _ => s
  end.

(** [s.slice(0, n)] for a non-negative [n]. *)
Definition slice0 (n : nat) (s : string) : string := take n s.

(** [xs.join(sep)] *)
Fixpoint join (sep : string) (xs : list string) : string :=
  match xs with
  | [] => EmptyString
  | [x] => x
  | x :: rest => x ++ sep ++ join sep rest
  end.

(** [s.split(sep)] for a non-empty separator string: [cur] holds the
    characters of the current piece, in reverse. *)
Fixpoint split_go (fuel : nat) (sep : string) (cur : string) (s : string)
  : list string :=
  match fuel with
  | O => [String.rev cur]
  | S fuel' =>
      match s with
      | EmptyString => [String.rev cur]
      | String c s' =>
          if startsWith sep s
          then String.rev cur
               :: split_go fuel' sep EmptyString (drop (String.length sep) s)
          else split_go fuel' sep (String c cur) s'
      end
  end.

Definition split (sep : string) (s : string) : list string :=
  split_go (S (String.length s)) sep EmptyString s.

(** [s.split(/\s+/)]: every maximal run of white space separates;
    [skipping] holds while the run that ended the last piece goes on. *)
Fixpoint split_ws_go (cur : string) (skipping : bool) (s : string)
  : list string :=
  match s with
  | EmptyString => [String.rev cur]
  | String c s' =>
      if is_space c
      then if skipping then split_ws_go cur true s'
           else String.rev cur :: split_ws_go EmptyString true s'
      else split_ws_go (String c cur) false s'
  end.

Definition split_ws (s : string) : list string :=
  split_ws_go EmptyString false s.

(** [xs.indexOf(x)] on an array of strings; [None] stands for [-1]. *)
Fixpoint indexOf (x : string) (xs : list string) : option nat :=
  match xs with
  | [] => None
  | y :: ys => if String.eqb x y then Some O
               else option_map S (indexOf x ys)
  end.

(** [xs.slice(i, j)] for [0 <= i <= j]. *)
Definition slice {A} (i j : nat) (xs : list A) : list A :=
  firstn (j - i) (skipn i xs).

(** *** Regular expressions *)

Inductive regex : Type :=
| Eps
| Chr (p : ascii -> bool)
| Seq (r1 r2 : regex)
| Alt (r1 r2 : regex)
| Star (r : regex)
| WordB
| Bol
| Eol.

Definition word_at (c : option ascii) : bool :=
  match c with Some a => is_word a | None => false end.

Definition next_char (s : string) : option ascii :=
  match s with String c _ => Some c | EmptyString => None end.

(** [run r prev s k]: match [r] at the position whose previous character
    is [prev] and whose remaining input is [s]; on success hand the new
    position to the continuation [k].  The first success in the engine's
    priority order is returned.  An iteration of [Star] that consumes
    nothing is rejected, as in the engine. *)
Fixpoint run {A} (r : regex) (prev : option ascii) (s : string)
  (k : option ascii -> string -> option A) {struct r} : option A :=
  match r with
  | Eps => k prev s
  | Chr p =>
      match s with
      | String c s' => if p c then k (Some c) s' else None
      | EmptyString => None
      end
  | Seq r1 r2 => run r1 prev s (fun p' s' => run r2 p' s' k)
  | Alt r1 r2 =>
      match run r1 prev s k with
      | Some a => Some a
      | None => run r2 prev s k
      end
  | Star r' =>
      (fix loop (n : nat) (prev : option ascii) (s : string) : option A :=
         match n with
         | O => k prev s
         | S n' =>
             match run r' prev s
                     (fun p' s' =>
                        if (String.length s' <? String.length s)%nat
                        then loop n' p' s' else None) with
             | Some a => Some a
             | None => k prev s
             end
         end) (String.length s) prev s
  | WordB =>
      if xorb (word_at prev) (word_at (next_char s)) then k prev s else None
  | Bol => match prev with None => k prev s | Some _ => None end
  | Eol => match s with EmptyString => k prev s | String _ _ => None end
  end.

(** Derived forms. *)
Definition Plus (r : regex) : regex := Seq r (Star r).
Definition Opt (r : regex) : regex := Alt r Eps.
(** [r{1,n}] for [n >= 1], greedy. *)
Fixpoint Upto (n : nat) (r : regex) : regex :=
  match n with
  | O => Eps
  | S n' => Opt (Seq r (Upto n' r))
  end.
Definition Rep (lo hi : nat) (r : regex) : regex :=
  Nat.iter lo (Seq r) (Upto (hi - lo) r).
Fixpoint Alts (rs : list regex) : regex :=
  match rs with
  | [] => Chr (fun _ => false)
  | [r] => r
  | r :: rs' => Alt r (Alts rs')
  end.

Definition ch (a : ascii) : regex := Chr (Ascii.eqb a).
(** One pattern character under the [i] flag (the patterns of the sources
    hold ASCII characters only). *)
Definition chi (a : ascii) : regex :=
  Chr (fun c => Ascii.eqb (lower_char a) (lower_char c)).
Fixpoint lit (s : string) : regex :=
  match s with
  | EmptyString => Eps
  | String c s' => Seq (ch c) (lit s')
  end.
Fixpoint liti (s : string) : regex :=
  match s with
  | EmptyString => Eps
  | String c s' => Seq (chi c) (liti s')
  end.

(** The rest of the input after the first match of [r] at this position. *)
Definition match_here (r : regex) (prev : option ascii) (s : string)
  : option string :=
  run r prev s (fun _ s' => Some s').

Definition matched (s rest : string) : string :=
  take (String.length s - String.length rest) s.

(** [r.exec(s)] without the [g] flag: index and text of the leftmost
    match. *)
Fixpoint exec_from (r : regex) (i : nat) (prev : option ascii) (s : string)
  : option (nat * string) :=
  match match_here r prev s with
  | Some rest => Some (i, matched s rest)
  | None =>
      match s with
      | EmptyString => None
      | String c s' => exec_from r (S i) (Some c) s'
      end
  end.

Definition exec (r : regex) (s : string) : option (nat * string) :=
  exec_from r O None s.

(** [r.test(s)] *)
Definition test (r : regex) (s : string) : bool :=
  match exec r s with Some _ => true | None => false end.

(** [s.match(r)[1]] for a pattern [pre(grp)]: the text of the group in the
    leftmost match. *)
Fixpoint exec_group_from (pre grp : regex) (prev : option ascii) (s : string)
  : option string :=
  match run pre prev s
          (fun p' s' => run grp p' s' (fun _ s'' => Some (matched s' s''))) with
  | Some g => Some g
  | None =>
      match s with
      | EmptyString => None
      | String c s' => exec_group_from pre grp (Some c) s'
      end
  end.

Definition exec_group (pre grp : regex) (s : string) : option string :=
  exec_group_from pre grp None s.

Definition last_char (prev : option ascii) (m : string) : option ascii :=
  match String.rev m with String c _ => Some c | EmptyString => prev end.

(** [s.match(r)] with the [g] flag: all matches, left to right, each
    search resuming where the previous match ended. *)
Fixpoint matchAll_go (fuel : nat) (r : regex) (prev : option ascii)
  (s : string) : list string :=
  match fuel with
  | O => []
  | S fuel' =>
      match match_here r prev s with
      | Some rest =>
          let m := matched s rest in
          match m, s with
          | EmptyString, String c s' => m :: matchAll_go fuel' r (Some c) s'
          | EmptyString, EmptyString => [m]
          | _, _ => m :: matchAll_go fuel' r (last_char prev m) rest
          end
      | None =>
          match s with
          | EmptyString => []
          | String c s' => matchAll_go fuel' r (Some c) s'
          end
      end
  end.

Definition matchAll (r : regex) (s : string) : list string :=
  matchAll_go (S (String.length s)) r None s.

(** *** Numbers *)

(** [Math.round]: the nearest integer, a tie going up. *)
Definition Math_round (q : Q) : Z := Qfloor (q + (1 # 2)).

End Js.

(** ** Exceptions *)

Inductive error : Type :=
| TypeError   (* a property read on [null] or [undefined] *)
| ENOENT.     (* [statSync] on a path that does not exist *)

Inductive result (A : Type) : Type :=
| Ok (a : A)
| Throw (e : error).
Arguments Ok {A} a.
Arguments Throw {A} e.

#[global] Instance result_ret : MRet result := fun A a => Ok a.
#[global] Instance result_bind : MBind result := fun A B f m =>
  match m with
  | Ok a => f a
  | Throw e => Throw e
  end.

(** [xs.filter(p)] for a predicate that may throw. *)
Fixpoint filterM {A} (p : A -> result bool) (xs : list A) : result (list A) :=
  match xs with
  | [] => Ok []
  | x :: xs' =>
      b ← p x;
      rest ← filterM p xs';
      Ok (if b : bool then x :: rest else rest)
  end.

(** ** lib/session-parser.ts *)

Module SessionParser.
Import Js.

(** A value produced by [JSON.parse]. An object keeps its members in the
    order of the text. *)
#[warnings="-register-all"]
Inductive json : Type :=
| JNull
| JBool (b : bool)
| JNum (q : Q)
| JStr (s : string)
| JArr (xs : list json)
| JObj (fields : list (string * json)).

(** A JavaScript value read out of a record: [None] is [undefined]. *)
Definition value : Type := option json.

(** The member [k] of an object; of duplicate members the last one is the
    one [JSON.parse] keeps. *)
Fixpoint lookup_field (k : string) (fs : list (string * json)) : value :=
  match fs with
  | [] => None
  | (k', v) :: fs' =>
      match lookup_field k fs' with
      | Some v' => Some v'
      | None => if String.eqb k k' then Some v else None
      end
  end.

(** [v.k] for the member names the parser reads (none of them is defined
    on the prototypes of strings, numbers, booleans or arrays). *)
Definition prop (k : string) (v : value) : result value :=
  match v with
  | None | Some JNull => Throw TypeError
  | Some (JObj fs) => Ok (lookup_field k fs)
  | Some _ => Ok None
  end.

(** [v?.k] *)
Definition prop_opt (k : string) (v : value) : value :=
  match v with
  | Some (JObj fs) => lookup_field k fs
  | _ => None
  end.

(** [a ?? b] *)
Definition nullish (a : value) (b : json) : json :=
  match a with
  | None | Some JNull => b
  | Some v => v
  end.

(** [!!v] *)
Definition truthy (v : value) : bool :=
  match v with
  | None | Some JNull => false
  | Some (JBool b) => b
  | Some (JNum q) => negb (Qeq_bool q 0)
  | Some (JStr s) => negb (String.eqb s "")
  | Some (JArr _) | Some (JObj _) => true
  end.

(** [v === "s"] *)
Definition is_str (s : string) (v : value) : bool :=
  match v with
  | Some (JStr t) => String.eqb t s
  | _ => false
  end.

Definition nl : string := String (ascii_of_nat 10) EmptyString.

Record TimelineEvent : Type := {
  timestamp : string;
  type : string;
  project : string;
  project_name : string;
  branch : json;
  session_id : json;
  source_file : string;
  source_line : Z;
  content : string;
}.

Definition re_word (s : string) : regex := Seq WordB (Seq (liti s) WordB).

(** [/\bno\b/i, /\bwrong\b/i, /\bnot that\b/i, /\bi meant\b/i,
     /\bactually\b/i, /\binstead\b/i, /\bundo\b/i] *)
Definition CORRECTION_PATTERNS : list regex :=
  [ re_word "no"; re_word "wrong"; re_word "not that"; re_word "i meant";
    re_word "actually"; re_word "instead"; re_word "undo" ].

Definition isCorrection (text : string) : bool :=
  existsb (fun p => test p text) CORRECTION_PATTERNS.

Definition is_text_block (b : json) : result bool :=
  t ← prop "type" (Some b);
  if is_str "text" t then
    x ← prop "text" (Some b);
    Ok (match x with Some (JStr _) => true | _ => false end)
  else Ok false.

Definition block_text (b : json) : string :=
  match prop_opt "text" (Some b) with
  | Some (JStr s) => s
  | _ => EmptyString
  end.

Definition extractText (content : value) : result string :=
  match content with
  | Some (JStr s) => Ok s
  | Some (JArr bs) =>
      blocks ← filterM is_text_block bs;
      Ok (join nl (map block_text blocks))
  | _ => Ok EmptyString
  end.

Definition extractToolUseBlocks (content : value) : result (list json) :=
  match content with
  | Some (JArr bs) =>
      filterM (fun b => t ← prop "type" (Some b); Ok (is_str "tool_use" t)) bs
  | _ => Ok []
  end.

(** The parser relies on library functions of the runtime; they are
    parameters of the embedding. *)
Section Runtime.

(** [new Date(s).getTime()], [None] standing for [NaN]. *)
Variable Date_parse : string -> option Z.
(** [new Date(t).toISOString()] for a valid time value [t]. *)
Variable toISOString : Z -> string.
Variable JSON_stringify : json -> string.
(** The string a template literal makes of a value that is not a string. *)
Variable ToString : json -> string.
(** [path.basename(p, ext)] *)
Variable basename : string -> string -> string.

(** [new Date(v).getTime()] for a number: time values beyond
    8.64e15 ms are invalid, the others are truncated. *)
Definition Date_ofNumber (v : Q) : option Z :=
  if Qle_bool (Qabs v) (8640000000000000 # 1) then Some (let (n, d) := v in Z.quot n (Zpos d)) else None.

Definition normalizeTimestamp (ts : value) (fallback : string) : string :=
  if negb (truthy ts) then fallback else
  match ts with
  | Some (JStr s) =>
      match Date_parse s with
      | Some t => toISOString t
      | None => fallback
      end
  | Some (JNum q) =>
      let v := if Qle_bool (1000000000000 # 1) q then q else (q * (1000 # 1))%Q in
      match Date_ofNumber v with
      | Some t => toISOString t
      | None => fallback
      end
  | _ => fallback
  end.

(** [`${v}`] *)
Definition template (v : json) : string :=
  match v with
  | JStr s => s
  | _ => ToString v
  end.

(** The event of one tool-use block of an assistant record. *)
Definition toolEvent (mk : string -> string -> TimelineEvent) (tool : json)
  : TimelineEvent :=
  let name := nullish (prop_opt "name" (Some tool)) (JStr "unknown") in
  let argsStr :=
    match prop_opt "input" (Some tool) with
    | Some (JStr s) => s
    | i => JSON_stringify (nullish i (JObj []))
    end in
  let isSub := is_str "Task" (Some name) || is_str "dispatch_agent" (Some name) in
  mk (if isSub then "sub_agent_spawn" else "tool_call")
     (template name ++ ": " ++ slice0 100 argsStr).

(** The fields [id] (a random UUID), [content_preview] and [metadata] of an
    event are left out: nothing downstream of the parser reads them. *)
Definition processRecord (obj : json) (filePath project projectName : string)
  (branch sessionId : json) (fallbackTs : string) (lineNum : Z)
  (lastType : string) : result (list TimelineEvent) :=
  tsv ← prop "timestamp" (Some obj);
  let ts := normalizeTimestamp tsv fallbackTs in
  let mk (ty text : string) : TimelineEvent :=
    {| timestamp := ts; type := ty; project := project;
       project_name := projectName; branch := branch;
       session_id := sessionId; source_file := filePath;
       source_line := lineNum; content := text |} in
  ty ← prop "type" (Some obj);
  if is_str "user" ty then
    msg ← prop "message" (Some obj);
    text ← extractText (prop_opt "content" msg);
    if String.eqb text "" then Ok []
    else
      let isCorr := String.eqb lastType "assistant" && isCorrection text in
      Ok [mk (if isCorr then "correction" else "prompt") text]
  else if is_str "assistant" ty then
    msg ← prop "message" (Some obj);
    let content := prop_opt "content" msg in
    text ← extractText content;
    tools ← extractToolUseBlocks content;
    Ok ((if String.eqb text "" then [] else [mk "assistant" text])
        ++ map (toolEvent mk) tools)%list
  else if is_str "tool_result" ty then
    is_error ← prop "is_error" (Some obj);
    c ← prop "content" (Some obj);
    let isErr :=
      match is_error with Some (JBool true) => true | _ => false end
      || match c with Some (JStr s) => test (liti "stderr") s | _ => false end in
    if isErr then
      t ← extractText c;
      let text :=
        if String.eqb t ""
        then slice0 200 (JSON_stringify (nullish c (JStr "")))
        else t in
      Ok [mk "error" text]
    else Ok []
  else if is_str "system" ty then
    msg ← prop "message" (Some obj);
    c ← prop "content" (Some obj);
    text ← extractText
             (Some (nullish (prop_opt "content" msg) (nullish c (JStr ""))));
    subtype ← prop "subtype" (Some obj);
    if test (liti "compact") text || is_str "compaction" subtype then
      Ok [mk "compaction" (if String.eqb text "" then "context compacted" else text)]
    else Ok []
  else Ok [].

(** A line of the file, as [lines[i].trim()] and [JSON.parse] see it. *)
Inductive line : Type :=
| Blank                (* nothing is left after [trim] *)
| Malformed            (* [JSON.parse] throws *)
| Parsed (obj : json). (* [JSON.parse] returns [obj] *)

(** The variables of the loop of [parseLinesSync], and what it has written
    to [process.stderr]. *)
Record pstate : Type := {
  events : list TimelineEvent;
  cur_branch : json;
  cur_sessionId : json;
  lastType : string;
  stderr : list string;
}.

Definition diagnostic (lineNum : Z) (filePath : string) : string :=
  "[session-parser] malformed line " ++ pretty lineNum ++ " in " ++ filePath ++ nl.

(** One turn of the loop, at index [i]. *)
Definition parseLine (filePath project projectName fallbackTs : string)
  (i : Z) (l : line) (st : pstate) : result pstate :=
  match l with
  | Blank => Ok st
  | Malformed =>
      Ok {| events := events st; cur_branch := cur_branch st;
            cur_sessionId := cur_sessionId st; lastType := lastType st;
            stderr := (stderr st ++ [diagnostic (i + 1) filePath])%list |}
  | Parsed obj =>
      ty ← prop "type" (Some obj);
      if is_str "summary" ty then
        let sid := prop_opt "sessionId" (Some obj) in
        Ok {| events := events st;
              cur_branch := nullish (prop_opt "gitBranch" (Some obj)) (JStr "");
              cur_sessionId := match sid with
                               | Some v => if truthy sid then v
                                           else cur_sessionId st
                               | None => cur_sessionId st
                               end;
              lastType := lastType st; stderr := stderr st |}
      else
        evts ← processRecord obj filePath project projectName (cur_branch st)
                 (cur_sessionId st) fallbackTs (i + 1) (lastType st);
        Ok {| events := (events st ++ evts)%list; cur_branch := cur_branch st;
              cur_sessionId := cur_sessionId st;
              lastType := if is_str "user" ty then "user"
                          else if is_str "assistant" ty then "assistant"
                          else lastType st;
              stderr := stderr st |}
  end.

Fixpoint parseLoop (filePath project projectName fallbackTs : string)
  (i : Z) (lines : list line) (st : pstate) : result pstate :=
  match lines with
  | [] => Ok st
  | l :: rest =>
      st' ← parseLine filePath project projectName fallbackTs i l st;
      parseLoop filePath project projectName fallbackTs (i + 1) rest st'
  end.

Definition initial (filePath : string) : pstate :=
  {| events := []; cur_branch := JStr "";
     cur_sessionId := JStr (basename filePath ".jsonl");
     lastType := ""; stderr := [] |}.

(** The events returned, with the diagnostics written meanwhile. *)
Definition parseLinesSync (lines : list line)
  (filePath project projectName fallbackTs : string)
  : result (list TimelineEvent * list string) :=
  st ← parseLoop filePath project projectName fallbackTs 0 lines
         (initial filePath);
  Ok (events st, stderr st).

(** A regular file: what [statSync] reports and the lines
    [readFileSync(p, "utf-8").split("\n")] yields. *)
Record file : Type := {
  mtime : Z;
  size : Z;
  lines : list line;
}.

Definition statSync (fs : gmap string file) (p : string) : result file :=
  match fs !! p with
  | Some f => Ok f
  | None => Throw ENOENT
  end.

Definition parseSession (fs : gmap string file)
  (filePath project projectName : string)
  : result (list TimelineEvent * list string) :=
  stat ← statSync fs filePath;
  let fallbackTs := toISOString (mtime stat) in
  parseLinesSync (lines stat) filePath project projectName fallbackTs.

End Runtime.

End SessionParser.

(** ** lib/triage.ts *)

Module Triage.
Import Js.

Inductive TriageLevel : Type :=
| Trivial        (* 'trivial' *)
| Clear          (* 'clear' *)
| Ambiguous      (* 'ambiguous' *)
| CrossService   (* 'cross-service' *)
| MultiStep.     (* 'multi-step' *)

Record TriageResult : Type := {
  level : TriageLevel;
  confidence : Q;
  reasons : list string;
  recommended_tools : list string;
  cross_service_hits : option (list string);
}.

(** Every field is optional; [None] is an absent field. *)
Record TriageConfig : Type := {
  alwaysCheck : option (list string);
  skip : option (list string);
  crossServiceKeywords : option (list string);
  strictness : option string;
  relatedAliases : option (list string);
}.

Definition empty_config : TriageConfig :=
  {| alwaysCheck := None; skip := None; crossServiceKeywords := None;
     strictness := None; relatedAliases := None |}.

Definition TRIVIAL_COMMANDS : list string :=
  [ "commit"; "format"; "lint"; "run tests"; "push"; "pull";
    "status"; "build"; "test"; "deploy"; "start"; "stop"; "restart" ].

(** [/\b(it|them|the thing|those|these)\b/i] *)
Definition VAGUE_PRONOUNS : regex :=
  Seq WordB
    (Seq (Alts [liti "it"; liti "them"; liti "the thing"; liti "those";
                liti "these"])
       WordB).

Definition VAGUE_VERBS : list string := [ "fix"; "update"; "change" ].

Definition CROSS_SERVICE_TERMS : list string :=
  [ "schema"; "contract"; "interface"; "event" ].

Definition one_of (set : string) (c : ascii) : bool :=
  includes (String c EmptyString) set.

Definition backslash : ascii := ascii_of_nat 92.

(** [[.\w\-/\\]] *)
Definition path_char (c : ascii) : bool :=
  is_word c || one_of ".-/" c || Ascii.eqb c backslash.

(** [/(?:^|[\s,:(])([.\w\-/\\]+\.\w{1,6})\b/] *)
Definition FILE_PATH_RE : regex :=
  Seq (Alt Bol (Chr (fun c => is_space c || one_of ",:(" c)))
    (Seq (Plus (Chr path_char))
       (Seq (ch ".") (Seq (Rep 1 6 (Chr is_word)) WordB))).

(** [/\bline\s+\d+|:\d+\b/] *)
Definition LINE_NUMBER_RE : regex :=
  Alt (Seq WordB (Seq (lit "line") (Seq (Plus (Chr is_space)) (Plus (Chr is_digit)))))
      (Seq (ch ":") (Seq (Plus (Chr is_digit)) WordB)).

(** [/\b(then|after that|first\b.*\bthen|finally)\b/i] *)
Definition MULTI_STEP_SEQUENTIAL : regex :=
  Seq WordB
    (Seq (Alts [ liti "then"; liti "after that";
                 Seq (liti "first")
                   (Seq WordB (Seq (Star (Chr is_dot)) (Seq WordB (liti "then"))));
                 liti "finally" ])
       WordB).

Definition lower (s : string) : string := trim (toLowerCase s).

Definition isTrivialCommand (prompt : string) : bool :=
  let p := lower prompt in
  existsb (fun cmd => String.eqb p cmd || startsWith (cmd ++ " ") p)
    TRIVIAL_COMMANDS.

Definition hasFileRefs (prompt : string) : bool := test FILE_PATH_RE prompt.
Definition hasLineNumbers (prompt : string) : bool := test LINE_NUMBER_RE prompt.
Definition hasVaguePronouns (prompt : string) : bool := test VAGUE_PRONOUNS prompt.

(** A vague verb appears without a concrete target after it. *)
Definition hasVagueVerbs (prompt : string) : bool :=
  let words := split_ws (lower prompt) in
  existsb
    (fun verb =>
       match indexOf verb words with
       | None => false
       | Some idx =>
           let tail := slice (idx + 1) (idx + 4) words in
           let hasTarget :=
             existsb
               (fun w => test (Seq (ch ".") (Plus (Chr is_word))) w
                         || (6 <? len w)%Z
                         || test (Chr is_upper) w)
               tail in
           negb hasTarget
       end)
    VAGUE_VERBS.

Definition opt_list (l : option (list string)) : list string :=
  match l with Some xs => xs | None => [] end.

Definition detectCrossService (prompt : string) (config : TriageConfig)
  : list string :=
  let p := lower prompt in
  (map (String.append "keyword: ")
     (List.filter (fun kw => includes (lower kw) p)
        (opt_list (crossServiceKeywords config)))
   ++ map (String.append "project: ")
     (List.filter (fun alias => includes (lower alias) p)
        (opt_list (relatedAliases config)))
   ++ map (String.append "term: ")
     (List.filter (fun term => includes term p) CROSS_SERVICE_TERMS))%list.

(** [/\n\s*[1-9][.)]\s/] *)
Definition NUMBERED_RE : regex :=
  Seq (ch (ascii_of_nat 10))
    (Seq (Star (Chr is_space))
       (Seq (Chr (in_range 49 57)) (Seq (Chr (one_of ".)")) (Chr is_space)))).

(** [/\n\s*[-*]\s/] *)
Definition BULLETED_RE : regex :=
  Seq (ch (ascii_of_nat 10))
    (Seq (Star (Chr is_space)) (Seq (Chr (one_of "-*")) (Chr is_space))).

(** [/[\w\-./\\]+\.\w{1,6}/g] *)
Definition FILE_TOKEN_RE : regex :=
  Seq (Plus (Chr path_char)) (Seq (ch ".") (Rep 1 6 (Chr is_word))).

Definition isMultiStep (prompt : string) : bool :=
  let p := lower prompt in
  let parts := split " and " p in
  if includes " and " p && (1 <? length parts)%nat
     && forallb (fun part => (2 <=? length (split_ws (trim part)))%nat) parts
  then true
  else if test MULTI_STEP_SEQUENTIAL prompt then true
  else if test NUMBERED_RE prompt || test BULLETED_RE prompt then true
  else
    let files := matchAll FILE_TOKEN_RE prompt in
    let dirs : gset string :=
      list_to_set (map (fun f => hd EmptyString (split "/" f)) files) in
    (1 <? length files)%nat && (1 <? size dirs)%nat.

Definition dq : string := String (ascii_of_nat 34) EmptyString.

Definition matchesKeyword (prompt kw : string) : bool :=
  includes (lower kw) (lower prompt).

Definition triagePrompt (prompt : string) (config : option TriageConfig)
  : TriageResult :=
  let cfg := match config with Some c => c | None => empty_config end in
  let len := len (trim prompt) in
  (* 1. Skip keywords -> trivial immediately *)
  match List.find (matchesKeyword prompt) (opt_list (skip cfg)) with
  | Some kw =>
      {| level := Trivial; confidence := 95 # 100;
         reasons := ["matches skip keyword: " ++ dq ++ kw ++ dq];
         recommended_tools := []; cross_service_hits := None |}
  | None =>
  (* 2. Multi-step *)
  if isMultiStep prompt then
    {| level := MultiStep; confidence := 85 # 100;
       reasons := ["contains multi-step indicators"];
       recommended_tools := ["clarify-intent"; "scope-work"; "sequence-tasks"];
       cross_service_hits := None |}
  else
  (* 3. Cross-service *)
  let csHits := detectCrossService prompt cfg in
  if (0 <? length csHits)%nat then
    {| level := CrossService; confidence := 8 # 10;
       reasons := ["cross-service indicators: " ++ join ", " csHits];
       recommended_tools :=
         ["clarify-intent"; "scope-work"; "search-related-projects"];
       cross_service_hits := Some csHits |}
  else
  (* 4. always_check keywords -> at least ambiguous *)
  match List.find (matchesKeyword prompt) (opt_list (alwaysCheck cfg)) with
  | Some kw =>
      {| level := Ambiguous; confidence := 8 # 10;
         reasons := ["matches always_check keyword: " ++ dq ++ kw ++ dq];
         recommended_tools := ["clarify-intent"; "scope-work"];
         cross_service_hits := None |}
  | None =>
  (* 5. Trivial: short common commands *)
  if (len <? 20)%Z && isTrivialCommand prompt then
    {| level := Trivial; confidence := 9 # 10;
       reasons := ["short common command"];
       recommended_tools := []; cross_service_hits := None |}
  else
  (* 6. Ambiguous signals *)
  let ambiguousReasons :=
    ((if (len <? 50)%Z && negb (hasFileRefs prompt)
      then ["short prompt without file references"] else [])
     ++ (if hasVaguePronouns prompt then ["contains vague pronouns"] else [])
     ++ (if hasVagueVerbs prompt
         then ["contains vague verbs without specific targets"] else []))%list in
  if (0 <? length ambiguousReasons)%nat then
    {| level := Ambiguous; confidence := 7 # 10;
       reasons := ambiguousReasons;
       recommended_tools := ["clarify-intent"; "scope-work"];
       cross_service_hits := None |}
  else
  (* 7. Clear *)
  let reasons0 :=
    ((if hasFileRefs prompt then ["references specific file paths"] else [])
     ++ (if hasLineNumbers prompt then ["references specific line numbers"] else [])
     ++ (if (50 <? len)%Z then ["detailed prompt with concrete nouns"] else []))%list in
  let reasons1 :=
    if (length reasons0 =? 0)%nat
    then ["well-formed prompt with clear intent"] else reasons0 in
  let strict :=
    match strictness cfg with Some s => String.eqb s "strict" | None => false end in
  let clearTools0 := if hasFileRefs prompt then ["verify-files-exist"] else [] in
  let clearTools :=
    if strict && (length clearTools0 =? 0)%nat
    then ["verify-files-exist"] else clearTools0 in
  {| level := Clear; confidence := if strict then 8 # 10 else 85 # 100;
     reasons := reasons1; recommended_tools := clearTools;
     cross_service_hits := None |}
  end end.

End Triage.

(** ** tools/generate-scorecard.ts *)

Module Scorecard.
Import Js.

Abbreviation TimelineEvent := SessionParser.TimelineEvent.
Abbreviation json := SessionParser.json.
Abbreviation ev_type := SessionParser.type.
Abbreviation ev_content := SessionParser.content.

(** The [evidence] text and the [examples] of a category are left out:
    they are presentation only. *)
Record CategoryScore : Type := {
  name : string;
  score : Z;
  grade : string;
}.

Record Highlights : Type := {
  best : option CategoryScore;    (* [sorted[0]] *)
  worst : option CategoryScore;   (* [sorted[sorted.length - 1]] *)
}.

Record Scorecard : Type := {
  project : string;
  period : string;
  date : string;
  overall : Z;
  overallGrade : string;
  categories : list CategoryScore;
  highlights : Highlights;
}.

Definition letterGrade (score : Z) : string :=
  if 95 <=? score then "A+"
  else if 90 <=? score then "A"
  else if 85 <=? score then "A-"
  else if 80 <=? score then "B+"
  else if 75 <=? score then "B"
  else if 70 <=? score then "B-"
  else if 65 <=? score then "C+"
  else if 60 <=? score then "C"
  else if 55 <=? score then "C-"
  else if 50 <=? score then "D"
  else "F".

Definition clamp (v : Q) : Z := Z.max 0 (Z.min 100 (Math_round v)).

Definition word_dot_slash_dash (c : ascii) : bool :=
  is_word c || Triage.one_of "./-" c.

(** [/(?:\/[\w./-]+\.\w{1,6}|\b\w+\.\w{2,6}\b)/] *)
Definition PATH_RE : regex :=
  Alt (Seq (ch "/") (Seq (Plus (Chr word_dot_slash_dash))
                       (Seq (ch ".") (Rep 1 6 (Chr is_word)))))
      (Seq WordB (Seq (Plus (Chr is_word))
                    (Seq (ch ".") (Seq (Rep 2 6 (Chr is_word)) WordB)))).

(** [/\.\b(?:ts|tsx|js|jsx|py|rs|go|rb|java|c|cpp|h|css|scss|html|json|yaml|yml|toml|md|sql|sh)\b/] *)
Definition FILE_EXT_RE : regex :=
  Seq (ch ".")
    (Seq WordB
       (Seq (Alts (map lit
               [ "ts"; "tsx"; "js"; "jsx"; "py"; "rs"; "go"; "rb"; "java";
                 "c"; "cpp"; "h"; "css"; "scss"; "html"; "json"; "yaml";
                 "yml"; "toml"; "md"; "sql"; "sh" ]))
          WordB)).

(** The copy of the correction patterns kept in this file. *)
Definition CORRECTION_PATTERNS : list regex :=
  map SessionParser.re_word
    [ "no"; "wrong"; "not that"; "i meant"; "actually"; "instead"; "undo";
      "revert" ].

Record ParsedSession : Type := {
  id : json;
  events : list TimelineEvent;
  userMessages : list TimelineEvent;
  assistantMessages : list TimelineEvent;
  toolCalls : list TimelineEvent;
  corrections : list TimelineEvent;
  compactions : list TimelineEvent;
  commits : list TimelineEvent;
  subAgentSpawns : list TimelineEvent;
  durationMinutes : Q;
}.

Definition of_type (ty : string) (events : list TimelineEvent)
  : list TimelineEvent :=
  List.filter (fun e => String.eqb (ev_type e) ty) events.

Section Classify.

(** [new Date(s).getTime()], [None] standing for [NaN]. *)
Variable Date_parse : string -> option Z.

Definition classifyEvents (events : list TimelineEvent) : ParsedSession :=
  let durationMinutes :=
    if (2 <=? length events)%nat then
      match option_map SessionParser.timestamp (head events) ≫= Date_parse,
            option_map SessionParser.timestamp (last events) ≫= Date_parse with
      | Some first, Some last => (inject_Z (last - first) / (60000 # 1))%Q
      | _, _ => 0%Q
      end
    else 0%Q in
  {| id := match head events with
           | Some e => SessionParser.nullish (Some (SessionParser.session_id e))
                         (SessionParser.JStr "unknown")
           | None => SessionParser.JStr "unknown"
           end;
     events := events;
     userMessages := of_type "user_prompt" events;
     assistantMessages := of_type "assistant_response" events;
     toolCalls := of_type "tool_call" events;
     corrections := of_type "correction" events;
     compactions := of_type "compaction" events;
     commits := of_type "git_commit" events;
     subAgentSpawns := of_type "sub_agent_spawn" events;
     durationMinutes := durationMinutes |}.

End Classify.

Definition hasFileRef (text : string) : bool :=
  test PATH_RE text || test FILE_EXT_RE text.

Definition pct (num den : Z) : Z :=
  if den =? 0 then 100
  else Math_round ((inject_Z num / inject_Z den) * (100 # 1))%Q.

Definition count {A} (p : A -> bool) (xs : list A) : Z :=
  Z.of_nat (length (List.filter p xs)).

Definition zlen {A} (xs : list A) : Z := Z.of_nat (length xs).

Definition mkScore (n : string) (s : Z) : CategoryScore :=
  {| name := n; score := s; grade := letterGrade s |}.

(** *** The twelve scoring functions *)

Definition scorePlans (sessions : list ParsedSession) : CategoryScore :=
  if (length sessions =? 0)%nat
  then {| name := "Plans"; score := 75; grade := "B" |}
  else
    let planned :=
      count (fun s =>
               existsb (fun m => (100 <? len (ev_content m))
                                 && hasFileRef (ev_content m))
                 (firstn 3 (userMessages s)))
        sessions in
    mkScore "Plans" (clamp (inject_Z (pct planned (zlen sessions)))).

(** The counters [(specific, total)] of [scoreClarification]. *)
Definition clarificationCounts (sessions : list ParsedSession) : Z * Z :=
  fold_left
    (fun acc s =>
       fold_left
         (fun '(specific, total) m =>
            (if hasFileRef (ev_content m) then specific + 1 else specific,
             total + 1))
         (userMessages s) acc)
    sessions (0, 0).

Definition scoreClarification (sessions : list ParsedSession) : CategoryScore :=
  let '(specific, total) := clarificationCounts sessions in
  mkScore "Clarification" (clamp (inject_Z (pct specific total))).

(** The counters [(total, quality)] of [scoreDelegation]. *)
Definition delegationCounts (sessions : list ParsedSession) : Z * Z :=
  fold_left
    (fun acc s =>
       fold_left
         (fun '(total, quality) e =>
            (total + 1,
             if 200 <? len (ev_content e) then quality + 1 else quality))
         (subAgentSpawns s) acc)
    sessions (0, 0).

Definition scoreDelegation (sessions : list ParsedSession) : CategoryScore :=
  let '(total, quality) := delegationCounts sessions in
  if total =? 0
  then {| name := "Delegation"; score := 75; grade := "B" |}
  else mkScore "Delegation" (clamp (inject_Z (pct quality total))).

(** The loop over [s.events] of [scoreFollowUpSpecificity]: [before] is
    [s.events.slice(0, i).reverse()], the counters are
    [(followUps, specific)]. *)
Fixpoint followUpLoop (before evs : list TimelineEvent) (acc : Z * Z)
  : Z * Z :=
  match evs with
  | [] => acc
  | ev :: rest =>
      let acc' :=
        if negb (String.eqb (ev_type ev) "user_prompt") then acc
        else
          let prev :=
            List.find (fun e => String.eqb (ev_type e) "assistant_response"
                                || String.eqb (ev_type e) "user_prompt")
              before in
          match prev with
          | Some p =>
              if String.eqb (ev_type p) "assistant_response" then
                let '(followUps, specific) := acc in
                (followUps + 1,
                 if hasFileRef (ev_content ev) || (50 <=? len (ev_content ev))
                 then specific + 1 else specific)
              else acc
          | None => acc
          end in
      followUpLoop (ev :: before) rest acc'
  end.

Definition followUpCounts (sessions : list ParsedSession) : Z * Z :=
  fold_left (fun acc s => followUpLoop [] (events s) acc) sessions (0, 0).

Definition scoreFollowUpSpecificity (sessions : list ParsedSession)
  : CategoryScore :=
  let '(followUps, specific) := followUpCounts sessions in
  mkScore "Follow-up Specificity" (clamp (inject_Z (pct specific followUps))).

(** A quotient of two counts: [0/0] is [NaN], [n/0] an infinity. *)
Inductive number : Type :=
| NaN
| PosInf
| NegInf
| Num (q : Q).

Definition div (a b : Z) : number :=
  if b =? 0 then
    if a =? 0 then NaN else if 0 <? a then PosInf else NegInf
  else Num (inject_Z a / inject_Z b)%Q.

(** [x <= q]: false on [NaN]. *)
Definition le_num (x : number) (q : Q) : bool :=
  match x with
  | NaN | PosInf => false
  | NegInf => true
  | Num a => Qle_bool a q
  end.

Definition quote_char (c : ascii) : bool :=
  Ascii.eqb c (ascii_of_nat 34) || Ascii.eqb c (ascii_of_nat 39).

(** The pattern [(?:file_path|path)Q?\s*[:=]\s*Q([^Q]+)] of
    [scoreTokenEfficiency], where [Q] is the class of the double and the
    single quote; it is split before its group. *)
Definition TOOL_PATH_PRE : regex :=
  Seq (Alt (lit "file_path") (lit "path"))
    (Seq (Opt (Chr quote_char))
       (Seq (Star (Chr is_space))
          (Seq (Chr (Triage.one_of ":="))
             (Seq (Star (Chr is_space)) (Chr quote_char))))).
Definition TOOL_PATH_GROUP : regex := Plus (Chr (fun c => negb (quote_char c))).

(** [files.size] for the set of paths named by the tool calls of a
    session. *)
Definition touchedFiles (s : ParsedSession) : gset string :=
  list_to_set
    (omap (fun tc => exec_group TOOL_PATH_PRE TOOL_PATH_GROUP (ev_content tc))
       (toolCalls s)).

Definition scoreTokenEfficiency (sessions : list ParsedSession)
  : CategoryScore :=
  let '(totalCalls, totalFiles) :=
    fold_left
      (fun '(calls, files) s =>
         let n := Z.of_nat (size (touchedFiles s)) in
         (calls + zlen (toolCalls s), files + (if n =? 0 then 1 else n)))
      sessions (0, 0) in
  let ratio := div totalCalls totalFiles in
  let score : Z :=
    if le_num ratio (5 # 1) then 100
    else if le_num ratio (10 # 1) then 90
    else if le_num ratio (20 # 1) then 75
    else if le_num ratio (40 # 1) then 60
    else 40 in
  let bloated := count (fun s => 200 <? zlen (toolCalls s)) sessions in
  let score :=
    if 0 <? bloated then clamp (inject_Z (score - bloated * 10)) else score in
  {| name := "Token Efficiency"; score := clamp (inject_Z score);
     grade := letterGrade (clamp (inject_Z score)) |}.

(** [/(?:\/[\w./-]+)/] *)
Definition AREA_RE : regex := Seq (ch "/") (Plus (Chr word_dot_slash_dash)).

(** The directory part of the first path-like token, or the empty string. *)
Definition areaOf (text : string) : string :=
  match exec AREA_RE text with
  | Some (_, m) => join "/" (removelast (split "/" m))
  | None => EmptyString
  end.

(** The counters [(totalSwitches, totalPrompts)] of [scoreSequencing]. *)
Definition sequencingCounts (sessions : list ParsedSession) : Z * Z :=
  fold_left
    (fun acc s =>
       fst (fold_left
              (fun '((switches, prompts), lastArea) m =>
                 let area := areaOf (ev_content m) in
                 let truthy (x : string) := negb (String.eqb x "") in
                 ((if truthy area && truthy lastArea
                      && negb (String.eqb area lastArea)
                   then switches + 1 else switches,
                   prompts + 1),
                  if truthy area then area else lastArea))
              (userMessages s) (acc, EmptyString)))
    sessions (0, 0).

Definition scoreSequencing (sessions : list ParsedSession) : CategoryScore :=
  let '(totalSwitches, totalPrompts) := sequencingCounts sessions in
  let switchRate : Q :=
    if 0 <? totalPrompts
    then (inject_Z totalSwitches / inject_Z totalPrompts)%Q else 0%Q in
  let score : Z :=
    if Qle_bool switchRate (5 # 100) then 100
    else if Qle_bool switchRate (1 # 10) then 90
    else if Qle_bool switchRate (2 # 10) then 75
    else if Qle_bool switchRate (35 # 100) then 60
    else 45 in
  {| name := "Sequencing"; score := clamp (inject_Z score);
     grade := letterGrade (clamp (inject_Z score)) |}.

(** [===] on the values of a record. *)
Fixpoint json_eqb (a b : json) {struct a} : bool :=
  match a, b with
  | SessionParser.JNull, SessionParser.JNull => true
  | SessionParser.JBool x, SessionParser.JBool y => Bool.eqb x y
  | SessionParser.JNum x, SessionParser.JNum y =>
      (Qnum x =? Qnum y) && (Z.pos (Qden x) =? Z.pos (Qden y))
  | SessionParser.JStr x, SessionParser.JStr y => String.eqb x y
  | SessionParser.JArr xs, SessionParser.JArr ys =>
      (fix go (xs ys : list json) : bool :=
         match xs, ys with
         | [], [] => true
         | x :: xs', y :: ys' => json_eqb x y && go xs' ys'
         | _, _ => false
         end) xs ys
  | SessionParser.JObj xs, SessionParser.JObj ys =>
      (fix go (xs ys : list (string * json)) : bool :=
         match xs, ys with
         | [], [] => true
         | (k, x) :: xs', (k', y) :: ys' =>
             String.eqb k k' && json_eqb x y && go xs' ys'
         | _, _ => false
         end) xs ys
  | _, _ => false
  end.

(** [a === b] on events. The source compares object identities; the events
    the comparison is applied to (corrections and compactions, one per
    record) differ in [source_line] within a session, so that comparing the
    fields finds the same index. *)
Definition same_event (a b : TimelineEvent) : bool :=
  String.eqb (SessionParser.timestamp a) (SessionParser.timestamp b)
  && String.eqb (ev_type a) (ev_type b)
  && String.eqb (SessionParser.project a) (SessionParser.project b)
  && String.eqb (SessionParser.project_name a) (SessionParser.project_name b)
  && json_eqb (SessionParser.branch a) (SessionParser.branch b)
  && json_eqb (SessionParser.session_id a) (SessionParser.session_id b)
  && String.eqb (SessionParser.source_file a) (SessionParser.source_file b)
  && (SessionParser.source_line a =? SessionParser.source_line b)
  && String.eqb (ev_content a) (ev_content b).

(** [xs.indexOf(c)], [-1] when absent. *)
Fixpoint eventIndex (c : TimelineEvent) (xs : list TimelineEvent) : Z :=
  match xs with
  | [] => -1
  | x :: xs' =>
      if same_event c x then 0
      else let i := eventIndex c xs' in if i <? 0 then -1 else i + 1
  end.

(** [xs.slice(i, j)] with the source's conventions: a negative end counts
    from the end of the array. *)
Definition sliceZ {A} (i j : Z) (xs : list A) : list A :=
  let n := zlen xs in
  let norm k := if k <? 0 then Z.max 0 (n + k) else Z.min k n in
  slice (Z.to_nat (norm i)) (Z.to_nat (norm j)) xs.

(** The counters [(totalCompactions, covered)]. *)
Definition compactionCounts (sessions : list ParsedSession) : Z * Z :=
  fold_left
    (fun acc s =>
       fold_left
         (fun '(total, covered) c =>
            let cIdx := eventIndex c (events s) in
            let nearby := sliceZ (Z.max 0 (cIdx - 10)) cIdx (events s) in
            (total + 1,
             if existsb (fun e => String.eqb (ev_type e) "git_commit") nearby
             then covered + 1 else covered))
         (compactions s) acc)
    sessions (0, 0).

Definition scoreCompactionManagement (sessions : list ParsedSession)
  : CategoryScore :=
  let '(totalCompactions, covered) := compactionCounts sessions in
  if totalCompactions =? 0
  then {| name := "Compaction Management"; score := 100; grade := "A+" |}
  else mkScore "Compaction Management"
         (clamp (inject_Z (pct covered totalCompactions))).

(** The counter [good] of [scoreSessionLifecycle]. *)
Definition lifecycleGood (sessions : list ParsedSession) : Q :=
  fold_left
    (fun (good : Q) s =>
       let d := durationMinutes s in
       if Qle_bool d 0 then (good + 1)%Q
       else if negb (Qle_bool d (180 # 1)) && (zlen (commits s) =? 0) then good
       else
         let commitInterval :=
           if 0 <? zlen (commits s)
           then (d / inject_Z (zlen (commits s)))%Q else d in
         if Qle_bool commitInterval (30 # 1) then (good + 1)%Q
         else if Qle_bool commitInterval (60 # 1) then (good + (1 # 2))%Q
         else good)
    sessions 0%Q.

Definition scoreSessionLifecycle (sessions : list ParsedSession)
  : CategoryScore :=
  if (length sessions =? 0)%nat
  then {| name := "Session Lifecycle"; score := 75; grade := "B" |}
  else
    mkScore "Session Lifecycle"
      (clamp (inject_Z (pct (Math_round (lifecycleGood sessions))
                          (zlen sessions)))).

(** The counters [(totalCorrections, fastRecoveries, totalMessages)]. *)
Definition recoveryCounts (sessions : list ParsedSession) : Z * Z * Z :=
  fold_left
    (fun '(corr, fast, msgs) s =>
       let '(corr', fast') :=
         fold_left
           (fun '(corr, fast) c =>
              let cIdx := eventIndex c (events s) in
              let after := sliceZ (cIdx + 1) (cIdx + 3) (events s) in
              (corr + 1,
               if existsb (fun e => String.eqb (ev_type e) "tool_call"
                                    || String.eqb (ev_type e) "assistant_response")
                    after
               then fast + 1 else fast))
           (corrections s) (corr, fast) in
       (corr', fast', msgs + zlen (events s)))
    sessions (0, 0, 0).

Definition scoreErrorRecovery (sessions : list ParsedSession) : CategoryScore :=
  let '(totalCorrections, fastRecoveries, totalMessages) :=
    recoveryCounts sessions in
  if totalCorrections =? 0
  then {| name := "Error Recovery"; score := 95; grade := "A" |}
  else
    let correctionRate : Q :=
      if 0 <? totalMessages
      then (inject_Z totalCorrections / inject_Z totalMessages)%Q else 0%Q in
    let score := clamp ((100 # 1) - correctionRate * (500 # 1))%Q in
    let score :=
      if 0 <? totalCorrections then
        let recoveryBonus :=
          (inject_Z (pct fastRecoveries totalCorrections) * (2 # 10))%Q in
        clamp (inject_Z score + recoveryBonus)%Q
      else score in
    mkScore "Error Recovery" score.

Definition scoreWorkspaceHygiene (sessions : list ParsedSession)
  : CategoryScore :=
  let bonus :=
    count (fun s =>
             let allContent := join " " (map ev_content (events s)) in
             test (lit ".claude/") allContent || test (lit "CLAUDE.md") allContent)
      sessions in
  mkScore "Workspace Hygiene"
    (clamp (inject_Z (75 + (if 0 <? bonus then Z.min (bonus * 5) 20 else 0)))).

(** [/CLAUDE\.md|\.claude\/|checkpoint|context|README/i] *)
Definition CONTEXT_RE : regex :=
  Alts (map liti ["CLAUDE.md"; ".claude/"; "checkpoint"; "context"; "README"]).

Definition scoreCrossSessionContinuity (sessions : list ParsedSession)
  : CategoryScore :=
  if (length sessions =? 0)%nat
  then {| name := "Cross-Session Continuity"; score := 75; grade := "B" |}
  else
    let good :=
      count (fun s =>
               existsb (fun tc => test CONTEXT_RE (ev_content tc))
                 (firstn 3 (toolCalls s)))
        sessions in
    mkScore "Cross-Session Continuity"
      (clamp (inject_Z (pct good (zlen sessions)))).

(** [/test|build|lint|check|verify|jest|vitest|pytest|cargo.test/i] *)
Definition VERIFY_RE : regex :=
  Alts (map liti ["test"; "build"; "lint"; "check"; "verify"; "jest";
                  "vitest"; "pytest"]
        ++ [Seq (liti "cargo") (Seq (Chr is_dot) (liti "test"))]).

Definition scoreVerification (sessions : list ParsedSession) : CategoryScore :=
  if (length sessions =? 0)%nat
  then {| name := "Verification"; score := 75; grade := "B" |}
  else
    let verified :=
      count (fun s =>
               let totalEvents := zlen (events s) in
               let start := Z.max 0 (Qfloor (inject_Z totalEvents * (9 # 10))) in
               let tail := skipn (Z.to_nat start) (events s) in
               existsb (fun e => String.eqb (ev_type e) "tool_call"
                                 && test VERIFY_RE (ev_content e))
                 tail)
        sessions in
    mkScore "Verification" (clamp (inject_Z (pct verified (zlen sessions)))).

(** *** The scorecard *)

(** [xs.sort(cmp)]: the sort of the runtime is stable; it is rendered as an
    insertion sort that places an element before the first later element
    that does not have to precede it. *)
Fixpoint insert {A} (cmp : A -> A -> Z) (x : A) (l : list A) : list A :=
  match l with
  | [] => [x]
  | y :: l' => if cmp x y <=? 0 then x :: l else y :: insert cmp x l'
  end.

Definition sort {A} (cmp : A -> A -> Z) (l : list A) : list A :=
  foldr (insert cmp) [] l.

Definition scoreAll (sessions : list ParsedSession) : list CategoryScore :=
  [ scorePlans sessions;
    scoreClarification sessions;
    scoreDelegation sessions;
    scoreFollowUpSpecificity sessions;
    scoreTokenEfficiency sessions;
    scoreSequencing sessions;
    scoreCompactionManagement sessions;
    scoreSessionLifecycle sessions;
    scoreErrorRecovery sessions;
    scoreWorkspaceHygiene sessions;
    scoreCrossSessionContinuity sessions;
    scoreVerification sessions ].

Definition sum_scores (cs : list CategoryScore) : Z :=
  fold_left (fun s c => s + score c) cs 0.

Definition by_score_desc (a b : CategoryScore) : Z := score b - score a.

(** [today] is [new Date().toISOString().slice(0, 10)]. *)
Definition computeScorecard (sessions : list ParsedSession)
  (project period today : string) : Scorecard :=
  let categories := scoreAll sessions in
  let overall :=
    clamp (inject_Z
             (Math_round (inject_Z (sum_scores categories)
                          / inject_Z (zlen categories))%Q)) in
  let sorted := sort by_score_desc categories in
  {| project := project; period := period; date := today;
     overall := overall; overallGrade := letterGrade overall;
     categories := categories;
     highlights := {| best := head sorted; worst := last sorted |} |}.

(** *** Loading sessions *)

Section Load.

Variable Date_parse : string -> option Z.
Variable toISOString : Z -> string.
Variable JSON_stringify : json -> string.
Variable ToString : json -> string.
Variable basename : string -> string -> string.

(** A session file that passed the filters of [loadSessions], with the
    project of its directory. *)
Record sessionFile : Type := {
  path : string;
  dir_project : string;
  dir_projectName : string;
}.

(** The loop of [loadSessions] over the session files: a file whose
    parsing throws is skipped, and so is a file without events. *)
Definition loadSessions (fs : gmap string SessionParser.file)
  (files : list sessionFile) : list ParsedSession :=
  fold_left
    (fun sessions f =>
       match SessionParser.parseSession Date_parse toISOString JSON_stringify
               ToString basename fs (path f) (dir_project f)
               (dir_projectName f) with
       | Ok (events, _) =>
           if (0 <? length events)%nat
           then (sessions ++ [classifyEvents Date_parse events])%list
           else sessions
       | Throw _ => sessions
       end)
    files [].

End Load.

(** *** Historical baseline *)

Record BaselineData : Type := {
  categoryAverages : gmap string Z;
  overallAverage : Z;
  sessionCount : Z;
  lastUpdated : string;
}.

(** What a baseline file holds: a document [JSON.parse] accepts, or text
    it rejects. *)
Inductive baselineFile : Type :=
| Corrupt
| Stored (data : BaselineData).

Section Baseline.

(** [homedir()] and the hexadecimal MD5 digest of a string. *)
Variable homedir : string.
Variable md5_hex : string -> string.

Definition PREFLIGHT_DIR : string := homedir ++ "/.preflight/projects".

Definition baselinePath (project : string) : string :=
  PREFLIGHT_DIR ++ "/" ++ slice0 12 (md5_hex project) ++ "/baseline.json".

Definition loadBaseline (disk : gmap string baselineFile) (project : string)
  : option BaselineData :=
  match disk !! baselinePath project with
  | Some (Stored data) => Some data
  | Some Corrupt | None => None
  end.

Definition saveBaseline (disk : gmap string baselineFile) (project : string)
  (data : BaselineData) : gmap string baselineFile :=
  <[baselinePath project := Stored data]> disk.

(** [Math.round(p / q)] for a divisor that is not zero. *)
Definition round_div (p q : Z) : Z := Math_round (inject_Z p / inject_Z q)%Q.

(** The body of the loop of [updateBaseline] over the categories of the
    scorecard: the running mean of one category. *)
Definition averaged (n : Z) (m : gmap string Z) (c : CategoryScore)
  : gmap string Z :=
  let prev := default (score c) (m !! name c) in
  <[name c := round_div (prev * n + score c) (n + 1)]> m.

(** [now] is [new Date().toISOString()]. *)
Definition updateBaseline (disk : gmap string baselineFile)
  (project : string) (scorecard : Scorecard) (now : string)
  : gmap string baselineFile :=
  match loadBaseline disk project with
  | None =>
      let categoryAverages :=
        fold_left (fun (m : gmap string Z) c => <[name c := score c]> m)
          (categories scorecard) ∅ in
      saveBaseline disk project
        {| categoryAverages := categoryAverages;
           overallAverage := overall scorecard;
           sessionCount := 1;
           lastUpdated := now |}
  | Some existing =>
      let n := sessionCount existing in
      let newN := n + 1 in
      let overallAverage :=
        round_div (overallAverage existing * n + overall scorecard) newN in
      let categoryAverages :=
        fold_left (averaged n) (categories scorecard)
          (categoryAverages existing) in
      saveBaseline disk project
        {| categoryAverages := categoryAverages;
           overallAverage := overallAverage;
           sessionCount := newN;
           lastUpdated := now |}
  end.

End Baseline.

End Scorecard.

(** ** Notions of the specification *)

Module Spec.
Import Js.

(** The event types the session parser can emit. *)
Definition emitted_types : list string :=
  [ "prompt"; "assistant"; "tool_call"; "sub_agent_spawn"; "correction";
    "compaction"; "error" ].

Definition emitted (e : SessionParser.TimelineEvent) : Prop :=
  In (SessionParser.type e) emitted_types.

(** The type of a line that is a user or an assistant record. *)
Definition turnOf (l : SessionParser.line) : option string :=
  match l with
  | SessionParser.Parsed obj =>
      let ty := SessionParser.prop_opt "type" (Some obj) in
      if SessionParser.is_str "user" ty then Some "user"
      else if SessionParser.is_str "assistant" ty then Some "assistant"
      else None
  | _ => None
  end.

(** The most recently seen user-or-assistant record among the lines
    [before] a record; the empty string when there is none. *)
Definition previousTurn (before : list SessionParser.line) : string :=
  default EmptyString (last (omap turnOf before)).

(** The extracted text of a user record. *)
Definition userText (obj : SessionParser.json) : result string :=
  SessionParser.extractText
    (SessionParser.prop_opt "content"
       (SessionParser.prop_opt "message" (Some obj))).

(** The events of a list that come from line [n] of the file. *)
Definition eventsOfLine (n : Z) (evs : list SessionParser.TimelineEvent)
  : list SessionParser.TimelineEvent :=
  List.filter (fun e => SessionParser.source_line e =? n) evs.

(** The diagnostics due for the unparseable lines of a file, [i] being
    the index of the first line. *)
Fixpoint diagnosticsOf (filePath : string) (i : Z)
  (ls : list SessionParser.line) : list string :=
  match ls with
  | [] => []
  | SessionParser.Malformed :: rest =>
      SessionParser.diagnostic (i + 1) filePath
        :: diagnosticsOf filePath (i + 1) rest
  | _ :: rest => diagnosticsOf filePath (i + 1) rest
  end.




(** The file in which every unparseable line is replaced by an empty
    one. *)
Definition blank (l : SessionParser.line) : SessionParser.line :=
  match l with
  | SessionParser.Malformed => SessionParser.Blank
  | _ => l
  end.

(** Two states of the parsing loop that differ at most in what was
    written to [stderr]. *)
Definition same_but_stderr (a b : SessionParser.pstate) : Prop :=
  SessionParser.events a = SessionParser.events b
  /\ SessionParser.cur_branch a = SessionParser.cur_branch b
  /\ SessionParser.cur_sessionId a = SessionParser.cur_sessionId b
  /\ SessionParser.lastType a = SessionParser.lastType b.

(** The reversal phrase of the specification, [/\brevert\b/i]. *)
Definition REVERT : regex := SessionParser.re_word "revert".

(** A prompt that is just a file path, as the triage of [lib/config.ts]
    tests it with [/^[\w\-./]+\.\w+$/] and
    [/^[\w\-./\\]+[\/\\][\w\-./\\]+\.\w+$/] on the trimmed prompt. *)
Definition isFilePath (prompt : string) : bool :=
  let trimmed := trim prompt in
  let plain c := is_word c || Triage.one_of "-./" c in
  test (Seq Bol (Seq (Plus (Chr plain))
                   (Seq (ch ".") (Seq (Plus (Chr is_word)) Eol)))) trimmed
  || test (Seq Bol
             (Seq (Plus (Chr Triage.path_char))
                (Seq (Chr (fun c => Triage.one_of "/" c
                                    || Ascii.eqb c Triage.backslash))
                   (Seq (Plus (Chr Triage.path_char))
                      (Seq (ch ".") (Seq (Plus (Chr is_word)) Eol))))))
       trimmed.

(** The escalation order of the triage levels. *)
Definition rank (l : Triage.TriageLevel) : Z :=
  match l with
  | Triage.Trivial => 0
  | Triage.Clear => 1
  | Triage.Ambiguous => 2
  | Triage.CrossService => 3
  | Triage.MultiStep => 4
  end.

(** A string that begins, respectively ends, with a character that is
    not white space. *)
Definition starts_ns (s : string) : Prop :=
  match s with
  | String c _ => is_space c = false
  | EmptyString => False
  end.

Fixpoint ends_ns (s : string) : Prop :=
  match s with
  | EmptyString => False
  | String c EmptyString => is_space c = false
  | String _ r => ends_ns r
  end.

(** A prompt contains some keyword of a configured list. *)
Definition containsKeyword (prompt : string) (kws : option (list string))
  : Prop :=
  exists kw, In kw (Triage.opt_list kws) /\ Triage.matchesKeyword prompt kw = true.

(** Nearest integer of [p / q] for [q > 0], a tie going up. *)
Definition nearest (p q r : Z) : Prop :=
  2 * r * q - q <= 2 * p < 2 * r * q + q.

(** A session whose user messages, assistant messages and commits are
    empty. *)
Definition unclassified (s : Scorecard.ParsedSession) : Prop :=
  Scorecard.userMessages s = [] /\ Scorecard.assistantMessages s = []
  /\ Scorecard.commits s = [].

(** The order of a list sorted by descending score. *)
Definition desc (a b : Scorecard.CategoryScore) : Prop :=
  Scorecard.score b <= Scorecard.score a.

(** The first category of a list with the highest, respectively the
    lowest, score. *)
Fixpoint first_max (cs : list Scorecard.CategoryScore)
  : option Scorecard.CategoryScore :=
  match cs with
  | [] => None
  | c :: rest =>
      match first_max rest with
      | Some m => if Scorecard.score c <? Scorecard.score m then Some m else Some c
      | None => Some c
      end
  end.

Fixpoint first_min (cs : list Scorecard.CategoryScore)
  : option Scorecard.CategoryScore :=
  match cs with
  | [] => None
  | c :: rest =>
      match first_min rest with
      | Some m => if Scorecard.score m <? Scorecard.score c then Some m else Some c
      | None => Some c
      end
  end.

(** The last category of a list with the lowest score. *)
Fixpoint last_min (cs : list Scorecard.CategoryScore)
  : option Scorecard.CategoryScore :=
  match cs with
  | [] => None
  | c :: rest =>
      match last_min rest with
      | Some m => if Scorecard.score c <? Scorecard.score m then Some c else Some m
      | None => Some c
      end
  end.

End Spec.

(** ** Inputs of the examples *)

Module Examples.
Import SessionParser.

(** Stand-ins for the library functions of the runtime; no example depends
    on what they return beyond the time stamp given to every event. *)
Definition stamp : string := "2026-01-01T00:00:00.000Z".
Definition no_date (s : string) : option Z := None.
Definition iso (t : Z) : string := stamp.
Definition stringify (v : json) : string := "{}".
Definition to_string (v : json) : string := "[object Object]".
Definition base (p ext : string) : string := p.

(** The record of a message of the user or of the assistant. *)
Definition message (ty text : string) : json :=
  JObj [ ("type", JStr ty);
         ("message", JObj [ ("role", JStr ty); ("content", JStr text) ]) ].

(** An assistant record with one text block and one tool-use block. *)
Definition assistant_with_tool (text tool : string) : json :=
  JObj [ ("type", JStr "assistant");
         ("message",
          JObj [ ("role", JStr "assistant");
                 ("content",
                  JArr [ JObj [ ("type", JStr "text"); ("text", JStr text) ];
                         JObj [ ("type", JStr "tool_use"); ("name", JStr tool);
                                ("input", JStr "src/app.ts") ] ]) ]) ].

Definition event (ty : string) (n : Z) (text : string) : TimelineEvent :=
  {| timestamp := stamp; type := ty; project := "/home/u/demo";
     project_name := "demo"; branch := JStr "";
     session_id := JStr "s1.jsonl"; source_file := "s1.jsonl";
     source_line := n; content := text |}.

(** A file that makes the parser emit each of its seven event types. *)
Definition all_types : list line :=
  [ Parsed (message "user" "add a login page");
    Parsed (assistant_with_tool "On it." "Read");
    Parsed (assistant_with_tool "Delegating." "Task");
    Malformed;
    Parsed (JObj [ ("type", JStr "tool_result"); ("is_error", JBool true);
                   ("content", JStr "ENOENT: no such file") ]);
    Parsed (message "user" "no, wrong file");
    Blank;
    Parsed (JObj [ ("type", JStr "system"); ("subtype", JStr "compaction") ]) ].

Definition all_types_events : list TimelineEvent :=
  [ event "prompt" 1 "add a login page";
    event "assistant" 2 "On it.";
    event "tool_call" 2 "Read: src/app.ts";
    event "assistant" 3 "Delegating.";
    event "sub_agent_spawn" 3 "Task: src/app.ts";
    event "error" 5 "ENOENT: no such file";
    event "correction" 6 "no, wrong file";
    event "compaction" 8 "context compacted" ].

(** A session of one assistant message. *)
Definition one_reply : list line := [ Parsed (message "assistant" "Hello.") ].

(** A directory of session files. *)
Definition demo_fs : gmap string file :=
  {[ "s1.jsonl" := {| mtime := 0; size := 2048; lines := all_types |};
     "s2.jsonl" := {| mtime := 0; size := 128; lines := one_reply |} ]}.

Definition missing_file : Scorecard.sessionFile :=
  {| Scorecard.path := "missing.jsonl";
     Scorecard.dir_project := "/home/u/demo";
     Scorecard.dir_projectName := "demo" |}.

(** The session set loaded from the file of one assistant message. *)
Definition demo_sessions : list Scorecard.ParsedSession :=
  Scorecard.loadSessions no_date iso stringify to_string base demo_fs
    [ {| Scorecard.path := "s2.jsonl";
         Scorecard.dir_project := "/home/u/demo";
         Scorecard.dir_projectName := "demo" |} ].

Definition demo_scorecard : Scorecard.Scorecard :=
  Scorecard.computeScorecard demo_sessions "demo" "week" "2026-01-02".

(** A stand-in for the MD5 digest, and a stored baseline over three
    sessions. *)
Definition digest (s : string) : string := "0123456789abcdef".

Definition demo_baseline : Scorecard.BaselineData :=
  {| Scorecard.categoryAverages :=
       {[ "Plans" := 80; "Verification" := 0; "Retired" := 50 ]};
     Scorecard.overallAverage := 74;
     Scorecard.sessionCount := 3;
     Scorecard.lastUpdated := "2026-01-01T00:00:00.000Z" |}.

Definition demo_disk : gmap string Scorecard.baselineFile :=
  {[ Scorecard.baselinePath "/home/u" digest "demo"
       := Scorecard.Stored demo_baseline ]}.

(** Triage configurations. *)
Definition skip_quick : Triage.TriageConfig :=
  {| Triage.alwaysCheck := None; Triage.skip := Some ["quick"];
     Triage.crossServiceKeywords := None; Triage.strictness := None;
     Triage.relatedAliases := None |}.

Definition check_perms : Triage.TriageConfig :=
  {| Triage.alwaysCheck := Some ["perms"]; Triage.skip := None;
     Triage.crossServiceKeywords := None; Triage.strictness := None;
     Triage.relatedAliases := None |}.

Definition skip_quick_check_perms : Triage.TriageConfig :=
  {| Triage.alwaysCheck := Some ["perms"]; Triage.skip := Some ["quick"];
     Triage.crossServiceKeywords := None; Triage.strictness := None;
     Triage.relatedAliases := None |}.

End Examples.

(** * Further parts of the sources

    The streaming parser and the decoding of project directories of
    [lib/session-parser.ts], the tool profiles of [profiles.ts] (the third
    document of [mcp-server/src/lib/embeddings.ts]), the trend and
    comparison reports of [tools/generate-scorecard.ts] and the task
    ordering of [tools/sequence-tasks.ts] ([unnamed/part_011]). *)

(** ** lib/session-parser.ts: the streaming parser *)

Module SessionStream.
Import Js SessionParser.

Section Runtime.

Variable Date_parse : string -> option Z.
Variable toISOString : Z -> string.
Variable JSON_stringify : json -> string.
Variable ToString : json -> string.
Variable basename : string -> string -> string.

(** One turn of the loop of [parseSessionAsync], on the line numbered
    [lineNum + 1]: a line is [Blank] when [line.trim()] is empty, and the
    record is processed before a summary is looked at. *)
Definition parseLineAsync (filePath project projectName fallbackTs : string)
  (lineNum : Z) (l : line) (st : pstate) : result pstate :=
  match l with
  | Blank => Ok st
  | Malformed =>
      Ok {| events := events st; cur_branch := cur_branch st;
            cur_sessionId := cur_sessionId st; lastType := lastType st;
            stderr := (stderr st ++ [diagnostic (lineNum + 1) filePath])%list |}
  | Parsed obj =>
      evts ← processRecord Date_parse toISOString JSON_stringify ToString
               obj filePath project projectName (cur_branch st)
               (cur_sessionId st) fallbackTs (lineNum + 1) (lastType st);
      ty ← prop "type" (Some obj);
      let summary := is_str "summary" ty in
      let sid := prop_opt "sessionId" (Some obj) in
      Ok {| events := (events st ++ evts)%list;
            cur_branch :=
              if summary
              then nullish (prop_opt "gitBranch" (Some obj)) (JStr "")
              else cur_branch st;
            cur_sessionId :=
              if summary
              then match sid with
                   | Some v => if truthy sid then v else cur_sessionId st
                   | None => cur_sessionId st
                   end
              else cur_sessionId st;
            lastType := if is_str "user" ty then "user"
                        else if is_str "assistant" ty then "assistant"
                        else lastType st;
            stderr := stderr st |}
  end.

Fixpoint parseLoopAsync (filePath project projectName fallbackTs : string)
  (lineNum : Z) (lines : list line) (st : pstate) : result pstate :=
  match lines with
  | [] => Ok st
  | l :: rest =>
      st' ← parseLineAsync filePath project projectName fallbackTs lineNum l st;
      parseLoopAsync filePath project projectName fallbackTs (lineNum + 1) rest st'
  end.

(** The events the promise of [parseSessionAsync] resolves to, with the
    diagnostics written meanwhile, or the error it is rejected with. The
    lines of the file are taken as the line reader yields them and as
    [line.trim()] and [JSON.parse(line)] see them: the streaming parser
    parses the line as it is, where the other parser parses the trimmed
    line, and the line reader yields no empty last line after a final line
    break; that the two see the same lines is assumed here. *)
Definition parseSessionAsync (fs : gmap string file)
  (filePath project projectName : string)
  : result (list TimelineEvent * list string) :=
  stat ← statSync fs filePath;
  let fallbackTs := toISOString (mtime stat) in
  st ← parseLoopAsync filePath project projectName fallbackTs 0 (lines stat)
         (initial basename filePath);
  Ok (events st, stderr st).

End Runtime.

End SessionStream.

(** ** lib/session-parser.ts: project directories *)

Module Projects.
Import Js.

(** [s.replace(/^-/, "/")] *)
Definition replaceLeadingDash (s : string) : string :=
  match s with
  | String c r => if Ascii.eqb c "-" then String "/" r else s
  | EmptyString => s
  end.

(** [s.replace(/-/g, "/")] *)
Fixpoint replaceDashes (s : string) : string :=
  match s with
  | String c r =>
      String (if Ascii.eqb c "-" then "/"%char else c) (replaceDashes r)
  | EmptyString => EmptyString
  end.

(** The project path decoded from the name of a directory. *)
Definition decode (name : string) : string :=
  replaceDashes (replaceLeadingDash name).

(** [decoded.split("/").filter(Boolean).pop() ?? name] *)
Definition projectNameOf (name : string) : string :=
  default name
    (last (List.filter (fun seg => negb (String.eqb seg ""))
             (split "/" (decode name)))).

Record ProjectInfo : Type := {
  project : string;
  projectName : string;
}.

Section Runtime.

(** [path.basename(p)] *)
Variable basename1 : string -> string.

Definition inferProject (projectDir : string) : ProjectInfo :=
  let dir := basename1 projectDir in
  {| project := decode dir; projectName := projectNameOf dir |}.

End Runtime.

(** An entry of [readdirSync(dir, { withFileTypes: true })]. *)
Record dirent : Type := {
  name : string;
  isDirectory : bool;
}.

Record SessionDir : Type := {
  dir_info : ProjectInfo;
  sessionDir : string;
}.

(** [findSessionDirs], from the entries of the projects directory, [None]
    when it does not exist. *)
Definition findSessionDirs (projectsDir : string) (entries : option (list dirent))
  : list SessionDir :=
  match entries with
  | None => []
  | Some es =>
      map (fun e =>
             {| dir_info := {| project := decode (name e);
                               projectName := projectNameOf (name e) |};
                sessionDir := projectsDir ++ "/" ++ name e |})
          (List.filter isDirectory es)
  end.

End Projects.

(** ** tools/generate-scorecard.ts: colours, trends and reports *)

Module Reports.
Import Js.

Definition gradeColor (grade : string) : string :=
  if startsWith "A" grade then "#22c55e"
  else if startsWith "B" grade then "#eab308"
  else if startsWith "C" grade then "#f97316"
  else "#ef4444".

(** The strings [trendArrow] returns: the arrows upwards (U+2191),
    downwards (U+2193) and rightwards (U+2192). *)
Inductive arrow : Type := Up | Down | Flat.

(** The difference is the exact one; the source takes it in floating
    point, which makes no difference on integers. *)
Definition trendArrow (current previous : Q) : arrow :=
  let diff := (current - previous)%Q in
  if negb (Qle_bool diff (5 # 1)) then Up
  else if negb (Qle_bool (- (5 # 1)) diff) then Down
  else Flat.

Record DailyScore : Type := {
  date : string;
  score : Z;
  categories : list Scorecard.CategoryScore;
  sessionCount : Z;
  promptCount : Z;
  toolCallCount : Z;
  correctionCount : Z;
  compactionCount : Z;
}.

(** An element of [categoryTrends]. *)
Record CategoryTrend : Type := {
  name : string;
  current : Z;
  previous : Z;
  trend : arrow;          (* the field [arrow] *)
}.

(** An element of [top3Improve]; the fields are [category], [score] and
    [recommendation]. *)
Record Improvement : Type := {
  category : string;
  improve_score : Z;
  recommendation : string;
}.

Definition IMPROVEMENT_TIPS : gmap string string :=
  list_to_map
    [ ("Plans", "Start sessions with a detailed plan: list files to touch, expected changes, and success criteria before coding.");
      ("Clarification", "Always reference specific file paths and function names in your prompts instead of speaking abstractly.");
      ("Delegation", "When spawning sub-agents, provide detailed context: file paths, expected output format, and constraints.");
      ("Follow-up Specificity", "After receiving a response, reference specific lines/files rather than saying 'fix it' or 'try again'.");
      ("Token Efficiency", "Batch related changes into single prompts. Avoid asking for one small change at a time.");
      ("Sequencing", "Complete work in one area before moving to the next. Avoid jumping between unrelated files.");
      ("Compaction Management", "Commit before context compaction hits. Keep sessions focused to avoid hitting limits.");
      ("Session Lifecycle", "Commit every 15-30 minutes. Don't let sessions run 3+ hours without checkpoints.");
      ("Error Recovery", "When correcting the AI, be specific: 'In file X, line Y, change Z to W' not 'no, wrong'.");
      ("Workspace Hygiene", "Maintain CLAUDE.md and .claude/ workspace docs for project context.");
      ("Cross-Session Continuity", "Start each session by reading project context files (CLAUDE.md, README, etc.).");
      ("Verification", "Always run tests/build at the end of a session to verify changes work.") ].

(** [cs.find((c) => c.name === n)?.score ?? 0] *)
Definition scoreOf (n : string) (cs : list Scorecard.CategoryScore) : Z :=
  match List.find (fun c => String.eqb (Scorecard.name c) n) cs with
  | Some c => Scorecard.score c
  | None => 0
  end.

(** The mean score of a category over some days; over no day the sum, 0,
    is divided by 1. *)
Definition average (n : string) (days : list DailyScore) : Q :=
  let sum := fold_left (fun s d => s + scoreOf n (categories d)) days 0 in
  let k := Z.of_nat (length days) in
  (inject_Z sum / inject_Z (if k =? 0 then 1 else k))%Q.

Definition firstHalf (dailyScores : list DailyScore) : list DailyScore :=
  firstn (Nat.max 1 (length dailyScores / 2)) dailyScores.

Definition secondHalf (dailyScores : list DailyScore) : list DailyScore :=
  skipn (Nat.max 1 (length dailyScores / 2)) dailyScores.

(** The category trends of [buildTrendReport], from its daily scores. *)
Definition categoryTrends (dailyScores : list DailyScore) : list CategoryTrend :=
  let categoryNames :=
    match head dailyScores with
    | Some d => map Scorecard.name (categories d)
    | None => []
    end in
  map (fun n =>
         let avgFirst := average n (firstHalf dailyScores) in
         let avgSecond := average n (secondHalf dailyScores) in
         {| name := n; current := Math_round avgSecond;
            previous := Math_round avgFirst;
            trend := trendArrow avgSecond avgFirst |})
      categoryNames.

Definition by_current (a b : CategoryTrend) : Z := current a - current b.

(** The three areas to improve of [buildTrendReport]. *)
Definition top3Improve (trends : list CategoryTrend) : list Improvement :=
  map (fun t =>
         {| category := name t; improve_score := current t;
            recommendation :=
              default "Focus on improving this area."
                (IMPROVEMENT_TIPS !! name t) |})
      (firstn 3 (Scorecard.sort by_current trends)).

(** *** The comparative report *)

Record ProjectScore : Type := {
  project_name : string;                (* the field [name] *)
  scorecard : Scorecard.Scorecard;
}.

(** The two sentences of the cross-project patterns, by the category and
    the rounded mean they mention: the category is the weakest across all
    projects, or it is strong everywhere. *)
Inductive pattern : Type :=
| Weakest (categoryName : string) (avg : Z)
| Strong (categoryName : string) (avg : Z).

Definition scoresOf (catName : string) (projects : list ProjectScore) : list Z :=
  map (fun p => scoreOf catName (Scorecard.categories (scorecard p))) projects.

Definition patternsOf (projects : list ProjectScore) : list pattern :=
  if (2 <=? length projects)%nat then
    let categoryNames :=
      match head projects with
      | Some p => map Scorecard.name (Scorecard.categories (scorecard p))
      | None => []
      end in
    flat_map
      (fun catName =>
         let scores := scoresOf catName projects in
         let avg :=
           (inject_Z (fold_left Z.add scores 0%Z)
            / inject_Z (Z.of_nat (length scores)))%Q in
         ((if forallb (fun s => s <? 65) scores
           then [Weakest catName (Math_round avg)] else [])
          ++ (if forallb (fun s => 80 <=? s) scores
              then [Strong catName (Math_round avg)] else []))%list)
      categoryNames
  else [].

(** [buildComparativeReport], from the sessions [loadSessions] finds for
    each of the project names: a project without sessions is left out. *)
Definition buildComparativeReport
  (loaded : list (string * list Scorecard.ParsedSession))
  (period today : string) : list ProjectScore * list pattern :=
  let projects :=
    omap (fun '(pName, sessions) =>
            if (length sessions =? 0)%nat then None
            else Some {| project_name := pName;
                         scorecard :=
                           Scorecard.computeScorecard sessions pName period today |})
         loaded in
  (projects, patternsOf projects).

(** *** The handler of the tool *)

Inductive ReportType : Type :=
| scorecard_report      (* "scorecard", the default *)
| trend_report          (* "trend" *)
| comparative_report.   (* "comparative" *)

Inductive Period : Type := session | day | week | month.

Definition periodName (p : Period) : string :=
  match p with
  | session => "session"
  | day => "day"
  | week => "week"
  | month => "month"
  end.

Record Params : Type := {
  project : option string;
  period : Period;
  session_id : option string;
  report_type : ReportType;
  compare_projects : option (list string);
}.

(** What the handler answers with, by the report it has built; how the
    report is laid out, as Markdown or in a PDF file, is left out. *)
Inductive response : Type :=
| NeedsTwoProjects
| ComparativeReport (projects : list ProjectScore) (patterns : list pattern)
| NoSessions
| TrendReport (projectName : string) (baseline : option Scorecard.BaselineData)
| ScorecardReport (sc : Scorecard.Scorecard)
    (baseline : option Scorecard.BaselineData).

Section Handler.

Variable homedir : string.
Variable md5_hex : string -> string.

(** [params.project ?? sessions[0]?.events[0]?.project_name ?? "unknown"] *)
Definition projectNameOf (params : Params)
  (sessions : list Scorecard.ParsedSession) : string :=
  match project params with
  | Some p => p
  | None =>
      match head sessions ≫= (fun s => head (Scorecard.events s)) with
      | Some e => SessionParser.project_name e
      | None => "unknown"
      end
  end.

(** The handler, from the baseline files on disk, the sessions
    [loadSessions] returns for the parameters and those it finds for each
    project to compare; [today] and [now] are the date and the time of the
    call. It returns its answer and the baseline files it leaves. *)
Definition handler (disk : gmap string Scorecard.baselineFile)
  (params : Params) (sessions : list Scorecard.ParsedSession)
  (compared : list (string * list Scorecard.ParsedSession))
  (today now : string) : response * gmap string Scorecard.baselineFile :=
  match report_type params with
  | comparative_report =>
      if (length (default [] (compare_projects params)) <? 2)%nat
      then (NeedsTwoProjects, disk)
      else
        let '(projects, patterns) :=
          buildComparativeReport compared (periodName (period params)) today in
        (ComparativeReport projects patterns, disk)
  | _ =>
      if (length sessions =? 0)%nat then (NoSessions, disk)
      else
        let projectName := projectNameOf params sessions in
        let is_trend :=
          match report_type params with trend_report => true | _ => false end in
        let is_scorecard :=
          match report_type params with scorecard_report => true | _ => false end in
        let long_period :=
          match period params with week | month => true | _ => false end in
        let overallSc :=
          Scorecard.computeScorecard sessions projectName
            (periodName (period params)) today in
        let baseline := Scorecard.loadBaseline homedir md5_hex disk projectName in
        let updated :=
          Scorecard.updateBaseline homedir md5_hex disk projectName overallSc now in
        let regular := (ScorecardReport overallSc baseline, updated) in
        if is_trend
           || (is_scorecard && long_period
               && negb (SessionParser.truthy
                          (option_map SessionParser.JStr (session_id params))))
        then
          if negb is_trend && negb long_period
          then regular
          else (TrendReport projectName baseline, updated)
        else regular
  end.

End Handler.

End Reports.

(** ** tools/sequence-tasks.ts *)

Module SequenceTasks.
Import Js.

Inductive Cat : Type := schema | config | api | ui | test.

Definition Cat_eqb (a b : Cat) : bool :=
  match a, b with
  | schema, schema | config, config | api, api | ui, ui | test, test => true
  | _, _ => false
  end.

(** [/\b(w1|w2|...)\b/i] *)
Definition words (alternatives : list regex) : regex :=
  Seq WordB (Seq (Alts alternatives) WordB).

(** The regular expression of each category, in the order of the keys of
    [CATEGORIES]. *)
Definition CATEGORIES : list (Cat * regex) :=
  [ (schema,
     words [ liti "schema"; liti "migrat"; liti "database"; liti "db";
             liti "table"; liti "column"; liti "index"; liti "alter";
             Seq (liti "foreign") (Seq (Opt (Chr is_dot)) (liti "key")) ]);
    (config,
     words [ liti "config"; liti "env"; liti ".env"; liti "settings";
             Seq (liti "secret") (Opt (chi "s")); liti "dotenv"; liti "yaml";
             liti "toml" ]);
    (api,
     words [ liti "api"; liti "route"; liti "endpoint"; liti "controller";
             liti "handler"; liti "middleware"; liti "graphql"; liti "rest";
             liti "rpc" ]);
    (ui,
     words [ liti "ui"; liti "component"; liti "page"; liti "view";
             liti "layout"; liti "template"; liti "css"; liti "style";
             liti "frontend"; liti "react"; liti "vue"; liti "svelte" ]);
    (test,
     words [ liti "test"; liti "spec"; liti "e2e"; liti "cypress";
             liti "playwright"; liti "jest"; liti "vitest"; liti "assert";
             liti "fixture" ]) ].

Definition DEP_ORDER : list Cat := [ config; schema; api; ui; test ].

Definition classify (task : string) : list Cat :=
  let cats :=
    map fst (List.filter (fun '(_, re) => Js.test re task) CATEGORIES) in
  if (0 <? length cats)%nat then cats else [ui].

(** [cats.includes(c)] *)
Definition includes (c : Cat) (cats : list Cat) : bool :=
  existsb (Cat_eqb c) cats.

Definition riskScore (cats : list Cat) : Z :=
  (if includes schema cats then 10 else 0)
  + (if includes config cats then 7 else 0)
  + (if includes api cats then 4 else 0)
  + (if includes ui cats then 2 else 0)
  + (if includes test cats then 1 else 0).

(** [DEP_ORDER.indexOf(c)] *)
Fixpoint indexIn (c : Cat) (order : list Cat) : Z :=
  match order with
  | [] => -1
  | x :: rest =>
      if Cat_eqb c x then 0
      else let i := indexIn c rest in if i <? 0 then -1 else i + 1
  end.

(** [Math.min(...cats.map((c) => DEP_ORDER.indexOf(c)).filter((i) => i >= 0), 99)] *)
Definition depIndex (cats : list Cat) : Z :=
  fold_right Z.min 99
    (List.filter (fun i => 0 <=? i) (map (fun c => indexIn c DEP_ORDER) cats)).

(** A task with its categories; the directory inferred for the locality
    strategy is left out, with that strategy, the estimate of context
    switches and the warnings. *)
Record Item : Type := {
  task : string;
  cats : list Cat;
}.

Definition classified (tasks : list string) : list Item :=
  map (fun t => {| task := t; cats := classify t |}) tasks.

Inductive Strategy : Type :=
| dependency     (* "dependency" *)
| risk_first.    (* "risk-first" *)

Definition by_dependency (a b : Item) : Z := depIndex (cats a) - depIndex (cats b).
Definition by_risk (a b : Item) : Z := riskScore (cats b) - riskScore (cats a).

(** The tasks in the order of a strategy. *)
Definition ordered (strategy : Strategy) (tasks : list string) : list Item :=
  match strategy with
  | dependency => Scorecard.sort by_dependency (classified tasks)
  | risk_first => Scorecard.sort by_risk (classified tasks)
  end.

End SequenceTasks.

(** ** profiles.ts *)

Module Profiles.
Import Js.

Inductive Profile : Type := minimal | standard | full.

Definition MINIMAL_TOOLS : gset string :=
  list_to_set
    [ "clarify_intent"; "check_session_health"; "session_stats"; "prompt_score" ].

Definition STANDARD_TOOLS : gset string :=
  list_to_set
    [ "scope_work"; "clarify_intent"; "enrich_agent_task"; "sharpen_followup";
      "token_audit"; "sequence_tasks"; "checkpoint"; "check_session_health";
      "log_correction"; "audit_workspace"; "session_handoff"; "what_changed";
      "verify_completion"; "session_stats"; "prompt_score" ].

Definition FULL_TOOLS : gset string :=
  STANDARD_TOOLS ∪
  list_to_set
    [ "onboard_project"; "search_history"; "timeline_view"; "scan_sessions" ].

(** [getProfile], from the value of [PROMPT_DISCIPLINE_PROFILE] in the
    environment, [None] when it is not set. *)
Definition getProfile (env : option string) : Profile :=
  match option_map toLowerCase env with
  | Some e =>
      if String.eqb e "minimal" then minimal
      else if String.eqb e "standard" then standard
      else full
  | None => full
  end.

Definition isToolEnabled (env : option string) (toolName : string) : bool :=
  match getProfile env with
  | minimal => bool_decide (toolName ∈ MINIMAL_TOOLS)
  | standard => bool_decide (toolName ∈ STANDARD_TOOLS)
  | full => bool_decide (toolName ∈ FULL_TOOLS)
  end.

End Profiles.

(** ** Further notions, for the properties of the parser *)

Module ParserNotions.
Import Js SessionParser.

(** The event types each type of record can yield (the table of the
    parser): nothing for any other type of record. *)
Definition yields (recordType : value) (eventType : string) : Prop :=
  (is_str "user" recordType = true
   /\ (eventType = "prompt" \/ eventType = "correction"))
  \/ (is_str "assistant" recordType = true
      /\ (eventType = "assistant" \/ eventType = "tool_call"
          \/ eventType = "sub_agent_spawn"))
  \/ (is_str "tool_result" recordType = true /\ eventType = "error")
  \/ (is_str "system" recordType = true /\ eventType = "compaction").

(** The line of the file an event refers to. *)
Definition lineOf (ls : list line) (e : TimelineEvent) : option line :=
  ls !! Z.to_nat (source_line e - 1).

(** The branch and the session id in force after some lines: those of the
    last summary record, from the given initial values. *)
Definition isSummary (obj : json) : bool :=
  is_str "summary" (prop_opt "type" (Some obj)).

Definition branchStep (b : json) (l : line) : json :=
  match l with
  | Parsed obj =>
      if isSummary obj
      then nullish (prop_opt "gitBranch" (Some obj)) (JStr "")
      else b
  | _ => b
  end.

Definition sessionStep (s : json) (l : line) : json :=
  match l with
  | Parsed obj =>
      if isSummary obj
      then match prop_opt "sessionId" (Some obj) with
           | Some v => if truthy (Some v) then v else s
           | None => s
           end
      else s
  | _ => s
  end.

Definition branchAfter (ls : list line) (b : json) : json :=
  fold_left branchStep ls b.

Definition sessionAfter (ls : list line) (s : json) : json :=
  fold_left sessionStep ls s.

(** The lines before the one an event refers to. *)
Definition linesBefore (ls : list line) (e : TimelineEvent) : list line :=
  firstn (Z.to_nat (source_line e - 1)) ls.

End ParserNotions.

(** ** Further notions, for the properties of the triage classifier *)

Module TriageNotions.
Import Triage.

(** A configuration with another strictness. *)
Definition withStrictness (s : option string) (c : TriageConfig) : TriageConfig :=
  {| alwaysCheck := alwaysCheck c; skip := skip c;
     crossServiceKeywords := crossServiceKeywords c; strictness := s;
     relatedAliases := relatedAliases c |}.

End TriageNotions.

(** ** Further notions, for the properties of the scorecard *)

Module ScorecardNotions.
Import Scorecard.

(** A session as [loadSessions] makes them: its events have the types the
    parser emits, and its user messages, assistant messages and commits
    are empty. *)
Definition loaded (s : ParsedSession) : Prop :=
  Forall Spec.emitted (events s) /\ Spec.unclassified s.

(** The number of compaction events of a session set. *)
Definition compactionTotal (sessions : list ParsedSession) : Z :=
  fold_left (fun t s => t + zlen (compactions s)) sessions 0.

End ScorecardNotions.

(** ** Further notions, for the properties of the reports *)

Module ReportNotions.

(** The order of a list sorted by ascending current score. *)
Definition asc (a b : Reports.CategoryTrend) : Prop :=
  Reports.current a <= Reports.current b.

End ReportNotions.

(** ** Further notions, for the properties of the task ordering *)

Module SequenceNotions.
Import SequenceTasks.


(** The orders of the two strategies: by ascending first layer, and by
    descending risk. *)
Definition layered (a b : Item) : Prop :=
  depIndex (cats a) <= depIndex (cats b).

Definition riskier (a b : Item) : Prop :=
  riskScore (cats b) <= riskScore (cats a).

End SequenceNotions.

(** ** Further notions, for the properties of project directories *)

Module ProjectNotions.

(** A string with a hyphen for every slash. *)
Fixpoint dashed (s : string) : string :=
  match s with
  | String c r => String (if Ascii.eqb c "/" then "-"%char else c) (dashed r)
  | EmptyString => EmptyString
  end.

(** No character of the string is a hyphen or a slash. *)
Fixpoint plain (s : string) : bool :=
  match s with
  | String c r => negb (Ascii.eqb c "-") && negb (Ascii.eqb c "/") && plain r
  | EmptyString => true
  end.

(** The last piece of [cur] reversed followed by [s], cut at slashes. *)
Fixpoint lastSegment (cur s : string) : string :=
  match s with
  | String c r =>
      if Ascii.eqb "/" c then lastSegment EmptyString r
      else lastSegment (String c cur) r
  | EmptyString => String.rev cur
  end.

End ProjectNotions.

(** ** Inputs of further examples *)

Module MoreExamples.
Import SessionParser.

(** A file with a summary record between two messages. *)
Definition with_summary : list line :=
  [ Parsed (Examples.message "user" "add a login page");
    Parsed (JObj [ ("type", JStr "summary"); ("gitBranch", JStr "main");
                   ("sessionId", JStr "abc") ]);
    Malformed;
    Parsed (Examples.message "assistant" "Done.") ].

Definition with_summary_events : list TimelineEvent :=
  [ Examples.event "prompt" 1 "add a login page";
    {| timestamp := Examples.stamp; type := "assistant";
       project := "/home/u/demo"; project_name := "demo";
       branch := JStr "main"; session_id := JStr "abc";
       source_file := "s1.jsonl"; source_line := 4; content := "Done." |} ].

(** A configuration whose only skip keyword is blank, and one whose only
    always-check keyword is. *)
Definition skip_blank : Triage.TriageConfig :=
  {| Triage.alwaysCheck := None; Triage.skip := Some [" "];
     Triage.crossServiceKeywords := None; Triage.strictness := None;
     Triage.relatedAliases := None |}.

Definition check_blank : Triage.TriageConfig :=
  {| Triage.alwaysCheck := Some [" "]; Triage.skip := None;
     Triage.crossServiceKeywords := None; Triage.strictness := None;
     Triage.relatedAliases := None |}.

Definition rename_prompt : string :=
  "rename parseDate to parseIsoDate in src/lib/dates.ts".

Definition prevent_prompt : string :=
  "prevent double submit in the checkout form handler".

(** A request for the scorecard of a week of a project. *)
Definition week_of_demo : Reports.Params :=
  {| Reports.project := Some "demo"; Reports.period := Reports.week;
     Reports.session_id := None;
     Reports.report_type := Reports.scorecard_report;
     Reports.compare_projects := None |}.

(** A stand-in for [toISOString] that tells time values apart. *)
Definition millis (t : Z) : string := pretty t.

End MoreExamples.

(** ** Properties of the session parser *)

Ltac unbind :=
  unfold mbind, result_bind, mret, result_ret in *.

(** Case analysis along a computation in [result] that is known to
    return. *)
Ltac ok_inv :=
  repeat match goal with
    | H : Ok _ = Ok _ |- _ => inversion H; subst; clear H
    | H : Throw _ = Ok _ |- _ => discriminate H
    | H : match ?m with Ok _ => _ | Throw _ => _ end = Ok _ |- _ =>
        let E := fresh "E" in destruct m eqn:E; [ | discriminate H ]
    | H : (if ?b then _ else _) = Ok _ |- _ =>
        let E := fresh "E" in destruct b eqn:E
    end.

(** Membership in an explicit list of strings. *)
Ltac member := simpl; repeat (first [ left; reflexivity | right ]).

Section ParserFacts.
Import Js SessionParser Spec.

Variable Date_parse : string -> option Z.
Variable toISOString : Z -> string.
Variable JSON_stringify : json -> string.
Variable ToString : json -> string.
Variable basename : string -> string -> string.

Local Abbreviation processRecord :=
  (processRecord Date_parse toISOString JSON_stringify ToString).
Local Abbreviation parseLine :=
  (parseLine Date_parse toISOString JSON_stringify ToString).
Local Abbreviation parseLoop :=
  (parseLoop Date_parse toISOString JSON_stringify ToString).
Local Abbreviation parseLinesSync :=
  (parseLinesSync Date_parse toISOString JSON_stringify ToString basename).
Local Abbreviation parseSession :=
  (parseSession Date_parse toISOString JSON_stringify ToString basename).

Lemma prop_Ok (k : string) (obj : json) (v : value) :
  prop k (Some obj) = Ok v -> v = prop_opt k (Some obj).
Proof.
  destruct obj; simpl; intros H; inversion H; reflexivity.
Qed.

Lemma prop_total (k k' : string) (obj : json) (v : value) :
  prop k (Some obj) = Ok v -> prop k' (Some obj) = Ok (prop_opt k' (Some obj)).
Proof.
  destruct obj; simpl; intros H; inversion H; reflexivity.
Qed.

Lemma is_str_excl (a b : string) (v : value) :
  is_str a v = true -> a <> b -> is_str b v = false.
Proof.
  destruct v as [[]|]; simpl; try discriminate.
  intros Ha Hab. apply String.eqb_eq in Ha. subst.
  apply String.eqb_neq. congruence.
Qed.

(** Every event of a record carries the number of its line and one of the
    seven emitted types. *)
Lemma processRecord_events obj fp p pn br sid fb n lt evts :
  processRecord obj fp p pn br sid fb n lt = Ok evts ->
  Forall (fun e => source_line e = n /\ emitted e) evts.
Proof.
  unfold SessionParser.processRecord, emitted, emitted_types. unbind. intros H.
  ok_inv; try (constructor; fail).
  - constructor; [ | constructor ].
    split; [ reflexivity | ]. destruct (_ && _); member.
  - apply Forall_app. split.
    + destruct (String.eqb _ _); [ constructor | ].
      constructor; [ | constructor ]. split; [ reflexivity | member ].
    + apply List.Forall_map, List.Forall_forall. intros t _. unfold toolEvent.
      split; [ reflexivity | ]. destruct (_ || _); member.
  - constructor; [ | constructor ]. split; [ reflexivity | member ].
  - constructor; [ | constructor ]. split; [ reflexivity | member ].
Qed.

(** A user record with a non-empty text yields one event, a correction
    exactly when the previous turn was the assistant's and the text
    matches a correction pattern. *)
Lemma processRecord_user obj fp p pn br sid fb n lt text :
  is_str "user" (prop_opt "type" (Some obj)) = true ->
  userText obj = Ok text ->
  String.eqb text "" = false ->
  exists ev,
    processRecord obj fp p pn br sid fb n lt = Ok [ev]
    /\ type ev = (if String.eqb lt "assistant" && isCorrection text
                  then "correction" else "prompt")
    /\ content ev = text /\ source_line ev = n.
Proof.
  intros Hty Htext Hne. destruct obj; simpl in Hty; try discriminate.
  unfold userText in Htext. unfold SessionParser.processRecord. unbind.
  simpl prop. cbv iota beta. simpl prop_opt in Htext |- *.
  rewrite Hty, Htext, Hne. eexists. split; [ reflexivity | ].
  simpl. auto.
Qed.

Lemma isCorrection_empty : isCorrection "" = false.
Proof. reflexivity. Qed.

Lemma isCorrection_nonempty text :
  isCorrection text = true -> String.eqb text "" = false.
Proof.
  destruct text; [ rewrite isCorrection_empty; discriminate | reflexivity ].
Qed.

(** What one turn of the loop does to the state, when it returns. *)
Lemma parseLine_inv fp p pn fb i l st st' :
  parseLine fp p pn fb i l st = Ok st' ->
  exists new,
    events st' = (events st ++ new)%list
    /\ Forall (fun e => source_line e = i + 1 /\ emitted e) new
    /\ lastType st' = default (lastType st) (turnOf l).
Proof.
  destruct l as [ | | obj ]; unfold SessionParser.parseLine; unbind.
  - intros H; ok_inv. exists []. rewrite app_nil_r. auto.
  - intros H; ok_inv. exists []. simpl. rewrite app_nil_r. auto.
  - intros H. destruct (prop "type" (Some obj)) as [ty | ] eqn:Ety;
      [ | discriminate H ].
    unfold turnOf. rewrite <- (prop_Ok _ _ _ Ety).
    destruct (is_str "summary" ty) eqn:Esum.
    + inversion H; subst; clear H. exists []. simpl. rewrite app_nil_r.
      rewrite (is_str_excl _ "user" _ Esum), (is_str_excl _ "assistant" _ Esum)
        by discriminate.
      auto.
    + ok_inv. exists a. simpl. split; [ reflexivity | ]. split.
      * eapply processRecord_events; eassumption.
      * destruct (is_str "user" ty); [ reflexivity | ].
        destruct (is_str "assistant" ty); reflexivity.
Qed.

Lemma parseLoop_cons fp p pn fb l ls i st :
  parseLoop fp p pn fb i (l :: ls) st =
  (parseLine fp p pn fb i l st ≫= parseLoop fp p pn fb (i + 1) ls).
Proof. reflexivity. Qed.

Lemma parseLoop_app fp p pn fb l1 : forall l2 i st,
  parseLoop fp p pn fb i (l1 ++ l2) st =
  (parseLoop fp p pn fb i l1 st ≫=
     parseLoop fp p pn fb (i + Z.of_nat (length l1)) l2).
Proof.
  induction l1 as [ | l l1 IH ]; intros l2 i st; simpl.
  - unbind. rewrite Z.add_0_r. reflexivity.
  - unbind. destruct (parseLine fp p pn fb i l st) as [st1 | ]; [ | reflexivity ].
    rewrite IH. unbind.
    replace (i + 1 + Z.of_nat (length l1)) with (i + Z.pos (Pos.of_succ_nat (length l1)))
      by lia.
    reflexivity.
Qed.

(** The loop appends events whose line numbers lie in the range it has
    read and do not decrease, and leaves in [lastType] the last turn it has
    seen. *)
Lemma parseLoop_inv fp p pn fb ls : forall i st st',
  parseLoop fp p pn fb i ls st = Ok st' ->
  exists new,
    events st' = (events st ++ new)%list
    /\ Forall (fun e => i < source_line e <= i + Z.of_nat (length ls)
                        /\ emitted e) new
    /\ StronglySorted Z.le (map source_line new)
    /\ lastType st' = default (lastType st) (last (omap turnOf ls)).
Proof.
  induction ls as [ | l ls IH ]; intros i st st'; simpl; unbind.
  - intros H; ok_inv. exists []. rewrite app_nil_r. repeat split; constructor.
  - intros H. destruct (parseLine fp p pn fb i l st) as [st1 | ] eqn:E1;
      [ | discriminate H ].
    apply parseLine_inv in E1. destruct E1 as (n1 & Ev1 & F1 & L1).
    apply IH in H. destruct H as (n2 & Ev2 & F2 & S2 & L2).
    exists (n1 ++ n2)%list. rewrite Ev2, Ev1, app_assoc. split; [ reflexivity | ].
    split; [ | split ].
    + apply Forall_app. split.
      * eapply Forall_impl; [ exact F1 | ]. simpl. intros e [-> He]. split; [ lia | exact He ].
      * eapply Forall_impl; [ exact F2 | ]. simpl. intros e [Hr He]. split; [ lia | exact He ].
    + rewrite map_app. clear - F1 F2 S2.
      induction F1 as [ | e n1 [He _] F1 IH1 ]; simpl; [ exact S2 | ].
      constructor; [ exact IH1 | ].
      apply Forall_app. split.
      * apply List.Forall_map. eapply Forall_impl; [ exact F1 | ].
        simpl. intros e' [-> _]. lia.
      * apply List.Forall_map. eapply Forall_impl; [ exact F2 | ].
        simpl. intros e' [Hr _]. lia.
    + rewrite L2, L1. destruct (turnOf l) as [t | ]; simpl.
      * rewrite last_cons. destruct (last _); reflexivity.
      * reflexivity.
Qed.

Lemma eventsOfLine_app n l1 l2 :
  eventsOfLine n (l1 ++ l2) = (eventsOfLine n l1 ++ eventsOfLine n l2)%list.
Proof. unfold eventsOfLine. apply List.filter_app. Qed.

Lemma eventsOfLine_none n l :
  Forall (fun e => source_line e <> n) l -> eventsOfLine n l = [].
Proof.
  unfold eventsOfLine. induction 1 as [ | e l He _ IH ]; simpl; [ reflexivity | ].
  destruct (Z.eqb_spec (source_line e) n); [ contradiction | exact IH ].
Qed.

(** The turn of the loop on a user record with a non-empty text. *)
Lemma parseLine_user fp p pn fb i obj st text :
  is_str "user" (prop_opt "type" (Some obj)) = true ->
  userText obj = Ok text ->
  String.eqb text "" = false ->
  exists ev st',
    parseLine fp p pn fb i (Parsed obj) st = Ok st'
    /\ events st' = (events st ++ [ev])%list
    /\ type ev = (if String.eqb (lastType st) "assistant" && isCorrection text
                  then "correction" else "prompt")
    /\ content ev = text /\ source_line ev = i + 1.
Proof.
  intros Hty Htext Hne.
  destruct (processRecord_user obj fp p pn (cur_branch st) (cur_sessionId st)
              fb (i + 1) (lastType st) text Hty Htext Hne)
    as (ev & Hpr & Hev).
  unfold SessionParser.parseLine. unbind.
  assert (Hprop : prop "type" (Some obj) = Ok (prop_opt "type" (Some obj))).
  { destruct obj; simpl in Hty; try discriminate. reflexivity. }
  rewrite Hprop, (is_str_excl _ "summary" _ Hty) by discriminate.
  rewrite Hpr. eexists ev, _. split; [ reflexivity | ]. simpl. auto.
Qed.

(** C3. A user record whose text matches a correction pattern yields, in
    the events the parser returns, exactly one event for its line; that
    event is a 'correction' when the most recently seen user-or-assistant
    record earlier in the file was an assistant record, and a 'prompt'
    otherwise, that is, when the record is the first message of the file or
    follows another user record. *)
Theorem C3_correction_gating (before after : list line) (obj : json)
  (text fp p pn fb : string) (evs : list TimelineEvent) (diags : list string) :
  is_str "user" (prop_opt "type" (Some obj)) = true ->
  userText obj = Ok text ->
  isCorrection text = true ->
  parseLinesSync (before ++ Parsed obj :: after) fp p pn fb = Ok (evs, diags) ->
  exists ev,
    eventsOfLine (Z.of_nat (length before) + 1) evs = [ev]
    /\ content ev = text
    /\ type ev = (if String.eqb (previousTurn before) "assistant"
                  then "correction" else "prompt").
Proof.
  intros Hty Htext Hcorr Hparse.
  unfold SessionParser.parseLinesSync in Hparse. unbind.
  destruct (parseLoop _ _ _ _ _ _ _) as [st' | ] eqn:Eloop; [ | discriminate Hparse ].
  inversion Hparse; subst; clear Hparse.
  rewrite parseLoop_app in Eloop. unbind.
  destruct (parseLoop fp p pn fb 0 before _) as [st1 | ] eqn:E1;
    [ | discriminate Eloop ].
  rewrite parseLoop_cons in Eloop. unbind.
  destruct (parseLine_user fp p pn fb (0 + Z.of_nat (length before)) obj st1 text
              Hty Htext (isCorrection_nonempty _ Hcorr))
    as (ev & st2 & Hline & Hev2 & Hty2 & Hc2 & Hl2).
  rewrite Hline in Eloop.
  apply parseLoop_inv in E1. destruct E1 as (n1 & Ev1 & F1 & _ & L1).
  apply parseLoop_inv in Eloop. destruct Eloop as (n3 & Ev3 & F3 & _ & _).
  exists ev. rewrite Ev3, Hev2, Ev1. simpl.
  rewrite !eventsOfLine_app.
  rewrite (eventsOfLine_none _ n1), (eventsOfLine_none _ n3).
  - split; [ | split ].
    + unfold eventsOfLine. simpl. rewrite Hl2.
      replace (0 + Z.of_nat (length before) + 1 =? Z.of_nat (length before) + 1)
        with true by (symmetry; apply Z.eqb_eq; lia).
      reflexivity.
    + exact Hc2.
    + rewrite Hty2, L1, Hcorr, andb_true_r. reflexivity.
  - eapply Forall_impl; [ exact F3 | ]. simpl. intros e [Hr _]. lia.
  - eapply Forall_impl; [ exact F1 | ]. simpl. intros e [Hr _]. lia.
Qed.

(** The events the parser returns have emitted types and line numbers
    that do not decrease. *)
Lemma parseLinesSync_events ls fp p pn fb evs diags :
  parseLinesSync ls fp p pn fb = Ok (evs, diags) ->
  Forall emitted evs /\ StronglySorted Z.le (map source_line evs).
Proof.
  unfold SessionParser.parseLinesSync. unbind. intros H.
  destruct (parseLoop _ _ _ _ _ _ _) as [st' | ] eqn:Eloop; [ | discriminate H ].
  inversion H; subst; clear H.
  apply parseLoop_inv in Eloop. destruct Eloop as (new & Ev & F & S & _).
  rewrite Ev. simpl. split; [ | exact S ].
  eapply Forall_impl; [ exact F | ]. simpl. tauto.
Qed.

Lemma parseSession_events fs path p pn evs diags :
  parseSession fs path p pn = Ok (evs, diags) ->
  Forall emitted evs /\ StronglySorted Z.le (map source_line evs).
Proof.
  unfold SessionParser.parseSession. unbind.
  destruct (statSync fs path) as [stat | ]; [ | discriminate ].
  apply parseLinesSync_events.
Qed.

(** A malformed line leaves the state of the loop as it is, but for the
    diagnostic. *)
Lemma parseLoop_skips_malformed fp p pn fb ls : forall i st sb st',
  same_but_stderr st sb ->
  parseLoop fp p pn fb i ls st = Ok st' ->
  exists sb',
    parseLoop fp p pn fb i (map blank ls) sb = Ok sb'
    /\ same_but_stderr st' sb'.
Proof.
  induction ls as [ | l ls IH ]; intros i st sb st' Hs H.
  - simpl in *. inversion H; subst. eauto.
  - rewrite parseLoop_cons in H. unbind.
    destruct (parseLine fp p pn fb i l st) as [st1 | ] eqn:E1; [ | discriminate H ].
    simpl map. rewrite parseLoop_cons. unbind.
    destruct Hs as (He & Hb & Hi & Hl).
    destruct l as [ | | obj ]; simpl blank.
    + simpl in E1 |- *. inversion E1; subst. eapply IH; [ | exact H ].
      repeat split; assumption.
    + simpl in E1 |- *. inversion E1; subst. eapply IH; [ | exact H ].
      repeat split; assumption.
    + unfold SessionParser.parseLine in E1 |- *. unbind.
      rewrite <- He, <- Hb, <- Hi, <- Hl.
      destruct (prop "type" (Some obj)) as [ty | ]; [ | discriminate E1 ].
      destruct (is_str "summary" ty).
      * inversion E1; subst; clear E1. eapply IH; [ | exact H ].
        repeat split; simpl; assumption.
      * destruct (processRecord _ _ _ _ _ _ _ _ _) as [evts | ];
          [ | discriminate E1 ].
        inversion E1; subst; clear E1. eapply IH; [ | exact H ].
        repeat split; simpl; congruence.
Qed.

Lemma parseLoop_stderr fp p pn fb ls : forall i st st',
  parseLoop fp p pn fb i ls st = Ok st' ->
  stderr st' = (stderr st ++ diagnosticsOf fp i ls)%list.
Proof.
  induction ls as [ | l ls IH ]; intros i st st' H.
  - simpl in *. inversion H; subst. rewrite app_nil_r. reflexivity.
  - rewrite parseLoop_cons in H. unbind.
    destruct (parseLine fp p pn fb i l st) as [st1 | ] eqn:E1; [ | discriminate H ].
    apply IH in H. rewrite H. clear H IH.
    destruct l as [ | | obj ]; unfold SessionParser.parseLine in E1; unbind.
    + inversion E1; reflexivity.
    + inversion E1; subst; simpl. rewrite <- app_assoc. reflexivity.
    + destruct (prop "type" (Some obj)) as [ty | ]; [ | discriminate E1 ].
      destruct (is_str "summary" ty); [ inversion E1; reflexivity | ].
      destruct (processRecord _ _ _ _ _ _ _ _ _); [ | discriminate E1 ].
      inversion E1; reflexivity.
Qed.

Lemma diagnosticsOf_blank fp ls : forall i,
  diagnosticsOf fp i (map blank ls) = [].
Proof.
  induction ls as [ | [ | | obj ] ls IH ]; intros i; simpl; auto.
Qed.

(** When the parser returns, it has written one diagnostic for each
    unparseable line, and its events are those of the file in which every
    unparseable line is replaced by an empty one. *)
Lemma parseLinesSync_skips_malformed ls fp p pn fb evs diags :
  parseLinesSync ls fp p pn fb = Ok (evs, diags) ->
  diags = diagnosticsOf fp 0 ls
  /\ parseLinesSync (map blank ls) fp p pn fb = Ok (evs, []).
Proof.
  unfold SessionParser.parseLinesSync. unbind. intros H.
  destruct (parseLoop _ _ _ _ _ ls _) as [st' | ] eqn:Eloop; [ | discriminate H ].
  inversion H; subst; clear H. split.
  - apply parseLoop_stderr in Eloop. exact Eloop.
  - destruct (parseLoop_skips_malformed _ _ _ _ _ _ _ (initial basename fp) _
                ltac:(repeat split) Eloop) as (sb' & Hsb & (He & _)).
    rewrite Hsb, He. apply parseLoop_stderr in Hsb.
    rewrite Hsb, diagnosticsOf_blank. reflexivity.
Qed.

(** *** The parser returns on readable records *)










(** Each of the seven types is emitted for some record. *)
Example all_types_are_emitted (fp p pn fb : string) :
  match parseLinesSync Examples.all_types fp p pn fb with
  | Ok (evs, diags) =>
      map type evs = [ "prompt"; "assistant"; "tool_call"; "assistant";
                       "sub_agent_spawn"; "error"; "correction"; "compaction" ]
      /\ map source_line evs = [1; 2; 2; 3; 3; 5; 6; 8]
      /\ diags = [diagnostic 4 fp]
  | Throw _ => False
  end.
Proof. vm_compute. repeat split. Qed.

(** A first message is a prompt, whatever its wording. *)
Example first_message_is_a_prompt (fp p pn fb : string) :
  option_map (fun r => map type (fst r))
    (match parseLinesSync [Parsed (Examples.message "user" "no, fix the bug")]
             fp p pn fb with
     | Ok r => Some r
     | Throw _ => None
     end) = Some ["prompt"].
Proof. reflexivity. Qed.

(** C4. The correction patterns of the session parser lack the reversal
    phrase "revert", which the copy of the patterns in the scorecard tool
    has: the user message "please revert", coming right after an assistant
    record, matches the phrase and is still emitted as a 'prompt' event. *)
Theorem C4_revert_is_emitted_as_prompt (fp p pn fb : string) :
  test REVERT "please revert" = true
  /\ existsb (fun r => test r "please revert") Scorecard.CORRECTION_PATTERNS = true
  /\ isCorrection "please revert" = false
  /\ previousTurn [Parsed (Examples.message "assistant" "Done.")] = "assistant"
  /\ exists ev1 ev2,
       parseLinesSync [ Parsed (Examples.message "assistant" "Done.");
                        Parsed (Examples.message "user" "please revert") ]
         fp p pn fb = Ok ([ev1; ev2], [])
       /\ source_line ev2 = 2
       /\ content ev2 = "please revert"
       /\ type ev2 = "prompt".
Proof.
  repeat split; try (vm_compute; reflexivity).
  eexists _, _. repeat split.
Qed.

(** C6. A line holding the JSON value [null] parses, and the read of its
    [type] member then throws: the parser raises a [TypeError] and the
    events of the other lines are lost, while the same lines without it
    yield their two events and the diagnostic of the unparseable line. *)
Theorem C6_null_line_throws (fp p pn fb : string) :
  parseLinesSync [ Parsed (Examples.message "user" "hello"); Malformed;
                   Parsed JNull;
                   Parsed (Examples.message "assistant" "Hi.") ]
    fp p pn fb = Throw TypeError
  /\ exists ev1 ev2,
       parseLinesSync [ Parsed (Examples.message "user" "hello"); Malformed;
                        Parsed (Examples.message "assistant" "Hi.") ]
         fp p pn fb = Ok ([ev1; ev2], [diagnostic 2 fp])
       /\ (type ev1, source_line ev1) = ("prompt", 1)
       /\ (type ev2, source_line ev2) = ("assistant", 3).
Proof.
  split; [ reflexivity | ].
  eexists _, _. repeat split.
Qed.

End ParserFacts.

Lemma C3_correction_gating_witness :
  exists ev,
    Spec.eventsOfLine 2
      [ Examples.event "assistant" 1 "Done.";
        Examples.event "correction" 2 "no, wrong file" ] = [ev]
    /\ SessionParser.content ev = "no, wrong file"
    /\ SessionParser.type ev = "correction".
Proof.
  apply (C3_correction_gating Examples.no_date Examples.iso Examples.stringify
           Examples.to_string Examples.base
           [SessionParser.Parsed (Examples.message "assistant" "Done.")] []
           (Examples.message "user" "no, wrong file") "no, wrong file"
           "s1.jsonl" "/home/u/demo" "demo" Examples.stamp
           [ Examples.event "assistant" 1 "Done.";
             Examples.event "correction" 2 "no, wrong file" ] []);
    reflexivity.
Defined.

(** On a path that does not exist [parseSession] does not return an empty
    list. *)
Lemma C5_counterexample :
  (∅ : gmap string SessionParser.file) !! "missing.jsonl" = None
  /\ ~ exists diags,
         SessionParser.parseSession Examples.no_date Examples.iso
           Examples.stringify Examples.to_string Examples.base
           ∅ "missing.jsonl" "/home/u/demo" "demo" = Ok ([], diags).
Proof.
  split; [ reflexivity | ]. intros [diags H]. discriminate H.
Qed.

(** ** Properties of the triage classifier *)

Section TriageFacts.
Import Js Triage Spec.

(** *** A keyword that occurs in a prompt as it is written passes the
    test of the classifier, which lowers and trims both. *)

Lemma append_cons (x : ascii) (a b : string) :
  (String x a ++ b)%string = String x (a ++ b).
Proof. reflexivity. Qed.

Lemma append_nil (b : string) : ("" ++ b)%string = b.
Proof. reflexivity. Qed.

Lemma append_assoc (a b c : string) : ((a ++ b) ++ c)%string = (a ++ b ++ c)%string.
Proof.
  induction a as [ | x a IH ]; [ reflexivity | ].
  rewrite !append_cons. f_equal. exact IH.
Qed.

Lemma startsWith_spec (p s : string) :
  startsWith p s = true <-> exists r, s = (p ++ r)%string.
Proof.
  revert s. induction p as [ | a p IH ]; intros s.
  - simpl. split; [ intros _; exists s; reflexivity | reflexivity ].
  - destruct s as [ | b s ]; simpl.
    + split; [ discriminate | intros (r & H); discriminate H ].
    + rewrite andb_true_iff, IH. split.
      * intros (Hab & r & ->). apply Ascii.eqb_eq in Hab. subst.
        exists r. reflexivity.
      * intros (r & H). rewrite append_cons in H. inversion H; subst.
        split; [ apply Ascii.eqb_refl | eauto ].
Qed.

Lemma includes_spec (p s : string) :
  includes p s = true <-> exists a b, s = (a ++ p ++ b)%string.
Proof.
  induction s as [ | c s IH ]; simpl.
  - rewrite orb_false_r, startsWith_spec. split.
    + intros (r & H). exists "", r. exact H.
    + intros (a & b & H). destruct a; [ eauto | discriminate H ].
  - rewrite orb_true_iff, startsWith_spec, IH. split.
    + intros [(r & H) | (a & b & ->)].
      * exists "", r. exact H.
      * exists (String c a), b. reflexivity.
    + intros ([ | x a ] & b & H).
      * left. eauto.
      * right. rewrite append_cons in H. inversion H; subst. eauto.
Qed.

Lemma toLowerCase_app (a b : string) :
  toLowerCase (a ++ b) = (toLowerCase a ++ toLowerCase b)%string.
Proof.
  induction a as [ | x a IH ]; [ reflexivity | ].
  rewrite append_cons. simpl. rewrite append_cons. f_equal. exact IH.
Qed.

Lemma trimStart_spec (t : string) :
  (exists w, t = (w ++ trimStart t)%string)
  /\ (trimStart t = "" \/ starts_ns (trimStart t)).
Proof.
  induction t as [ | c t (( w & Hw ) & IH) ]; simpl.
  - split; [ exists ""; reflexivity | left; reflexivity ].
  - destruct (is_space c) eqn:Ec.
    + split; [ | exact IH ].
      exists (String c w). rewrite append_cons, <- Hw. reflexivity.
    + split; [ exists ""; reflexivity | right; exact Ec ].
Qed.

Lemma trimStart_keeps (x y : string) :
  starts_ns y -> exists x', trimStart (x ++ y) = (x' ++ y)%string.
Proof.
  intros Hy. induction x as [ | c x (x' & IH) ].
  - exists "". rewrite !append_nil.
    destruct y as [ | d y ]; simpl in *; [ contradiction | ].
    rewrite Hy. reflexivity.
  - rewrite append_cons. simpl.
    destruct (is_space c); [ eauto | exists (String c x); reflexivity ].
Qed.

Lemma trimEnd_spec (t : string) :
  (exists w, t = (trimEnd t ++ w)%string)
  /\ (trimEnd t = "" \/ ends_ns (trimEnd t))
  /\ (trimEnd t <> "" -> starts_ns t -> starts_ns (trimEnd t)).
Proof.
  induction t as [ | c t (( w & Hw ) & IHe & _) ]; simpl.
  - split; [ exists ""; reflexivity | ]. split; [ left; reflexivity | ].
    intros H; contradiction.
  - destruct (trimEnd t) as [ | d u ] eqn:Et.
    + destruct (is_space c) eqn:Ec.
      * split; [ exists (String c t); reflexivity | ].
        split; [ left; reflexivity | intros H; contradiction ].
      * split; [ exists t; reflexivity | ].
        split; [ right; exact Ec | intros _ _; exact Ec ].
    + split; [ exists w; rewrite append_cons, <- Hw; reflexivity | ].
      split; [ | intros _ H; exact H ].
      right. destruct IHe as [IHe | IHe]; [ discriminate IHe | exact IHe ].
Qed.

Lemma trimEnd_cons (c : ascii) (s : string) :
  trimEnd (String c s) =
  match trimEnd s with
  | "" => if is_space c then "" else String c ""
  | String d t => String c (String d t)
  end.
Proof. reflexivity. Qed.

Lemma ends_ns_app (x y : string) : ends_ns y -> ends_ns (x ++ y).
Proof.
  intros Hy. induction x as [ | c x IH ]; [ exact Hy | ].
  rewrite append_cons. simpl.
  destruct (x ++ y)%string eqn:E; [ | exact IH ].
  destruct x; [ rewrite append_nil in E; subst; contradiction | discriminate E ].
Qed.

Lemma trimEnd_keeps (y z : string) :
  ends_ns y -> exists z', trimEnd (y ++ z) = (y ++ z')%string.
Proof.
  induction y as [ | c y IH ]; [ simpl; contradiction | ].
  destruct y as [ | d y ].
  - intros Hc. simpl in Hc. rewrite append_cons, append_nil. simpl.
    destruct (trimEnd z) as [ | e u ].
    + rewrite Hc. exists "". reflexivity.
    + exists (String e u). reflexivity.
  - intros Hy. destruct (IH Hy) as (z' & E).
    rewrite (append_cons c (String d y) z), trimEnd_cons, E.
    exists z'. reflexivity.
Qed.

(** A keyword that occurs in the prompt matches it. *)
Lemma includes_matchesKeyword (prompt kw : string) :
  includes kw prompt = true -> matchesKeyword prompt kw = true.
Proof.
  intros H. apply includes_spec in H. destruct H as (a & b & ->).
  unfold matchesKeyword, lower. rewrite !toLowerCase_app.
  set (K := toLowerCase kw). set (la := toLowerCase a). set (lb := toLowerCase b).
  unfold trim at 1.
  destruct (trimStart_spec K) as ((w1 & H1) & Hs).
  destruct (trimEnd_spec (trimStart K)) as ((w2 & H2) & He & Hh).
  destruct (trimEnd (trimStart K)) as [ | c T ] eqn:ET.
  { destruct (trim _); reflexivity. }
  assert (Hne : String c T <> "") by discriminate.
  destruct Hs as [Hs | Hs]; [ rewrite Hs in ET; discriminate ET | ].
  specialize (Hh Hne Hs).
  destruct He as [He | He]; [ discriminate He | ].
  apply includes_spec.
  assert (HK : K = (w1 ++ String c T ++ w2)%string).
  { rewrite H1 at 1. rewrite H2 at 1. reflexivity. }
  rewrite HK.
  replace (la ++ (w1 ++ String c T ++ w2) ++ lb)%string
    with ((la ++ w1) ++ (String c T ++ (w2 ++ lb)))%string
    by (rewrite !append_assoc; reflexivity).
  unfold trim.
  destruct (trimStart_keeps (la ++ w1) (String c T ++ (w2 ++ lb))) as (x' & ->);
    [ exact Hh | ].
  rewrite <- append_assoc.
  destruct (trimEnd_keeps (x' ++ String c T) (w2 ++ lb)) as (z' & ->);
    [ apply ends_ns_app; exact He | ].
  exists x', z'. rewrite append_assoc. reflexivity.
Qed.

Lemma find_contains (prompt : string) (kws : option (list string)) :
  containsKeyword prompt kws <->
  exists kw, List.find (matchesKeyword prompt) (opt_list kws) = Some kw.
Proof.
  unfold containsKeyword. split.
  - intros (kw & Hin & Hm).
    destruct (List.find _ _) as [kw' | ] eqn:E; [ eauto | ].
    apply (List.find_none _ _ E) in Hin. congruence.
  - intros (kw & E). apply List.find_some in E. eauto.
Qed.

Lemma find_not_contains (prompt : string) (kws : option (list string)) :
  ~ containsKeyword prompt kws ->
  List.find (matchesKeyword prompt) (opt_list kws) = None.
Proof.
  intros H. destruct (List.find _ _) as [kw | ] eqn:E; [ | reflexivity ].
  exfalso. apply H, find_contains. eauto.
Qed.

(** The examples of the header of the module, and the prompt of the
    end-to-end scenario of the specification. *)
Example triage_commit : level (triagePrompt "commit" None) = Trivial.
Proof. reflexivity. Qed.

Example triage_fix_the_auth_bug :
  level (triagePrompt "fix the auth bug" None) = Ambiguous.
Proof. reflexivity. Qed.

Example triage_refactor_and_update :
  level (triagePrompt "refactor auth to OAuth2 and update all API consumers"
           None) = MultiStep.
Proof. reflexivity. Qed.

Example triage_fix_the_bug :
  triagePrompt "fix the bug" None =
    {| level := Ambiguous; confidence := 7 # 10;
       reasons := [ "short prompt without file references";
                    "contains vague verbs without specific targets" ];
       recommended_tools := ["clarify-intent"; "scope-work"];
       cross_service_hits := None |}.
Proof. reflexivity. Qed.

(** C2, as the code has it. A prompt that contains a configured skip
    keyword is classified 'trivial' with confidence 0.95, whatever else it
    matches; a prompt that contains no configured skip keyword, contains a
    configured always-check keyword and matches the ambiguous-verb signal
    is classified 'ambiguous', 'cross-service' or 'multi-step'. *)
Theorem C2_triage_priority (prompt : string) (config : option TriageConfig) :
  let cfg := match config with Some c => c | None => empty_config end in
  let r := triagePrompt prompt config in
  (containsKeyword prompt (skip cfg) ->
   level r = Trivial /\ confidence r = 95 # 100)
  /\ (~ containsKeyword prompt (skip cfg) ->
      containsKeyword prompt (alwaysCheck cfg) ->
      hasVagueVerbs prompt = true ->
      rank Ambiguous <= rank (level r)).
Proof.
  intros cfg r. subst r. unfold triagePrompt. fold cfg. split.
  - intros H. apply find_contains in H. destruct H as (kw & ->). auto.
  - intros Hskip Halways _. rewrite (find_not_contains _ _ Hskip).
    destruct (isMultiStep prompt); [ simpl; lia | ].
    destruct (0 <? length (detectCrossService prompt cfg))%nat; [ simpl; lia | ].
    apply find_contains in Halways. destruct Halways as (kw & ->).
    simpl. lia.
Qed.

(** C9. The prompt "src/app.ts" is shorter than 20 characters and is just
    a file path; it matches no keyword and no multi-step indicator; the
    classifier, which has no file-path rule at its step 5, returns
    'clear'. *)
Theorem C9_bare_file_path_is_clear :
  len (trim "src/app.ts") < 20
  /\ isFilePath "src/app.ts" = true
  /\ isMultiStep "src/app.ts" = false
  /\ detectCrossService "src/app.ts" empty_config = []
  /\ isTrivialCommand "src/app.ts" = false
  /\ triagePrompt "src/app.ts" None =
       {| level := Clear; confidence := 85 # 100;
          reasons := ["references specific file paths"];
          recommended_tools := ["verify-files-exist"];
          cross_service_hits := None |}.
Proof.
  repeat split; vm_compute; reflexivity.
Qed.

End TriageFacts.

Lemma C2_triage_priority_witness :
  Triage.isMultiStep "quick: rename a.ts and then b.ts" = true
  /\ Triage.hasVagueVerbs "fix the perms" = true
  /\ (Triage.level (Triage.triagePrompt "quick: rename a.ts and then b.ts"
                   (Some Examples.skip_quick)) = Triage.Trivial
   /\ Triage.confidence (Triage.triagePrompt "quick: rename a.ts and then b.ts"
                   (Some Examples.skip_quick)) = 95 # 100)
  /\ Spec.rank Triage.Ambiguous <= Spec.rank (Triage.level (Triage.triagePrompt "fix the perms" (Some Examples.check_perms))).
Proof.
  split; [ reflexivity | ]. split; [ reflexivity | ]. split.
  - apply (proj1 (C2_triage_priority "quick: rename a.ts and then b.ts"
                    (Some Examples.skip_quick))).
    exists "quick". split; [ left; reflexivity | reflexivity ].
  - apply (proj2 (C2_triage_priority "fix the perms" (Some Examples.check_perms))).
    + intros (kw & Hin & _). destruct Hin.
    + exists "perms". split; [ left; reflexivity | reflexivity ].
    + reflexivity.
Defined.

(** A prompt with a skip keyword, an always-check keyword and a vague verb
    is classified 'trivial', below 'ambiguous'. *)
Lemma C2_counterexample :
  Spec.containsKeyword "quick fix the perms"
    (Triage.alwaysCheck Examples.skip_quick_check_perms)
  /\ Triage.hasVagueVerbs "quick fix the perms" = true
  /\ Triage.level (Triage.triagePrompt "quick fix the perms"
                     (Some Examples.skip_quick_check_perms)) = Triage.Trivial
  /\ ~ Spec.rank Triage.Ambiguous
       <= Spec.rank (Triage.level
                       (Triage.triagePrompt "quick fix the perms"
                          (Some Examples.skip_quick_check_perms))).
Proof.
  split; [ | split; [ | split ] ].
  - exists "perms". split; [ left; reflexivity | reflexivity ].
  - reflexivity.
  - reflexivity.
  - vm_compute. intros H. apply H. reflexivity.
Qed.

(** ** Properties of the scorecard engine *)

Section ScorecardFacts.
Import Js Scorecard Spec.

Example grade_of_80 : letterGrade 80 = "B+".
Proof. reflexivity. Qed.

Example clamp_rounds_half_up : clamp (145 # 10) = 15 /\ clamp (-3 # 1) = 0
                               /\ clamp (1234 # 10) = 100.
Proof. repeat split. Qed.

Lemma clamp_range (v : Q) : 0 <= clamp v <= 100.
Proof. unfold clamp. lia. Qed.

Lemma mkScore_range (n : string) (v : Q) : 0 <= score (mkScore n (clamp v)) <= 100.
Proof. simpl. apply clamp_range. Qed.

Ltac in_range :=
  first [ apply mkScore_range | apply clamp_range | simpl; lia ].

Lemma scorePlans_range s : 0 <= score (scorePlans s) <= 100.
Proof. unfold scorePlans. destruct (_ =? _)%nat; in_range. Qed.

Lemma scoreClarification_range s : 0 <= score (scoreClarification s) <= 100.
Proof.
  unfold scoreClarification. destruct (clarificationCounts s). in_range.
Qed.

Lemma scoreDelegation_range s : 0 <= score (scoreDelegation s) <= 100.
Proof.
  unfold scoreDelegation. destruct (delegationCounts s) as [t q].
  destruct (t =? 0); in_range.
Qed.

Lemma scoreFollowUpSpecificity_range s :
  0 <= score (scoreFollowUpSpecificity s) <= 100.
Proof.
  unfold scoreFollowUpSpecificity. destruct (followUpCounts s). in_range.
Qed.

Lemma scoreTokenEfficiency_range s : 0 <= score (scoreTokenEfficiency s) <= 100.
Proof.
  unfold scoreTokenEfficiency. destruct (fold_left _ s (0, 0)). in_range.
Qed.

Lemma scoreSequencing_range s : 0 <= score (scoreSequencing s) <= 100.
Proof.
  unfold scoreSequencing. destruct (sequencingCounts s). in_range.
Qed.

Lemma scoreCompactionManagement_range s :
  0 <= score (scoreCompactionManagement s) <= 100.
Proof.
  unfold scoreCompactionManagement. destruct (compactionCounts s) as [t c].
  destruct (t =? 0); in_range.
Qed.

Lemma scoreSessionLifecycle_range s :
  0 <= score (scoreSessionLifecycle s) <= 100.
Proof. unfold scoreSessionLifecycle. destruct (_ =? _)%nat; in_range. Qed.

Lemma scoreErrorRecovery_range s : 0 <= score (scoreErrorRecovery s) <= 100.
Proof.
  unfold scoreErrorRecovery. destruct (recoveryCounts s) as [[c f] m].
  destruct (c =? 0); [ in_range | ]. destruct (0 <? c); in_range.
Qed.

Lemma scoreWorkspaceHygiene_range s :
  0 <= score (scoreWorkspaceHygiene s) <= 100.
Proof. unfold scoreWorkspaceHygiene. in_range. Qed.

Lemma scoreCrossSessionContinuity_range s :
  0 <= score (scoreCrossSessionContinuity s) <= 100.
Proof. unfold scoreCrossSessionContinuity. destruct (_ =? _)%nat; in_range. Qed.

Lemma scoreVerification_range s : 0 <= score (scoreVerification s) <= 100.
Proof. unfold scoreVerification. destruct (_ =? _)%nat; in_range. Qed.

(** C8. For every set of sessions each of the twelve category scores is
    an integer between 0 and 100, and so is the overall score of the
    scorecard. *)
Theorem C8_scores_in_range (sessions : list ParsedSession)
  (project period today : string) :
  let sc := computeScorecard sessions project period today in
  categories sc =
    [ scorePlans sessions; scoreClarification sessions;
      scoreDelegation sessions; scoreFollowUpSpecificity sessions;
      scoreTokenEfficiency sessions; scoreSequencing sessions;
      scoreCompactionManagement sessions; scoreSessionLifecycle sessions;
      scoreErrorRecovery sessions; scoreWorkspaceHygiene sessions;
      scoreCrossSessionContinuity sessions; scoreVerification sessions ]
  /\ Forall (fun c => 0 <= score c <= 100) (categories sc)
  /\ 0 <= overall sc <= 100.
Proof.
  intros sc. split; [ reflexivity | ]. split; [ | apply clamp_range ].
  unfold sc, computeScorecard, scoreAll. cbn [categories].
  repeat first [ apply List.Forall_nil | apply List.Forall_cons ].
  - apply scorePlans_range.
  - apply scoreClarification_range.
  - apply scoreDelegation_range.
  - apply scoreFollowUpSpecificity_range.
  - apply scoreTokenEfficiency_range.
  - apply scoreSequencing_range.
  - apply scoreCompactionManagement_range.
  - apply scoreSessionLifecycle_range.
  - apply scoreErrorRecovery_range.
  - apply scoreWorkspaceHygiene_range.
  - apply scoreCrossSessionContinuity_range.
  - apply scoreVerification_range.
Qed.

(** *** Highlights *)

Lemma insert_desc x l :
  StronglySorted desc l -> StronglySorted desc (insert by_score_desc x l).
Proof.
  induction 1 as [ | y l Hs IH Hy ]; simpl.
  - apply SSorted_cons; [ apply SSorted_nil | apply List.Forall_nil ].
  - unfold by_score_desc at 1.
    destruct (Z.leb_spec (score y - score x) 0) as [Hle | Hgt].
    + apply SSorted_cons; [ apply SSorted_cons; assumption | ].
      apply List.Forall_cons; [ unfold desc; lia | ].
      eapply Forall_impl; [ exact Hy | ]. unfold desc. simpl. intros; lia.
    + apply SSorted_cons; [ exact IH | ].
      clear - Hy Hgt. induction Hy as [ | z l Hz Hy IHl ]; simpl.
      * apply List.Forall_cons; [ unfold desc; lia | apply List.Forall_nil ].
      * destruct (by_score_desc x z <=? 0).
        -- apply List.Forall_cons; [ unfold desc; lia | ].
           apply List.Forall_cons; assumption.
        -- apply List.Forall_cons; assumption.
Qed.

Lemma sort_desc l : StronglySorted desc (sort by_score_desc l).
Proof.
  induction l as [ | x l IH ]; simpl; [ constructor | apply insert_desc, IH ].
Qed.

Lemma head_insert x l :
  head (insert by_score_desc x l) =
  match head l with
  | Some m => if score x <? score m then Some m else Some x
  | None => Some x
  end.
Proof.
  destruct l as [ | y l ]; simpl; [ reflexivity | ].
  unfold by_score_desc.
  destruct (Z.leb_spec (score y - score x) 0), (Z.ltb_spec (score x) (score y));
    try lia; reflexivity.
Qed.

Lemma last_insert x l :
  StronglySorted desc l ->
  last (insert by_score_desc x l) =
  match last l with
  | Some m => if score x <? score m then Some x else Some m
  | None => Some x
  end.
Proof.
  induction 1 as [ | y l Hs IH Hy ]; simpl; [ reflexivity | ].
  unfold by_score_desc at 1.
  destruct (Z.leb_spec (score y - score x) 0) as [Hle | Hgt].
  - rewrite last_cons. rewrite (last_cons y l).
    destruct (last l) as [m | ] eqn:El.
    + apply last_Some in El. destruct El as (l' & ->).
      apply Forall_app in Hy. destruct Hy as [_ Hm].
      inversion Hm; subst. unfold desc in *.
      destruct (Z.ltb_spec (score x) (score m)); [ lia | reflexivity ].
    + destruct (Z.ltb_spec (score x) (score y)); [ lia | reflexivity ].
  - rewrite last_cons, IH, (last_cons y l).
    destruct (last l) as [m | ].
    + destruct (score x <? score m); reflexivity.
    + destruct (Z.ltb_spec (score x) (score y)); [ reflexivity | lia ].
Qed.

Lemma head_sort l : head (sort by_score_desc l) = first_max l.
Proof.
  induction l as [ | x l IH ]; simpl; [ reflexivity | ].
  rewrite head_insert, IH. reflexivity.
Qed.

Lemma last_sort l : last (sort by_score_desc l) = last_min l.
Proof.
  induction l as [ | x l IH ]; simpl; [ reflexivity | ].
  rewrite last_insert by apply sort_desc. rewrite IH. reflexivity.
Qed.

Lemma first_max_cons c l : first_max (c :: l) <> None.
Proof. simpl. destruct (first_max l); [ destruct (_ <? _) | ]; discriminate. Qed.

Lemma last_min_cons c l : last_min (c :: l) <> None.
Proof. simpl. destruct (last_min l); [ destruct (_ <? _) | ]; discriminate. Qed.

(** [first_max] is the first element with the highest score. *)
Lemma first_max_spec l b :
  first_max l = Some b ->
  exists pre post,
    l = (pre ++ b :: post)%list
    /\ Forall (fun c => score c < score b) pre
    /\ Forall (fun c => score c <= score b) post.
Proof.
  revert b. induction l as [ | x l IH ]; intros b; simpl; [ discriminate | ].
  destruct (first_max l) as [m | ] eqn:Em.
  - destruct (IH m eq_refl) as (pre & post & -> & Hpre & Hpost).
    destruct (Z.ltb_spec (score x) (score m)); intros [= <-].
    + exists (x :: pre), post. repeat split; [ constructor; assumption | assumption ].
    + exists [], (pre ++ m :: post)%list. repeat split; [ constructor | ].
      apply Forall_app. split.
      * eapply Forall_impl; [ exact Hpre | ]. simpl. intros; lia.
      * constructor; [ lia | ].
        eapply Forall_impl; [ exact Hpost | ]. simpl. intros; lia.
  - intros [= <-]. destruct l; [ | exact (False_ind _ (first_max_cons _ _ Em)) ].
    exists [], []. repeat split; constructor.
Qed.

(** [last_min] is the last element with the lowest score. *)
Lemma last_min_spec l w :
  last_min l = Some w ->
  exists pre post,
    l = (pre ++ w :: post)%list
    /\ Forall (fun c => score w <= score c) pre
    /\ Forall (fun c => score w < score c) post.
Proof.
  revert w. induction l as [ | x l IH ]; intros w; simpl; [ discriminate | ].
  destruct (last_min l) as [m | ] eqn:Em.
  - destruct (IH m eq_refl) as (pre & post & -> & Hpre & Hpost).
    destruct (Z.ltb_spec (score x) (score m)); intros [= <-].
    + exists [], (pre ++ m :: post)%list. repeat split; [ constructor | ].
      apply Forall_app. split.
      * eapply Forall_impl; [ exact Hpre | ]. simpl. intros; lia.
      * constructor; [ lia | ].
        eapply Forall_impl; [ exact Hpost | ]. simpl. intros; lia.
    + exists (x :: pre), post. repeat split; [ constructor; assumption | assumption ].
  - intros [= <-]. destruct l; [ | exact (False_ind _ (last_min_cons _ _ Em)) ].
    exists [], []. repeat split; constructor.
Qed.

(** C10, as the code has it. [highlights.best] is the category with the
    highest score, the first one in the canonical order among those that
    tie for it; [highlights.worst] is the category with the lowest score,
    the last one in the canonical order among those that tie for it. *)
Theorem C10_highlights (sessions : list ParsedSession)
  (project period today : string) :
  let sc := computeScorecard sessions project period today in
  exists b w pre_b post_b pre_w post_w,
    best (highlights sc) = Some b
    /\ worst (highlights sc) = Some w
    /\ categories sc = (pre_b ++ b :: post_b)%list
    /\ Forall (fun c => score c < score b) pre_b
    /\ Forall (fun c => score c <= score b) post_b
    /\ categories sc = (pre_w ++ w :: post_w)%list
    /\ Forall (fun c => score w <= score c) pre_w
    /\ Forall (fun c => score w < score c) post_w.
Proof.
  intros sc. unfold sc, computeScorecard. cbn [highlights best worst categories].
  rewrite head_sort, last_sort.
  destruct (first_max (scoreAll sessions)) as [b | ] eqn:Eb;
    [ | exact (False_ind _ (first_max_cons _ _ Eb)) ].
  destruct (last_min (scoreAll sessions)) as [w | ] eqn:Ew;
    [ | exact (False_ind _ (last_min_cons _ _ Ew)) ].
  destruct (first_max_spec _ _ Eb) as (pre_b & post_b & H1 & H2 & H3).
  destruct (last_min_spec _ _ Ew) as (pre_w & post_w & H4 & H5 & H6).
  exists b, w, pre_b, post_b, pre_w, post_w. auto 10.
Qed.

(** *** Baseline *)

(** [Math.round(p / q)] for a positive divisor, in integer arithmetic. *)
Lemma round_div_floor (p q : Z) :
  0 < q -> round_div p q = (2 * p + q) / (2 * q).
Proof.
  intros Hq. destruct q as [ | q | q ]; try lia.
  unfold round_div, Math_round, Qfloor, Qplus, Qdiv, Qmult, Qinv, inject_Z.
  simpl Qnum. simpl Qden. f_equal; lia.
Qed.

(** [Math.round(p / q)] is the integer nearest to the quotient, a tie
    going up. *)
Lemma round_div_nearest (p q : Z) : 0 < q -> nearest p q (round_div p q).
Proof.
  intros Hq. rewrite round_div_floor by exact Hq. unfold nearest.
  pose proof (Z.div_mod (2 * p + q) (2 * q) ltac:(lia)) as Hd.
  pose proof (Z.mod_pos_bound (2 * p + q) (2 * q) ltac:(lia)) as Hm.
  lia.
Qed.

Section Baseline.

Variable homedir : string.
Variable md5_hex : string -> string.

Local Abbreviation loadBaseline := (loadBaseline homedir md5_hex).
Local Abbreviation updateBaseline := (updateBaseline homedir md5_hex).

Lemma averaged_other n cs : forall (m : gmap string Z) (k : string),
  ~ In k (map name cs) ->
  fold_left (averaged n) cs m !! k = m !! k.
Proof.
  induction cs as [ | c cs IH ]; intros m k Hk; simpl; [ reflexivity | ].
  simpl in Hk. rewrite IH by tauto. unfold averaged.
  apply lookup_insert_ne. tauto.
Qed.

Lemma averaged_category n cs : forall (m : gmap string Z) (c : CategoryScore),
  List.NoDup (map name cs) ->
  In c cs ->
  fold_left (averaged n) cs m !! name c =
  Some (round_div (default (score c) (m !! name c) * n + score c) (n + 1)).
Proof.
  induction cs as [ | c0 cs IH ]; intros m c Hnd Hin; simpl in *; [ contradiction | ].
  inversion Hnd as [ | ? ? Hnotin Hnd' ]; subst.
  destruct Hin as [-> | Hin].
  - rewrite averaged_other by exact Hnotin. unfold averaged.
    apply lookup_insert_eq.
  - rewrite IH by assumption.
    assert (Hne : name c0 <> name c).
    { intros Heq. apply Hnotin. rewrite Heq. apply in_map. exact Hin. }
    unfold averaged at 1. rewrite lookup_insert_ne by exact Hne. reflexivity.
Qed.

(** C7. With a stored baseline of overall average [a] over [n] sessions,
    [updateBaseline] with a scorecard of overall score [s] stores the
    overall average [round((a*n + s)/(n+1))], the nearest integer of the
    new mean, and the session count [n+1]; the average of each category of
    the scorecard is updated by the same formula (from the score itself
    when the category had no average), the others are kept. *)
Theorem C7_incremental_baseline (disk : gmap string baselineFile)
  (project now : string) (scorecard : Scorecard) (existing : BaselineData) :
  loadBaseline disk project = Some existing ->
  0 <= sessionCount existing ->
  List.NoDup (map name (categories scorecard)) ->
  let a := overallAverage existing in
  let n := sessionCount existing in
  let s := overall scorecard in
  exists updated,
    loadBaseline (updateBaseline disk project scorecard now) project
      = Some updated
    /\ sessionCount updated = n + 1
    /\ overallAverage updated
         = Math_round (inject_Z (a * n + s) / inject_Z (n + 1))%Q
    /\ nearest (a * n + s) (n + 1) (overallAverage updated)
    /\ (forall c, In c (categories scorecard) ->
          let prev := default (score c) (categoryAverages existing !! name c) in
          categoryAverages updated !! name c
            = Some (Math_round (inject_Z (prev * n + score c) / inject_Z (n + 1))%Q)
          /\ nearest (prev * n + score c) (n + 1)
               (Math_round (inject_Z (prev * n + score c) / inject_Z (n + 1))%Q))
    /\ (forall k, ~ In k (map name (categories scorecard)) ->
          categoryAverages updated !! k = categoryAverages existing !! k).
Proof.
  intros Hload Hn Hnd a n s.
  unfold Scorecard.updateBaseline. rewrite Hload. fold n.
  eexists. split.
  { unfold Scorecard.loadBaseline, saveBaseline. rewrite lookup_insert_eq. reflexivity. }
  cbn [sessionCount overallAverage categoryAverages].
  split; [ reflexivity | ]. split; [ reflexivity | ].
  split; [ apply round_div_nearest; lia | ]. split.
  - intros c Hc. cbv zeta. split.
    + apply (averaged_category (sessionCount existing)); assumption.
    + apply round_div_nearest; lia.
  - intros k Hk. apply (averaged_other (sessionCount existing)). exact Hk.
Qed.

End Baseline.

(** *** Sessions loaded from the parser *)

Lemma scoreAll_names sessions :
  map name (scoreAll sessions) =
  [ "Plans"; "Clarification"; "Delegation"; "Follow-up Specificity";
    "Token Efficiency"; "Sequencing"; "Compaction Management";
    "Session Lifecycle"; "Error Recovery"; "Workspace Hygiene";
    "Cross-Session Continuity"; "Verification" ].
Proof.
  unfold scoreAll. cbn [map]. repeat f_equal.
  - unfold scorePlans. destruct (_ =? _)%nat; reflexivity.
  - unfold scoreClarification. destruct (clarificationCounts _); reflexivity.
  - unfold scoreDelegation. destruct (delegationCounts _) as [t q].
    destruct (t =? 0); reflexivity.
  - unfold scoreFollowUpSpecificity. destruct (followUpCounts _); reflexivity.
  - unfold scoreTokenEfficiency. destruct (fold_left _ _ _); reflexivity.
  - unfold scoreSequencing. destruct (sequencingCounts _); reflexivity.
  - unfold scoreCompactionManagement. destruct (compactionCounts _) as [t c].
    destruct (t =? 0); reflexivity.
  - unfold scoreSessionLifecycle. destruct (_ =? _)%nat; reflexivity.
  - unfold scoreErrorRecovery. destruct (recoveryCounts _) as [[c f] m].
    destruct (c =? 0); reflexivity.
  - unfold scoreCrossSessionContinuity. destruct (_ =? _)%nat; reflexivity.
  - unfold scoreVerification. destruct (_ =? _)%nat; reflexivity.
Qed.

(** The categories of a scorecard have distinct names. *)
Lemma computeScorecard_names_NoDup sessions project period today :
  List.NoDup (map name (categories (computeScorecard sessions project period today))).
Proof.
  cbn [computeScorecard categories]. rewrite scoreAll_names.
  repeat (apply List.NoDup_cons; [ simpl; intuition discriminate | ]).
  apply List.NoDup_nil.
Qed.

Lemma of_type_unmatched ty evs :
  Forall emitted evs -> ~ In ty emitted_types -> of_type ty evs = [].
Proof.
  intros Hev Hty. unfold of_type.
  induction Hev as [ | e evs He _ IH ]; simpl; [ reflexivity | ].
  destruct (String.eqb_spec (SessionParser.type e) ty) as [<- | _];
    [ contradiction | exact IH ].
Qed.

Lemma clarificationCounts_unclassified sessions :
  Forall unclassified sessions -> clarificationCounts sessions = (0, 0).
Proof.
  intros H. unfold clarificationCounts. generalize (0, 0).
  induction H as [ | s sessions (Hu & _) _ IH ]; intros acc; simpl;
    [ reflexivity | ].
  rewrite Hu. simpl. apply IH.
Qed.

Section Loading.

Variable Date_parse : string -> option Z.
Variable toISOString : Z -> string.
Variable JSON_stringify : json -> string.
Variable ToString : json -> string.
Variable basename : string -> string -> string.

Local Abbreviation parseSession :=
  (SessionParser.parseSession Date_parse toISOString JSON_stringify ToString
     basename).
Local Abbreviation loadSessions :=
  (loadSessions Date_parse toISOString JSON_stringify ToString basename).
Local Abbreviation classifyEvents := (classifyEvents Date_parse).

Lemma classifyEvents_unclassified evs :
  Forall emitted evs -> unclassified (classifyEvents evs).
Proof.
  intros H. unfold unclassified, Scorecard.classifyEvents.
  cbn [userMessages assistantMessages commits].
  rewrite !of_type_unmatched; auto;
    unfold emitted_types; simpl; intros Hin; decompose [or] Hin;
    discriminate || contradiction.
Qed.

(** The step of the loop of [loadSessions] for one file. *)
Lemma loadSessions_snoc fs files f :
  loadSessions fs (files ++ [f]) =
  match parseSession fs (path f) (dir_project f) (dir_projectName f) with
  | Ok (events, _) =>
      if (0 <? length events)%nat
      then (loadSessions fs files ++ [classifyEvents events])%list
      else loadSessions fs files
  | Throw _ => loadSessions fs files
  end.
Proof.
  unfold Scorecard.loadSessions. rewrite fold_left_app. reflexivity.
Qed.

Lemma loadSessions_unclassified fs files :
  Forall unclassified (loadSessions fs files).
Proof.
  induction files as [ | f files IH ] using rev_ind; [ constructor | ].
  rewrite loadSessions_snoc.
  destruct (parseSession _ _ _ _) as [[evs diags] | ] eqn:E; [ | exact IH ].
  destruct (0 <? length evs)%nat; [ | exact IH ].
  apply Forall_app. split; [ exact IH | ].
  constructor; [ | constructor ].
  apply classifyEvents_unclassified.
  eapply parseSession_events. exact E.
Qed.

(** C1. Every event of a list returned by [parseSession] has one of the
    seven emitted types, so that [classifyEvents], which filters for
    "user_prompt", "assistant_response" and "git_commit", leaves the user
    messages, the assistant messages and the commits of its session empty;
    consequently, over the session set loaded from any files,
    [scoreClarification] counts no user prompt. *)
Theorem C1_parser_events_unclassified (fs : gmap string SessionParser.file)
  (files : list sessionFile) :
  (forall path p pn evs diags,
      parseSession fs path p pn = Ok (evs, diags) ->
      Forall emitted evs
      /\ userMessages (classifyEvents evs) = []
      /\ assistantMessages (classifyEvents evs) = []
      /\ commits (classifyEvents evs) = [])
  /\ Forall unclassified (loadSessions fs files)
  /\ clarificationCounts (loadSessions fs files) = (0, 0)
  /\ score (scoreClarification (loadSessions fs files)) = 100.
Proof.
  split; [ | split; [ | split ] ].
  - intros path p pn evs diags H. apply parseSession_events in H.
    destruct H as [H _]. split; [ exact H | ].
    apply classifyEvents_unclassified. exact H.
  - apply loadSessions_unclassified.
  - apply clarificationCounts_unclassified, loadSessions_unclassified.
  - unfold scoreClarification.
    rewrite clarificationCounts_unclassified by apply loadSessions_unclassified.
    reflexivity.
Qed.

(** C5, as the code has it. On a path that does not exist [parseSession]
    raises the error of [statSync] and returns no list; [loadSessions],
    which calls it, catches the error and takes no session from that
    file. *)
Theorem C5_missing_file_throws (fs : gmap string SessionParser.file)
  (f : sessionFile) :
  fs !! path f = None ->
  parseSession fs (path f) (dir_project f) (dir_projectName f) = Throw ENOENT
  /\ forall files, loadSessions fs (files ++ [f]) = loadSessions fs files.
Proof.
  intros H.
  assert (E : parseSession fs (path f) (dir_project f) (dir_projectName f)
              = Throw ENOENT).
  { unfold SessionParser.parseSession, SessionParser.statSync. rewrite H. reflexivity. }
  split; [ exact E | ].
  intros files. rewrite loadSessions_snoc, E. reflexivity.
Qed.

End Loading.

End ScorecardFacts.

Lemma C1_parser_events_unclassified_witness :
  Forall Spec.emitted Examples.all_types_events
  /\ Scorecard.userMessages
       (Scorecard.classifyEvents Examples.no_date Examples.all_types_events) = []
  /\ Scorecard.assistantMessages
       (Scorecard.classifyEvents Examples.no_date Examples.all_types_events) = []
  /\ Scorecard.commits
       (Scorecard.classifyEvents Examples.no_date Examples.all_types_events) = [].
Proof.
  apply (proj1 (C1_parser_events_unclassified Examples.no_date Examples.iso
                  Examples.stringify Examples.to_string Examples.base
                  Examples.demo_fs [])
           "s1.jsonl" "/home/u/demo" "demo" Examples.all_types_events
           [SessionParser.diagnostic 4 "s1.jsonl"]).
  vm_compute. reflexivity.
Defined.

Lemma C5_missing_file_throws_witness :
  SessionParser.parseSession Examples.no_date Examples.iso Examples.stringify
    Examples.to_string Examples.base Examples.demo_fs "missing.jsonl"
    "/home/u/demo" "demo" = Throw ENOENT
  /\ forall files,
       Scorecard.loadSessions Examples.no_date Examples.iso Examples.stringify
         Examples.to_string Examples.base Examples.demo_fs
         (files ++ [Examples.missing_file])
       = Scorecard.loadSessions Examples.no_date Examples.iso
           Examples.stringify Examples.to_string Examples.base
           Examples.demo_fs files.
Proof.
  apply (C5_missing_file_throws Examples.no_date Examples.iso
           Examples.stringify Examples.to_string Examples.base
           Examples.demo_fs Examples.missing_file).
  vm_compute. reflexivity.
Defined.

Lemma C7_incremental_baseline_witness :
  exists updated,
    Scorecard.loadBaseline "/home/u" Examples.digest
      (Scorecard.updateBaseline "/home/u" Examples.digest Examples.demo_disk
         "demo" Examples.demo_scorecard "2026-01-02T00:00:00.000Z") "demo"
    = Some updated
    /\ Scorecard.sessionCount updated = 4
    /\ Scorecard.overallAverage updated = 73
    /\ Scorecard.categoryAverages updated !! "Plans" = Some 60
    /\ Scorecard.categoryAverages updated !! "Verification" = Some 0
    /\ Scorecard.categoryAverages updated !! "Retired" = Some 50.
Proof.
  destruct (C7_incremental_baseline "/home/u" Examples.digest Examples.demo_disk
              "demo" "2026-01-02T00:00:00.000Z" Examples.demo_scorecard
              Examples.demo_baseline)
    as (updated & Hload & Hn & Ha & _ & Hcat & Hother).
  - vm_compute. reflexivity.
  - vm_compute. discriminate.
  - apply computeScorecard_names_NoDup.
  - exists updated. split; [ exact Hload | ]. split; [ exact Hn | ].
    split; [ rewrite Ha; vm_compute; reflexivity | ].
    split; [ | split ].
    + destruct (Hcat (Scorecard.scorePlans Examples.demo_sessions)
                  ltac:(left; reflexivity)) as [Hc _].
      replace (Scorecard.name (Scorecard.scorePlans Examples.demo_sessions))
        with "Plans" in Hc by (vm_compute; reflexivity).
      rewrite Hc. vm_compute. reflexivity.
    + destruct (Hcat (Scorecard.scoreVerification Examples.demo_sessions)
                  ltac:(do 11 right; left; reflexivity)) as [Hc _].
      replace (Scorecard.name (Scorecard.scoreVerification Examples.demo_sessions))
        with "Verification" in Hc by (vm_compute; reflexivity).
      rewrite Hc. vm_compute. reflexivity.
    + rewrite (Hother "Retired"); [ vm_compute; reflexivity | ].
      vm_compute. intuition discriminate.
Defined.

(** With one session of a single assistant message, three categories tie
    for the lowest score: 'Plans', first in the canonical order, and
    'Verification', last; [highlights.worst] is 'Verification'. *)
Lemma C10_counterexample :
  let sc := Scorecard.computeScorecard Examples.demo_sessions "demo" "week"
              "2026-01-02" in
  option_map Scorecard.name (Spec.first_min (Scorecard.categories sc))
    = Some "Plans"
  /\ option_map Scorecard.score (Spec.first_min (Scorecard.categories sc)) = Some 0
  /\ option_map Scorecard.name (Scorecard.worst (Scorecard.highlights sc))
       = Some "Verification"
  /\ option_map Scorecard.score (Scorecard.worst (Scorecard.highlights sc)) = Some 0
  /\ Scorecard.worst (Scorecard.highlights sc)
       <> Spec.first_min (Scorecard.categories sc).
Proof.
  vm_compute. repeat split; discriminate.
Qed.

(** ** Further properties of the session parser *)

Section ParserExtras.
Import Js SessionParser Spec ParserNotions.

Variable Date_parse : string -> option Z.
Variable toISOString : Z -> string.
Variable JSON_stringify : json -> string.
Variable ToString : json -> string.
Variable basename : string -> string -> string.

Local Abbreviation processRecord :=
  (processRecord Date_parse toISOString JSON_stringify ToString).
Local Abbreviation parseLine :=
  (parseLine Date_parse toISOString JSON_stringify ToString).
Local Abbreviation parseLoop :=
  (parseLoop Date_parse toISOString JSON_stringify ToString).
Local Abbreviation parseLinesSync :=
  (parseLinesSync Date_parse toISOString JSON_stringify ToString basename).

(** The events of a record follow the table of the parser and carry the
    provenance they were given. *)
Lemma processRecord_table obj fp p pn br sid fb n lt evts :
  processRecord obj fp p pn br sid fb n lt = Ok evts ->
  Forall (fun e => yields (prop_opt "type" (Some obj)) (type e)
                   /\ source_line e = n /\ source_file e = fp
                   /\ project e = p /\ project_name e = pn
                   /\ branch e = br /\ session_id e = sid) evts.
Proof.
  unfold SessionParser.processRecord, yields. unbind. intros H.
  destruct (prop "timestamp" (Some obj)) as [tsv | ] eqn:Ets; [ | discriminate H ].
  destruct (prop "type" (Some obj)) as [ty | ] eqn:Ety; [ | discriminate H ].
  rewrite <- (prop_Ok _ _ _ Ety).
  destruct (is_str "user" ty) eqn:Eu.
  { ok_inv; [ constructor | ]. constructor; [ | constructor ].
    simpl. repeat split. left. split; [ reflexivity | ].
    destruct (_ && _); auto. }
  destruct (is_str "assistant" ty) eqn:Ea.
  { ok_inv. apply Forall_app. split.
    - destruct (String.eqb _ _); [ constructor | ].
      constructor; [ | constructor ]. simpl. repeat split.
      right. left. auto.
    - apply List.Forall_map, List.Forall_forall. intros t _. unfold toolEvent.
      simpl. repeat split. right. left. split; [ reflexivity | ].
      destruct (_ || _); auto. }
  destruct (is_str "tool_result" ty) eqn:Et.
  { ok_inv; [ | constructor ]. constructor; [ | constructor ].
    simpl. repeat split. right. right. left. auto. }
  destruct (is_str "system" ty) eqn:Es.
  { ok_inv; [ | constructor ]. constructor; [ | constructor ].
    simpl. repeat split. right. right. right. auto. }
  ok_inv. constructor.
Qed.

(** One turn of the loop: the events it adds come from a record, with the
    branch and session id in force; a summary record changes these. *)
Lemma parseLine_table fp p pn fb i l st st' :
  parseLine fp p pn fb i l st = Ok st' ->
  exists new,
    events st' = (events st ++ new)%list
    /\ Forall (fun e => (exists obj, l = Parsed obj
                           /\ yields (prop_opt "type" (Some obj)) (type e))
                        /\ source_line e = i + 1 /\ source_file e = fp
                        /\ project e = p /\ project_name e = pn
                        /\ branch e = cur_branch st
                        /\ session_id e = cur_sessionId st) new
    /\ cur_branch st' = branchStep (cur_branch st) l
    /\ cur_sessionId st' = sessionStep (cur_sessionId st) l.
Proof.
  destruct l as [ | | obj ]; unfold SessionParser.parseLine; unbind.
  - intros H; ok_inv. exists []. rewrite app_nil_r. auto.
  - intros H; ok_inv. exists []. simpl. rewrite app_nil_r. auto.
  - intros H. destruct (prop "type" (Some obj)) as [ty | ] eqn:Ety;
      [ | discriminate H ].
    unfold branchStep, sessionStep, isSummary.
    rewrite <- (prop_Ok _ _ _ Ety).
    destruct (is_str "summary" ty) eqn:Esum.
    + inversion H; subst; clear H. exists []. simpl. rewrite app_nil_r.
      split; [ reflexivity | ]. split; [ constructor | ].
      split; [ reflexivity | ].
      destruct obj; try reflexivity. simpl.
      destruct (lookup_field "sessionId" _); reflexivity.
    + ok_inv. exists a. simpl. repeat split.
      eapply Forall_impl; [ eapply processRecord_table; eassumption | ].
      simpl. intros e (Hy & Hrest). split; [ | exact Hrest ].
      exists obj. auto.
Qed.

Lemma branchAfter_cons l ls b :
  branchAfter (l :: ls) b = branchAfter ls (branchStep b l).
Proof. reflexivity. Qed.

Lemma sessionAfter_cons l ls s :
  sessionAfter (l :: ls) s = sessionAfter ls (sessionStep s l).
Proof. reflexivity. Qed.

(** The loop, from line [i]: where each event comes from. *)
Lemma parseLoop_table fp p pn fb ls : forall i st st',
  parseLoop fp p pn fb i ls st = Ok st' ->
  exists new,
    events st' = (events st ++ new)%list
    /\ Forall (fun e =>
         let k := Z.to_nat (source_line e - i - 1) in
         i < source_line e
         /\ (exists obj, ls !! k = Some (Parsed obj)
               /\ yields (prop_opt "type" (Some obj)) (type e))
         /\ source_file e = fp /\ project e = p /\ project_name e = pn
         /\ branch e = branchAfter (firstn k ls) (cur_branch st)
         /\ session_id e = sessionAfter (firstn k ls) (cur_sessionId st)) new.
Proof.
  induction ls as [ | l ls IH ]; intros i st st'.
  - simpl. intros H; ok_inv. exists []. rewrite app_nil_r. split; constructor.
  - rewrite parseLoop_cons. unbind. intros H.
    destruct (parseLine fp p pn fb i l st) as [st1 | ] eqn:E1;
      [ | discriminate H ].
    apply parseLine_table in E1. destruct E1 as (n1 & Ev1 & F1 & B1 & S1).
    apply IH in H. destruct H as (n2 & Ev2 & F2).
    exists (n1 ++ n2)%list. rewrite Ev2, Ev1, app_assoc. split; [ reflexivity | ].
    apply Forall_app. split.
    + eapply Forall_impl; [ exact F1 | ]. cbv zeta.
      intros e ((obj & -> & Hy) & Hl & Hf & Hp & Hn & Hb & Hs).
      replace (Z.to_nat (source_line e - i - 1)) with 0%nat by lia.
      split; [ lia | ]. split; [ exists obj; auto | ]. auto.
    + eapply Forall_impl; [ exact F2 | ]. cbv zeta.
      intros e (Hl & (obj & Hk & Hy) & Hf & Hp & Hn & Hb & Hs).
      replace (Z.to_nat (source_line e - i - 1))
        with (S (Z.to_nat (source_line e - (i + 1) - 1))) by lia.
      split; [ lia | ]. split; [ exists obj; auto | ].
      rewrite firstn_cons, branchAfter_cons, sessionAfter_cons, <- B1, <- S1.
      auto.
Qed.

(** X1. Every event the parser returns comes from a line of the file that
    parses to a record, and its type is one the table of the parser gives
    for the type of that record: a prompt or a correction from a user
    record, an assistant message, a tool call or a sub-agent spawn from an
    assistant record, an error from a tool result, a compaction from a
    system record. Blank and unparseable lines, summaries and records of
    any other type yield no event. *)
Theorem X1_events_follow_the_record_table (ls : list line)
  (fp p pn fb : string) (evs : list TimelineEvent) (diags : list string) :
  parseLinesSync ls fp p pn fb = Ok (evs, diags) ->
  Forall (fun e =>
    1 <= source_line e <= Z.of_nat (length ls)
    /\ exists obj, lineOf ls e = Some (Parsed obj)
         /\ yields (prop_opt "type" (Some obj)) (type e)) evs.
Proof.
  unfold SessionParser.parseLinesSync. unbind. intros H.
  destruct (parseLoop _ _ _ _ _ _ _) as [st' | ] eqn:Eloop; [ | discriminate H ].
  inversion H; subst; clear H.
  destruct (parseLoop_inv _ _ _ _ _ _ _ _ _ _ _ _ Eloop) as (new' & Ev' & F' & _).
  apply parseLoop_table in Eloop. destruct Eloop as (new & Ev & F).
  rewrite Ev in Ev'. simpl in Ev'. subst new'. rewrite Ev. simpl.
  apply List.Forall_forall. intros e He.
  pose proof (proj1 (List.Forall_forall _ _) F e He) as (_ & (obj & Hk & Hy) & _).
  pose proof (proj1 (List.Forall_forall _ _) F' e He) as (Hr & _).
  split; [ lia | ]. exists obj. unfold lineOf.
  replace (source_line e - 1) with (source_line e - 0 - 1) by lia. auto.
Qed.

(** X2. Every event carries the file, the project and the project name
    the parser was given, and the branch and the session id of the last
    summary record above its line: the empty branch and the name of the
    file when there is none. A summary below an event does not change
    it. *)
Theorem X2_events_carry_the_last_summary (ls : list line)
  (fp p pn fb : string) (evs : list TimelineEvent) (diags : list string) :
  parseLinesSync ls fp p pn fb = Ok (evs, diags) ->
  Forall (fun e =>
    source_file e = fp /\ project e = p /\ project_name e = pn
    /\ branch e = branchAfter (linesBefore ls e) (JStr "")
    /\ session_id e
       = sessionAfter (linesBefore ls e) (JStr (basename fp ".jsonl"))) evs.
Proof.
  unfold SessionParser.parseLinesSync. unbind. intros H.
  destruct (parseLoop _ _ _ _ _ _ _) as [st' | ] eqn:Eloop; [ | discriminate H ].
  inversion H; subst; clear H.
  apply parseLoop_table in Eloop. destruct Eloop as (new & Ev & F).
  rewrite Ev. simpl. eapply Forall_impl; [ exact F | ]. cbv zeta.
  intros e (_ & _ & Hf & Hp & Hn & Hb & Hs). unfold linesBefore.
  replace (source_line e - 1) with (source_line e - 0 - 1) by lia. auto.
Qed.

(** A summary record yields no event. *)
Lemma processRecord_summary obj fp p pn br sid fb n lt ty :
  prop "type" (Some obj) = Ok ty ->
  is_str "summary" ty = true ->
  processRecord obj fp p pn br sid fb n lt = Ok [].
Proof.
  intros Ety Hs. unfold SessionParser.processRecord. unbind.
  rewrite (prop_total "type" "timestamp" _ _ Ety), Ety.
  rewrite (is_str_excl _ "user" _ Hs), (is_str_excl _ "assistant" _ Hs),
    (is_str_excl _ "tool_result" _ Hs), (is_str_excl _ "system" _ Hs)
    by discriminate.
  reflexivity.
Qed.

Lemma processRecord_null obj fp p pn br sid fb n lt e :
  prop "type" (Some obj) = Throw e ->
  processRecord obj fp p pn br sid fb n lt = Throw e.
Proof.
  destruct obj; simpl; intros H; try discriminate H.
  inversion H; subst. reflexivity.
Qed.

Lemma parseLineAsync_parseLine fp p pn fb i l st :
  SessionStream.parseLineAsync Date_parse toISOString JSON_stringify ToString
    fp p pn fb i l st
  = parseLine fp p pn fb i l st.
Proof.
  destruct l as [ | | obj ]; [ reflexivity | reflexivity | ].
  unfold SessionStream.parseLineAsync, SessionParser.parseLine. unbind.
  destruct (prop "type" (Some obj)) as [ty | e] eqn:Ety.
  - destruct (is_str "summary" ty) eqn:Hs.
    + rewrite (processRecord_summary _ _ _ _ _ _ _ _ _ _ Ety Hs).
      rewrite (is_str_excl _ "user" _ Hs), (is_str_excl _ "assistant" _ Hs)
        by discriminate.
      rewrite app_nil_r. reflexivity.
    + destruct (processRecord _ _ _ _ _ _ _ _ _); reflexivity.
  - rewrite (processRecord_null _ _ _ _ _ _ _ _ _ _ Ety). reflexivity.
Qed.

Lemma parseLoopAsync_parseLoop fp p pn fb ls : forall i st,
  SessionStream.parseLoopAsync Date_parse toISOString JSON_stringify ToString
    fp p pn fb i ls st
  = parseLoop fp p pn fb i ls st.
Proof.
  induction ls as [ | l ls IH ]; intros i st; [ reflexivity | ].
  simpl. rewrite parseLineAsync_parseLine. unbind.
  destruct (parseLine fp p pn fb i l st); [ apply IH | reflexivity ].
Qed.

(** X3. The streaming parser and the parser that reads the whole file
    agree: on a file of which both see the same lines they return the same
    events and write the same diagnostics, or fail with the same error. That the streaming parser
    processes a summary record before it reads its branch and session id
    makes no difference, since a summary yields no event. *)
Theorem X3_streaming_parser_agrees (fs : gmap string file) (fp p pn : string) :
  SessionStream.parseSessionAsync Date_parse toISOString JSON_stringify
    ToString basename fs fp p pn
  = parseSession Date_parse toISOString JSON_stringify ToString basename
      fs fp p pn.
Proof.
  unfold SessionStream.parseSessionAsync, parseSession,
    SessionParser.parseLinesSync.
  unbind. destruct (statSync fs fp) as [stat | e]; [ | reflexivity ].
  rewrite parseLoopAsync_parseLoop. reflexivity.
Qed.

(** X4. When the parser returns, it has written exactly one diagnostic
    for each line that does not parse, with the number of the line and the
    file, and nothing else; and its events are those of the file in which
    these lines are empty. *)
Theorem X4_unparseable_lines_are_skipped (ls : list line)
  (fp p pn fb : string) (evs : list TimelineEvent) (diags : list string) :
  parseLinesSync ls fp p pn fb = Ok (evs, diags) ->
  diags = diagnosticsOf fp 0 ls
  /\ parseLinesSync (map blank ls) fp p pn fb = Ok (evs, []).
Proof. apply parseLinesSync_skips_malformed. Qed.


(** X6. A numeric time stamp below 10^12 is read as seconds: for an
    instant from 2001-09-09 on, the time stamp in seconds and the one in
    milliseconds give the same event time. *)
Theorem X6_seconds_and_milliseconds_agree (s : Z) (fallback : string) :
  1000000000 <= s < 1000000000000 ->
  normalizeTimestamp Date_parse toISOString (Some (JNum (inject_Z s))) fallback
  = toISOString (s * 1000)
  /\ normalizeTimestamp Date_parse toISOString
       (Some (JNum (inject_Z (s * 1000)))) fallback
     = toISOString (s * 1000).
Proof.
  intros Hs. unfold normalizeTimestamp, truthy, Date_ofNumber.
  assert (Z1 : Qeq_bool (inject_Z s) 0 = false).
  { apply not_true_is_false. intros H. apply Qeq_bool_iff in H.
    unfold Qeq in H. simpl in H. lia. }
  assert (Z2 : Qeq_bool (inject_Z (s * 1000)) 0 = false).
  { apply not_true_is_false. intros H. apply Qeq_bool_iff in H.
    unfold Qeq in H. simpl in H. lia. }
  assert (L1 : Qle_bool (1000000000000 # 1) (inject_Z s) = false).
  { apply not_true_is_false. intros H. apply Qle_bool_iff in H.
    unfold Qle in H. simpl in H. lia. }
  assert (L2 : Qle_bool (1000000000000 # 1) (inject_Z (s * 1000)) = true).
  { apply Qle_bool_iff. unfold Qle. simpl. lia. }
  assert (A1 : Qle_bool (Qabs (inject_Z s * (1000 # 1))) (8640000000000000 # 1) = true).
  { apply Qle_bool_iff. unfold Qle, Qabs, inject_Z, Qmult. simpl. lia. }
  assert (A2 : Qle_bool (Qabs (inject_Z (s * 1000))) (8640000000000000 # 1) = true).
  { apply Qle_bool_iff. unfold Qle, Qabs, inject_Z. simpl. lia. }
  rewrite Z1, Z2, L1, L2. simpl negb. cbv iota. rewrite A1, A2.
  unfold inject_Z, Qmult. simpl Qnum. simpl Qden.
  rewrite !Z.quot_1_r. auto.
Qed.

End ParserExtras.

Lemma X1_events_follow_the_record_table_witness :
  Forall (fun e =>
    1 <= SessionParser.source_line e <= Z.of_nat (length Examples.all_types)
    /\ exists obj,
         ParserNotions.lineOf Examples.all_types e = Some (SessionParser.Parsed obj)
         /\ ParserNotions.yields
              (SessionParser.prop_opt "type" (Some obj)) (SessionParser.type e))
    Examples.all_types_events.
Proof.
  apply (X1_events_follow_the_record_table Examples.no_date Examples.iso
           Examples.stringify Examples.to_string Examples.base
           Examples.all_types "s1.jsonl" "/home/u/demo" "demo" Examples.stamp
           Examples.all_types_events
           (Spec.diagnosticsOf "s1.jsonl" 0 Examples.all_types)).
  vm_compute. reflexivity.
Defined.

Lemma X2_events_carry_the_last_summary_witness :
  Forall (fun e =>
    SessionParser.source_file e = "s1.jsonl"
    /\ SessionParser.project e = "/home/u/demo"
    /\ SessionParser.project_name e = "demo"
    /\ SessionParser.branch e
       = ParserNotions.branchAfter
           (ParserNotions.linesBefore MoreExamples.with_summary e)
           (SessionParser.JStr "")
    /\ SessionParser.session_id e
       = ParserNotions.sessionAfter
           (ParserNotions.linesBefore MoreExamples.with_summary e)
           (SessionParser.JStr (Examples.base "s1.jsonl" ".jsonl")))
    MoreExamples.with_summary_events.
Proof.
  apply (X2_events_carry_the_last_summary Examples.no_date Examples.iso
           Examples.stringify Examples.to_string Examples.base
           MoreExamples.with_summary "s1.jsonl" "/home/u/demo" "demo"
           Examples.stamp MoreExamples.with_summary_events
           (Spec.diagnosticsOf "s1.jsonl" 0 MoreExamples.with_summary)).
  vm_compute. reflexivity.
Defined.

(** ** Properties of the decoding of project directories *)

Section ProjectExtras.
Import Js Projects ProjectNotions.

Lemma decode_replaceDashes name : decode name = replaceDashes name.
Proof.
  unfold decode, replaceLeadingDash. destruct name as [ | c r ]; [ reflexivity | ].
  destruct (Ascii.eqb c "-") eqn:E; [ | reflexivity ].
  simpl. rewrite E. reflexivity.
Qed.

Lemma includes_dash_cons c r :
  includes "-" (String c r) = Ascii.eqb "-" c || includes "-" r.
Proof. simpl. rewrite andb_true_r. reflexivity. Qed.

Lemma replaceDashes_no_dash s : includes "-" (replaceDashes s) = false.
Proof.
  induction s as [ | c r IH ]; [ reflexivity | ].
  simpl replaceDashes. rewrite includes_dash_cons, IH, orb_false_r.
  destruct (Ascii.eqb c "-") eqn:E; [ reflexivity | ].
  rewrite Ascii.eqb_sym. exact E.
Qed.

Lemma replaceDashes_length s : String.length (replaceDashes s) = String.length s.
Proof. induction s as [ | c r IH ]; simpl; congruence. Qed.

Lemma replaceDashes_dashed s : replaceDashes (dashed s) = replaceDashes s.
Proof.
  induction s as [ | c r IH ]; [ reflexivity | ]. simpl. rewrite IH.
  destruct (Ascii.eqb c "/") eqn:E.
  - apply Ascii.eqb_eq in E. subst. reflexivity.
  - reflexivity.
Qed.

Lemma replaceDashes_fix s : replaceDashes s = s <-> includes "-" s = false.
Proof.
  induction s as [ | c r IH ]; [ simpl; tauto | ].
  rewrite includes_dash_cons. simpl replaceDashes.
  rewrite orb_false_iff, <- IH, (Ascii.eqb_sym "-" c).
  destruct (Ascii.eqb c "-") eqn:E.
  - apply Ascii.eqb_eq in E. subst. split; [ | intros [H _]; discriminate H ].
    intros H. inversion H.
  - split; [ intros H; inversion H as [H1]; rewrite !H1; auto | ].
    intros [_ H]. rewrite H. reflexivity.
Qed.

(** X7. Decoding the name of a project directory turns every hyphen into
    a slash, the leading one included: the decoded path has the length of
    the name and holds no hyphen. So it gives back a path from the name
    written with hyphens for slashes exactly when the path holds no
    hyphen; and no project that [findSessionDirs] returns has a hyphen in
    its path. *)
Theorem X7_decode_replaces_every_hyphen (s projectsDir : string)
  (entries : option (list dirent)) :
  includes "-" (decode s) = false
  /\ String.length (decode s) = String.length s
  /\ (decode (dashed s) = s <-> includes "-" s = false)
  /\ Forall (fun d => includes "-" (project (dir_info d)) = false)
       (findSessionDirs projectsDir entries).
Proof.
  rewrite !decode_replaceDashes. split; [ apply replaceDashes_no_dash | ].
  split; [ apply replaceDashes_length | ].
  split; [ rewrite replaceDashes_dashed; apply replaceDashes_fix | ].
  unfold findSessionDirs. destruct entries as [ es | ]; [ | constructor ].
  apply List.Forall_map, List.Forall_forall. intros e _. simpl.
  rewrite decode_replaceDashes. apply replaceDashes_no_dash.
Qed.

Lemma replaceDashes_app a b :
  replaceDashes (a ++ b) = (replaceDashes a ++ replaceDashes b)%string.
Proof.
  induction a as [ | c a IH ]; [ reflexivity | ].
  rewrite append_cons. simpl replaceDashes. rewrite append_cons, IH. reflexivity.
Qed.

Lemma replaceDashes_plain w : plain w = true -> replaceDashes w = w.
Proof.
  induction w as [ | c w IH ]; [ reflexivity | ]. simpl. intros H.
  apply andb_prop in H. destruct H as [H Hw]. apply andb_prop in H.
  destruct H as [H _]. apply negb_true_iff in H. rewrite H, (IH Hw). reflexivity.
Qed.

Lemma rev_app_acc s : forall acc,
  String.rev_app s acc = (String.rev s ++ acc)%string.
Proof.
  unfold String.rev. induction s as [ | c s IH ]; intros acc; [ reflexivity | ].
  simpl. rewrite (IH (String c acc)), (IH (String c "")), append_assoc.
  reflexivity.
Qed.

Lemma rev_cons c s : String.rev (String c s) = (String.rev s ++ String c "")%string.
Proof. unfold String.rev at 1. simpl. apply rev_app_acc. Qed.

Lemma lastSegment_plain w : forall cur,
  plain w = true -> lastSegment cur w = (String.rev cur ++ w)%string.
Proof.
  induction w as [ | c w IH ]; intros cur H.
  - simpl. clear. induction (String.rev cur) as [ | x r IHr ]; [ reflexivity | ].
    rewrite append_cons, <- IHr. reflexivity.
  - simpl in H. apply andb_prop in H. destruct H as [H Hw]. apply andb_prop in H.
    destruct H as [_ H]. apply negb_true_iff in H.
    change (lastSegment cur (String c w))
      with (if Ascii.eqb "/" c then lastSegment "" w
            else lastSegment (String c cur) w).
    rewrite Ascii.eqb_sym, H, (IH _ Hw), rev_cons, append_assoc.
    reflexivity.
Qed.

Lemma lastSegment_app a w : forall cur,
  plain w = true ->
  lastSegment cur (a ++ "/" ++ w) = w.
Proof.
  induction a as [ | c a IH ]; intros cur H.
  - rewrite append_nil, append_cons, append_nil. simpl.
    rewrite (lastSegment_plain _ _ H). reflexivity.
  - rewrite append_cons.
    change (lastSegment cur (String c (a ++ "/" ++ w)))
      with (if Ascii.eqb "/" c then lastSegment "" (a ++ "/" ++ w)
            else lastSegment (String c cur) (a ++ "/" ++ w)).
    destruct (Ascii.eqb "/" c); apply IH; exact H.
Qed.

Lemma split_go_last s : forall cur fuel,
  (String.length s < fuel)%nat ->
  last (split_go fuel "/" cur s) = Some (lastSegment cur s).
Proof.
  induction s as [ | c s IH ]; intros cur fuel Hf.
  - destruct fuel; reflexivity.
  - destruct fuel as [ | fuel ]; [ simpl in Hf; lia | ].
    simpl in Hf.
    change (lastSegment cur (String c s))
      with (if Ascii.eqb "/" c then lastSegment "" s
            else lastSegment (String c cur) s).
    change (split_go (S fuel) "/" cur (String c s))
      with (if Ascii.eqb "/" c && true
            then String.rev cur :: split_go fuel "/" "" s
            else split_go fuel "/" (String c cur) s).
    rewrite andb_true_r. destruct (Ascii.eqb "/" c).
    + rewrite last_cons, (IH "" fuel) by lia. reflexivity.
    + apply IH. lia.
Qed.

Lemma last_filter {A} (P : A -> bool) (l : list A) (x : A) :
  last l = Some x -> P x = true -> last (List.filter P l) = Some x.
Proof.
  induction l as [ | y l IH ]; [ discriminate | ].
  intros Hl Hx. destruct l as [ | z l ].
  - simpl in Hl. inversion Hl; subst. simpl. rewrite Hx. reflexivity.
  - rewrite last_cons in Hl.
    change (List.filter P (y :: z :: l))
      with (if P y then y :: List.filter P (z :: l) else List.filter P (z :: l)).
    assert (Hz : last (z :: l) = Some x).
    { destruct (last (z :: l)) eqn:E; [ exact Hl | ]. apply last_None in E. discriminate E. }
    specialize (IH Hz Hx). destruct (P y); [ | exact IH ].
    rewrite last_cons, IH. reflexivity.
Qed.

(** X8. The name [inferProject] gives a project is what follows the last
    hyphen of the name of its directory, when that is not empty: of a
    project whose own name holds a hyphen only the part after it is kept,
    and the decoded path has a slash in its place. *)
Theorem X8_project_name_follows_last_hyphen (pre w : string)
  (basename1 : string -> string) (projectDir : string) :
  ProjectNotions.plain w = true ->
  w <> "" ->
  basename1 projectDir = (pre ++ "-" ++ w)%string ->
  inferProject basename1 projectDir
  = {| project := (decode pre ++ "/" ++ w)%string; projectName := w |}.
Proof.
  intros Hw Hne Hbase. unfold inferProject. rewrite Hbase.
  cut (projectNameOf (pre ++ "-" ++ w) = w
       /\ decode (pre ++ "-" ++ w) = (decode pre ++ "/" ++ w)%string).
  { intros [-> ->]. reflexivity. }
  assert (Hd : decode (pre ++ "-" ++ w) = (decode pre ++ "/" ++ w)%string).
  { rewrite !decode_replaceDashes, !replaceDashes_app, (replaceDashes_plain _ Hw).
    reflexivity. }
  split; [ | exact Hd ].
  unfold projectNameOf. rewrite Hd. unfold split.
  rewrite (last_filter _ _ w); [ reflexivity | | ].
  - rewrite split_go_last by lia. f_equal. apply lastSegment_app. exact Hw.
  - apply negb_true_iff. apply String.eqb_neq. exact Hne.
Qed.

End ProjectExtras.

Lemma X8_project_name_follows_last_hyphen_witness :
  Projects.inferProject (fun p => Js.drop 25 p)
    "/home/u/.claude/projects/-home-u-my-app"
  = {| Projects.project := (Projects.decode "-home-u-my" ++ "/" ++ "app")%string;
       Projects.projectName := "app" |}.
Proof.
  apply (X8_project_name_follows_last_hyphen "-home-u-my" "app"
           (fun p => Js.drop 25 p) "/home/u/.claude/projects/-home-u-my-app");
    [ reflexivity | discriminate | reflexivity ].
Defined.

Lemma X4_unparseable_lines_are_skipped_witness :
  [ SessionParser.diagnostic 4 "s1.jsonl" ]
  = Spec.diagnosticsOf "s1.jsonl" 0 Examples.all_types
  /\ SessionParser.parseLinesSync Examples.no_date Examples.iso
       Examples.stringify Examples.to_string Examples.base
       (map Spec.blank Examples.all_types) "s1.jsonl" "/home/u/demo" "demo"
       Examples.stamp
     = Ok (Examples.all_types_events, []).
Proof.
  apply (X4_unparseable_lines_are_skipped Examples.no_date Examples.iso
           Examples.stringify Examples.to_string Examples.base
           Examples.all_types "s1.jsonl" "/home/u/demo" "demo" Examples.stamp
           Examples.all_types_events [ SessionParser.diagnostic 4 "s1.jsonl" ]).
  vm_compute. reflexivity.
Defined.


Lemma X6_seconds_and_milliseconds_agree_witness :
  SessionParser.normalizeTimestamp Examples.no_date MoreExamples.millis
    (Some (SessionParser.JNum (inject_Z 1767225600))) "fallback"
  = MoreExamples.millis (1767225600 * 1000)
  /\ SessionParser.normalizeTimestamp Examples.no_date MoreExamples.millis
       (Some (SessionParser.JNum (inject_Z (1767225600 * 1000)))) "fallback"
     = MoreExamples.millis (1767225600 * 1000).
Proof.
  apply (X6_seconds_and_milliseconds_agree Examples.no_date MoreExamples.millis
           1767225600 "fallback").
  lia.
Defined.

(** ** Properties of the tool profiles *)

Section ProfileExtras.
Import Js Profiles.

Lemma minimal_standard : MINIMAL_TOOLS ⊆ STANDARD_TOOLS.
Proof.
  intros x Hx. apply elem_of_list_to_set in Hx. apply elem_of_list_to_set.
  repeat (apply elem_of_cons in Hx as [-> | Hx]);
    try (apply elem_of_nil in Hx; contradiction);
    apply list_elem_of_In; member.
Qed.

Lemma standard_full : STANDARD_TOOLS ⊆ FULL_TOOLS.
Proof. intros x Hx. apply elem_of_union_l. exact Hx. Qed.

Lemma enabled_unset toolName :
  isToolEnabled None toolName = bool_decide (toolName ∈ FULL_TOOLS).
Proof. reflexivity. Qed.

(** X9. The profiles are nested: a tool that is enabled under the minimal
    profile is enabled under the standard one, and a tool that is enabled
    under any value of the environment variable is enabled when the
    variable is not set. A value that is neither of the names minimal and
    standard, in any case of letters, enables what the full profile
    does. *)
Theorem X9_profiles_are_nested (toolName : string) :
  (isToolEnabled (Some "minimal") toolName = true ->
   isToolEnabled (Some "standard") toolName = true)
  /\ (forall env, isToolEnabled env toolName = true ->
                  isToolEnabled None toolName = true)
  /\ (forall v, toLowerCase v <> "minimal" -> toLowerCase v <> "standard" ->
                isToolEnabled (Some v) toolName = isToolEnabled None toolName).
Proof.
  split; [ | split ].
  - unfold isToolEnabled. simpl. rewrite !bool_decide_eq_true.
    apply minimal_standard.
  - intros env. rewrite enabled_unset. unfold isToolEnabled.
    destruct (getProfile env); rewrite !bool_decide_eq_true; intros H.
    + apply standard_full, minimal_standard, H.
    + apply standard_full, H.
    + exact H.
  - intros v Hm Hs. rewrite enabled_unset. unfold isToolEnabled, getProfile.
    simpl. apply String.eqb_neq in Hm, Hs. rewrite Hm, Hs. reflexivity.
Qed.

End ProfileExtras.

(** ** Further properties of the triage classifier *)

Section TriageExtras.
Import Js Triage Spec.

(** The configuration the classifier works with. *)
#[warnings="-inconsistent-scopes"]
Local Abbreviation cfgOf config :=
  (match config with Some c => c | None => empty_config end).

(** The reasons the classifier collects at its step 6. *)
#[warnings="-inconsistent-scopes"]
Local Abbreviation ambiguousReasons prompt :=
  ((if (len (trim prompt) <? 50)%Z && negb (hasFileRefs prompt)
    then ["short prompt without file references"] else [])
   ++ (if hasVaguePronouns prompt then ["contains vague pronouns"] else [])
   ++ (if hasVagueVerbs prompt
       then ["contains vague verbs without specific targets"] else []))%list.

Lemma ambiguousReasons_nil prompt :
  (0 <? length (ambiguousReasons prompt))%nat = false ->
  ((len (trim prompt) <? 50)%Z && negb (hasFileRefs prompt)) = false
  /\ hasVaguePronouns prompt = false /\ hasVagueVerbs prompt = false.
Proof.
  destruct (_ && _); [ discriminate | ].
  destruct (hasVaguePronouns prompt); [ discriminate | ].
  destruct (hasVagueVerbs prompt); [ discriminate | ]. auto.
Qed.

Lemma length_pos_nonempty {A} (l : list A) :
  (0 <? length l)%nat = true -> l <> [].
Proof. intros H ->. discriminate H. Qed.

(** The five parts of the shape of a result, once the step of the
    classifier that returns is known. *)
Ltac shape :=
  cbn [level confidence reasons recommended_tools cross_service_hits];
  split;
    [ first [ discriminate | apply length_pos_nonempty; assumption ] | ];
  split; [ split; unfold Qle; simpl; lia | ];
  split; [ intros H; first [ reflexivity | discriminate H ] | ];
  split; [ intros H; first [ simpl in H; lia | eexists; reflexivity ] | ];
  intros hits; split;
    [ intros H;
      first [ discriminate H
            | inversion H; subst;
              split; [ reflexivity | ];
              split; [ reflexivity | apply length_pos_nonempty; assumption ] ]
    | intros (H1 & H2 & H3);
      first [ discriminate H1 | subst; reflexivity ] ].


(** X10. Whatever the prompt and the configuration, the result of the
    classifier gives at least one reason and a confidence between 0.7 and
    0.95; a trivial result recommends no tool; an ambiguous, cross-service
    or multi-step result recommends clarify-intent and scope-work first;
    and cross-service hits are reported exactly with the cross-service
    level, and are then the hits detected, of which there is at least
    one. *)
Theorem X10_triage_result_is_well_formed (prompt : string)
  (config : option TriageConfig) :
  let r := triagePrompt prompt config in
  reasons r <> []
  /\ (7 # 10 <= confidence r /\ confidence r <= 95 # 100)%Q
  /\ (level r = Trivial -> recommended_tools r = [])
  /\ (rank Ambiguous <= rank (level r) ->
      exists more,
        recommended_tools r = "clarify-intent" :: "scope-work" :: more)
  /\ (forall hits,
        cross_service_hits r = Some hits <->
        level r = CrossService
        /\ hits = detectCrossService prompt (cfgOf config) /\ hits <> []).
Proof.
  cbv zeta. unfold triagePrompt.
  destruct (List.find _ (opt_list (skip _))) as [kw | ]; [ shape | ].
  destruct (isMultiStep prompt); [ shape | ].
  destruct (0 <? length (detectCrossService prompt _))%nat eqn:Ecs; [ shape | ].
  destruct (List.find _ (opt_list (alwaysCheck _))) as [kw | ]; [ shape | ].
  destruct (_ && isTrivialCommand prompt); [ shape | ].
  destruct (0 <? length (ambiguousReasons prompt))%nat eqn:Eamb; [ shape | ].
  destruct (match strictness _ with Some s => _ | None => false end);
    destruct (hasFileRefs prompt); destruct (hasLineNumbers prompt);
    destruct (50 <? len (trim prompt)); shape.
Qed.

(** What is known of a prompt that is classified clear. *)
Lemma triage_clear_inv (prompt : string)
  (config : option TriageConfig) :
  level (triagePrompt prompt config) = Clear ->
  ~ containsKeyword prompt (skip (cfgOf config))
  /\ ~ containsKeyword prompt (alwaysCheck (cfgOf config))
  /\ isMultiStep prompt = false
  /\ detectCrossService prompt (cfgOf config) = []
  /\ hasVaguePronouns prompt = false
  /\ hasVagueVerbs prompt = false
  /\ (hasFileRefs prompt = true \/ 50 <= len (trim prompt)).
Proof.
  unfold triagePrompt.
  destruct (List.find _ (opt_list (skip _))) as [kw | ] eqn:Eskip;
    [ discriminate | ].
  destruct (isMultiStep prompt); [ discriminate | ].
  destruct (0 <? length (detectCrossService prompt _))%nat eqn:Ecs;
    [ discriminate | ].
  destruct (List.find _ (opt_list (alwaysCheck _))) as [kw | ] eqn:Ealways;
    [ discriminate | ].
  destruct (_ && isTrivialCommand prompt); [ discriminate | ].
  destruct (0 <? length (ambiguousReasons prompt))%nat eqn:Eamb;
    [ discriminate | ].
  intros _. apply ambiguousReasons_nil in Eamb. destruct Eamb as (Hs & Hp & Hv).
  split; [ intros H; apply find_contains in H; destruct H as (kw & H); congruence | ].
  split; [ intros H; apply find_contains in H; destruct H as (kw & H); congruence | ].
  split; [ reflexivity | ].
  split; [ destruct (detectCrossService prompt _); [ reflexivity | discriminate Ecs ] | ].
  split; [ exact Hp | ]. split; [ exact Hv | ].
  destruct (hasFileRefs prompt); [ left; reflexivity | right ].
  rewrite andb_true_r in Hs. apply Z.ltb_ge in Hs. exact Hs.
Qed.

(** X11. A prompt is classified clear only when nothing speaks against
    it: no skip or always-check keyword matches, there is no multi-step
    indicator and no cross-service hit, no vague pronoun and no vague verb,
    and the prompt has a file reference or at least 50 characters. *)
Theorem X11_clear_prompts_pass_every_check (prompt : string)
  (config : option TriageConfig) :
  level (triagePrompt prompt config) = Clear ->
  ~ containsKeyword prompt (skip (cfgOf config))
  /\ ~ containsKeyword prompt (alwaysCheck (cfgOf config))
  /\ isMultiStep prompt = false
  /\ detectCrossService prompt (cfgOf config) = []
  /\ hasVaguePronouns prompt = false
  /\ hasVagueVerbs prompt = false
  /\ (hasFileRefs prompt = true \/ 50 <= len (trim prompt)).
Proof. apply triage_clear_inv. Qed.

(** X12. The strictness of the configuration bears on clear results
    only: it changes neither the level nor the reasons of a result, and
    nothing at all of a result that is not clear. Under the strictness
    strict a clear result recommends verify-files-exist, with confidence
    0.8, whether the prompt names a file or not. *)
Theorem X12_strictness_bears_on_clear_results_only (prompt : string)
  (cfg : TriageConfig) (s : option string) :
  let r := triagePrompt prompt (Some cfg) in
  let r' := triagePrompt prompt (Some (TriageNotions.withStrictness s cfg)) in
  level r' = level r
  /\ reasons r' = reasons r
  /\ (level r <> Clear -> r' = r)
  /\ (s = Some "strict" -> level r' = Clear ->
      recommended_tools r' = ["verify-files-exist"] /\ confidence r' = 8 # 10).
Proof.
  cbv zeta. unfold triagePrompt. simpl.
  destruct (List.find _ (opt_list (skip _))) as [kw | ].
  { repeat split; discriminate. }
  destruct (isMultiStep prompt).
  { repeat split; discriminate. }
  change (detectCrossService prompt (TriageNotions.withStrictness s cfg))
    with (detectCrossService prompt cfg).
  destruct (0 <? length (detectCrossService prompt cfg))%nat.
  { repeat split; discriminate. }
  destruct (List.find _ (opt_list (alwaysCheck _))) as [kw | ].
  { repeat split; discriminate. }
  destruct (_ && isTrivialCommand prompt).
  { repeat split; discriminate. }
  destruct (0 <? length (ambiguousReasons prompt))%nat.
  { repeat split; discriminate. }
  cbn [level confidence reasons recommended_tools cross_service_hits].
  split; [ reflexivity | ]. split; [ reflexivity | ].
  split; [ intros H; contradiction H; reflexivity | ].
  intros -> _. simpl. destruct (hasFileRefs prompt); auto.
Qed.

Lemma includes_empty s : includes "" s = true.
Proof. destruct s; reflexivity. Qed.

Lemma blank_keyword_matches prompt kw :
  lower kw = "" -> matchesKeyword prompt kw = true.
Proof. unfold matchesKeyword. intros ->. apply includes_empty. Qed.

(** X13. A keyword that is empty, or blank, matches every prompt: as a
    skip keyword it makes every prompt trivial, and as an always-check
    keyword it leaves no prompt clear. *)
Theorem X13_blank_keyword_matches_every_prompt (prompt kw : string)
  (cfg : TriageConfig) :
  lower kw = "" ->
  (In kw (opt_list (skip cfg)) ->
   level (triagePrompt prompt (Some cfg)) = Trivial)
  /\ (In kw (opt_list (alwaysCheck cfg)) ->
      level (triagePrompt prompt (Some cfg)) <> Clear).
Proof.
  intros Hkw. pose proof (blank_keyword_matches prompt kw Hkw) as Hm. split.
  - intros Hin.
    assert (H : containsKeyword prompt (skip cfg)) by (exists kw; auto).
    apply find_contains in H. destruct H as (kw' & H).
    unfold triagePrompt. rewrite H. reflexivity.
  - intros Hin Hc. apply triage_clear_inv in Hc. destruct Hc as (_ & Hc & _).
    apply Hc. exists kw. auto.
Qed.

Lemma lower_char_idem c : lower_char (lower_char c) = lower_char c.
Proof. destruct c as [[] [] [] [] [] [] [] []]; reflexivity. Qed.

Lemma toLowerCase_idem s : toLowerCase (toLowerCase s) = toLowerCase s.
Proof.
  induction s as [ | c s IH ]; [ reflexivity | ].
  simpl. rewrite lower_char_idem, IH. reflexivity.
Qed.

Lemma lower_toLowerCase s : lower (toLowerCase s) = lower s.
Proof. unfold lower. rewrite toLowerCase_idem. reflexivity. Qed.

(** X14. The keyword, command, vague-verb and cross-service checks do not
    look at the case of letters: a prompt and the prompt in lower case
    give the same answers, and so do a keyword and the keyword in lower
    case. So a capital letter never makes the word after a vague verb a
    concrete target. *)
Theorem X14_checks_ignore_case (prompt kw : string) (cfg : TriageConfig) :
  matchesKeyword (toLowerCase prompt) kw = matchesKeyword prompt kw
  /\ matchesKeyword prompt (toLowerCase kw) = matchesKeyword prompt kw
  /\ isTrivialCommand (toLowerCase prompt) = isTrivialCommand prompt
  /\ hasVagueVerbs (toLowerCase prompt) = hasVagueVerbs prompt
  /\ detectCrossService (toLowerCase prompt) cfg = detectCrossService prompt cfg.
Proof.
  unfold matchesKeyword, isTrivialCommand, hasVagueVerbs, detectCrossService.
  rewrite !lower_toLowerCase. repeat split; reflexivity.
Qed.

(** X15. When no skip keyword matches, a multi-step indicator decides:
    the prompt is multi-step and no cross-service hit is reported, whatever
    else it holds. Without such an indicator, a built-in cross-service term
    that occurs anywhere in the lowered prompt, inside a longer word too,
    makes the prompt cross-service and is among the hits reported. *)
Theorem X15_multi_step_then_cross_service (prompt : string)
  (config : option TriageConfig) :
  ~ containsKeyword prompt (skip (cfgOf config)) ->
  let r := triagePrompt prompt config in
  (isMultiStep prompt = true ->
   level r = MultiStep /\ cross_service_hits r = None)
  /\ (isMultiStep prompt = false ->
      forall term, In term CROSS_SERVICE_TERMS ->
        includes term (lower prompt) = true ->
        level r = CrossService
        /\ exists hits, cross_service_hits r = Some hits
                        /\ In ("term: " ++ term)%string hits).
Proof.
  intros Hskip. cbv zeta. unfold triagePrompt.
  rewrite (find_not_contains _ _ Hskip). split.
  - intros ->. auto.
  - intros -> term Hin Hinc.
    assert (Hhit : In ("term: " ++ term)%string
                     (detectCrossService prompt (cfgOf config))).
    { unfold detectCrossService. apply in_or_app. right. apply in_or_app. right.
      apply in_map. apply filter_In. auto. }
    destruct (detectCrossService prompt _) as [ | h hits ] eqn:E;
      [ destruct Hhit | ].
    simpl. split; [ reflexivity | ]. eexists. split; [ reflexivity | exact Hhit ].
Qed.

End TriageExtras.

Lemma X11_clear_prompts_pass_every_check_witness :
  ~ Spec.containsKeyword MoreExamples.rename_prompt
      (Triage.skip Triage.empty_config)
  /\ ~ Spec.containsKeyword MoreExamples.rename_prompt
         (Triage.alwaysCheck Triage.empty_config)
  /\ Triage.isMultiStep MoreExamples.rename_prompt = false
  /\ Triage.detectCrossService MoreExamples.rename_prompt Triage.empty_config = []
  /\ Triage.hasVaguePronouns MoreExamples.rename_prompt = false
  /\ Triage.hasVagueVerbs MoreExamples.rename_prompt = false
  /\ (Triage.hasFileRefs MoreExamples.rename_prompt = true
      \/ 50 <= Js.len (Js.trim MoreExamples.rename_prompt)).
Proof.
  apply (X11_clear_prompts_pass_every_check MoreExamples.rename_prompt None).
  vm_compute. reflexivity.
Defined.

Lemma X13_blank_keyword_matches_every_prompt_witness :
  Triage.level (Triage.triagePrompt MoreExamples.rename_prompt
                  (Some MoreExamples.skip_blank)) = Triage.Trivial
  /\ Triage.level (Triage.triagePrompt MoreExamples.rename_prompt
                     (Some MoreExamples.check_blank)) <> Triage.Clear.
Proof.
  split.
  - apply (proj1 (X13_blank_keyword_matches_every_prompt
                    MoreExamples.rename_prompt " " MoreExamples.skip_blank
                    eq_refl)).
    left. reflexivity.
  - apply (proj2 (X13_blank_keyword_matches_every_prompt
                    MoreExamples.rename_prompt " " MoreExamples.check_blank
                    eq_refl)).
    left. reflexivity.
Defined.

Lemma X15_multi_step_then_cross_service_witness :
  Triage.level (Triage.triagePrompt MoreExamples.prevent_prompt None)
  = Triage.CrossService
  /\ exists hits,
       Triage.cross_service_hits
         (Triage.triagePrompt MoreExamples.prevent_prompt None) = Some hits
       /\ In "term: event" hits.
Proof.
  refine (proj2 (X15_multi_step_then_cross_service MoreExamples.prevent_prompt
                   None _) _ "event" _ _).
  - intros (kw & Hin & _). destruct Hin.
  - vm_compute. reflexivity.
  - simpl. auto.
  - vm_compute. reflexivity.
Defined.

(** ** Further properties of the scorecard *)

Section ScorecardExtras.
Import Js Scorecard Spec.

(** The grade of a category is the letter grade of its score, but for the
    fixed result of the error recovery category. *)
Local Abbreviation graded c :=
  (grade c = letterGrade (score c)
   \/ (name c = "Error Recovery" /\ score c = 95 /\ grade c = "A")).

Ltac graded_mk :=
  repeat match goal with
    | |- context [match ?p with (_, _) => _ end] => destruct p
    | |- context [if ?b then _ else _] => destruct b
    end;
  first [ left; reflexivity | right; repeat split; reflexivity ].

(** X16. In a scorecard the overall grade is the letter grade of the
    overall score, and so is the grade of every category but one: the
    error recovery category of sessions without a correction has the score
    95 with the grade A, where the letter grade of 95 is A+. *)
Theorem X16_grades_follow_scores_but_one (sessions : list ParsedSession)
  (project period today : string) :
  let sc := computeScorecard sessions project period today in
  overallGrade sc = letterGrade (overall sc)
  /\ Forall (fun c => graded c) (categories sc)
  /\ (fst (fst (recoveryCounts sessions)) = 0 ->
      In {| name := "Error Recovery"; score := 95; grade := "A" |}
        (categories sc)
      /\ letterGrade 95 = "A+").
Proof.
  cbv zeta. unfold computeScorecard. cbn [overallGrade overall categories].
  split; [ reflexivity | ]. split.
  - unfold scoreAll.
    repeat first [ apply List.Forall_nil | apply List.Forall_cons ].
    + unfold scorePlans. graded_mk.
    + unfold scoreClarification. graded_mk.
    + unfold scoreDelegation. graded_mk.
    + unfold scoreFollowUpSpecificity. graded_mk.
    + unfold scoreTokenEfficiency. destruct (fold_left _ sessions (0, 0)).
      left. reflexivity.
    + unfold scoreSequencing. destruct (sequencingCounts sessions).
      left. reflexivity.
    + unfold scoreCompactionManagement. graded_mk.
    + unfold scoreSessionLifecycle. graded_mk.
    + unfold scoreErrorRecovery.
      destruct (recoveryCounts sessions) as [[tc fr] tm].
      destruct (tc =? 0); [ right; repeat split; reflexivity | ].
      left. reflexivity.
    + unfold scoreWorkspaceHygiene. left. reflexivity.
    + unfold scoreCrossSessionContinuity. graded_mk.
    + unfold scoreVerification. graded_mk.
  - intros H. split; [ | reflexivity ].
    unfold scoreAll. do 8 right. left. unfold scoreErrorRecovery.
    destruct (recoveryCounts sessions) as [[tc fr] tm]. simpl in H. subst tc.
    reflexivity.
Qed.

(** *** What the scores of loaded sessions can be *)

Lemma pct_zero (den : Z) : den <> 0 -> pct 0 den = 0.
Proof.
  intros H. unfold pct. destruct (Z.eqb_spec den 0) as [E | _]; [ contradiction | ].
  unfold Math_round, Qfloor, Qplus, Qdiv, Qmult, Qinv, inject_Z.
  destruct den as [ | d | d ]; [ contradiction | | ]; simpl.
  - apply Z.div_small. lia.
  - apply Z.div_small. lia.
Qed.

Lemma count_none {A} (p : A -> bool) (xs : list A) :
  Forall (fun x => p x = false) xs -> count p xs = 0.
Proof.
  unfold count. induction 1 as [ | x xs Hx _ IH ]; [ reflexivity | ].
  simpl. rewrite Hx. exact IH.
Qed.

Lemma scorePlans_loaded sessions :
  Forall ScorecardNotions.loaded sessions -> sessions <> [] ->
  scorePlans sessions = {| name := "Plans"; score := 0; grade := "F" |}.
Proof.
  intros H Hne. unfold scorePlans.
  destruct sessions as [ | s0 rest ]; [ contradiction | ].
  cbn [length Nat.eqb]. rewrite count_none.
  - rewrite pct_zero; [ reflexivity | unfold zlen; simpl; lia ].
  - eapply Forall_impl; [ exact H | ]. intros s (_ & Hu & _). simpl.
    rewrite Hu. reflexivity.
Qed.

Lemma followUpLoop_loaded evs : forall before acc,
  Forall emitted evs -> followUpLoop before evs acc = acc.
Proof.
  induction evs as [ | e evs IH ]; intros before acc H; [ reflexivity | ].
  inversion H as [ | ? ? He Hr ]; subst. simpl.
  assert (E : String.eqb (ev_type e) "user_prompt" = false).
  { apply String.eqb_neq. intros Heq. unfold emitted in He. rewrite Heq in He.
    simpl in He. decompose [or] He; discriminate || contradiction. }
  rewrite E. simpl. apply IH. exact Hr.
Qed.

Lemma followUpCounts_loaded sessions :
  Forall ScorecardNotions.loaded sessions -> followUpCounts sessions = (0, 0).
Proof.
  unfold followUpCounts. generalize (0, 0). intros acc H. revert acc.
  induction H as [ | s sessions (He & _) _ IH ]; intros acc; [ reflexivity | ].
  simpl. rewrite followUpLoop_loaded by exact He. apply IH.
Qed.

Lemma sequencingCounts_loaded sessions :
  Forall ScorecardNotions.loaded sessions -> sequencingCounts sessions = (0, 0).
Proof.
  unfold sequencingCounts. generalize (0, 0). intros acc H. revert acc.
  induction H as [ | s sessions (_ & Hu & _) _ IH ]; intros acc; [ reflexivity | ].
  simpl. rewrite Hu. simpl. apply IH.
Qed.

Lemma In_slice {A} (a b : nat) (xs : list A) (x : A) :
  In x (slice a b xs) -> In x xs.
Proof.
  unfold slice. intros H.
  rewrite <- (firstn_skipn a xs). apply in_or_app. right.
  rewrite <- (firstn_skipn (b - a) (skipn a xs)). apply in_or_app. left. exact H.
Qed.

Lemma In_sliceZ {A} (i j : Z) (xs : list A) (x : A) :
  In x (sliceZ i j xs) -> In x xs.
Proof. unfold sliceZ. apply In_slice. Qed.

Lemma compaction_step_loaded s cs : forall total covered,
  Forall emitted (events s) ->
  fold_left
    (fun '(total, covered) c =>
       let cIdx := eventIndex c (events s) in
       let nearby := sliceZ (Z.max 0 (cIdx - 10)) cIdx (events s) in
       (total + 1,
        if existsb (fun e => String.eqb (ev_type e) "git_commit") nearby
        then covered + 1 else covered))
    cs (total, covered)
  = (total + zlen cs, covered).
Proof.
  induction cs as [ | c cs IH ]; intros total covered He.
  - unfold zlen. simpl. rewrite Z.add_0_r. reflexivity.
  - cbn [fold_left]. cbv zeta.
    assert (E : existsb (fun e => String.eqb (ev_type e) "git_commit")
                  (sliceZ (Z.max 0 (eventIndex c (events s) - 10))
                     (eventIndex c (events s)) (events s)) = false).
    { apply not_true_is_false. intros Hex. apply existsb_exists in Hex.
      destruct Hex as (e & Hin & Hty). apply In_sliceZ in Hin.
      apply (proj1 (List.Forall_forall _ _) He) in Hin.
      apply String.eqb_eq in Hty. unfold emitted in Hin. rewrite Hty in Hin.
      simpl in Hin. decompose [or] Hin; discriminate || contradiction. }
    rewrite E, IH by exact He. unfold zlen. f_equal. simpl length. lia.
Qed.

Lemma compactionFold_loaded sessions : forall t,
  Forall ScorecardNotions.loaded sessions ->
  fold_left
    (fun acc s =>
       fold_left
         (fun '(total, covered) c =>
            let cIdx := eventIndex c (events s) in
            let nearby := sliceZ (Z.max 0 (cIdx - 10)) cIdx (events s) in
            (total + 1,
             if existsb (fun e => String.eqb (ev_type e) "git_commit") nearby
             then covered + 1 else covered))
         (compactions s) acc)
    sessions (t, 0)
  = (fold_left (fun t s => t + zlen (compactions s)) sessions t, 0).
Proof.
  intros t H. revert t.
  induction H as [ | s sessions (He & _) _ IH ]; intros t; [ reflexivity | ].
  cbn [fold_left]. rewrite compaction_step_loaded by exact He. apply IH.
Qed.

Lemma compactionCounts_loaded sessions :
  Forall ScorecardNotions.loaded sessions ->
  compactionCounts sessions = (ScorecardNotions.compactionTotal sessions, 0).
Proof. apply compactionFold_loaded. Qed.

Lemma zlen_nonneg {A} (xs : list A) : 0 <= zlen xs.
Proof. unfold zlen. lia. Qed.

Section Loading.

Variable Date_parse : string -> option Z.
Variable toISOString : Z -> string.
Variable JSON_stringify : json -> string.
Variable ToString : json -> string.
Variable basename : string -> string -> string.

Local Abbreviation parseSession :=
  (SessionParser.parseSession Date_parse toISOString JSON_stringify ToString
     basename).
Local Abbreviation loadSessions :=
  (loadSessions Date_parse toISOString JSON_stringify ToString basename).

Lemma loadSessions_loaded fs files :
  Forall ScorecardNotions.loaded (loadSessions fs files).
Proof.
  induction files as [ | f files IH ] using rev_ind; [ constructor | ].
  rewrite loadSessions_snoc.
  destruct (parseSession _ _ _ _) as [[evs diags] | ] eqn:E; [ | exact IH ].
  destruct (0 <? length evs)%nat; [ | exact IH ].
  apply Forall_app. split; [ exact IH | ].
  apply parseSession_events in E. destruct E as [E _].
  constructor; [ | constructor ]. split; [ exact E | ].
  apply classifyEvents_unclassified. exact E.
Qed.

(** X17. On the sessions loaded from session files four more categories
    do not depend on what the user wrote: as no event is classified as a
    user prompt or as a commit, the plans category scores 0 as soon as one
    session is loaded, follow-up specificity and sequencing score 100, and
    compaction management scores 100 without a compaction event and 0 with
    one. *)
Theorem X17_loaded_sessions_have_fixed_scores
  (fs : gmap string SessionParser.file) (files : list sessionFile) :
  let sessions := loadSessions fs files in
  (sessions <> [] ->
   scorePlans sessions = {| name := "Plans"; score := 0; grade := "F" |})
  /\ score (scoreFollowUpSpecificity sessions) = 100
  /\ score (scoreSequencing sessions) = 100
  /\ score (scoreCompactionManagement sessions)
     = (if ScorecardNotions.compactionTotal sessions =? 0 then 100 else 0).
Proof.
  cbv zeta. pose proof (loadSessions_loaded fs files) as H.
  split; [ apply scorePlans_loaded; exact H | ].
  split; [ unfold scoreFollowUpSpecificity;
           rewrite followUpCounts_loaded by exact H; reflexivity | ].
  split; [ unfold scoreSequencing;
           rewrite sequencingCounts_loaded by exact H; reflexivity | ].
  unfold scoreCompactionManagement. rewrite compactionCounts_loaded by exact H.
  destruct (Z.eqb_spec (ScorecardNotions.compactionTotal (loadSessions fs files)) 0)
    as [E | E]; [ reflexivity | ].
  rewrite pct_zero by exact E. reflexivity.
Qed.

End Loading.

(** *** The overall score *)

Lemma round_div_bounds (p q lo hi : Z) :
  0 < q -> lo * q <= p <= hi * q -> lo <= round_div p q <= hi.
Proof.
  intros Hq Hp. rewrite round_div_floor by exact Hq. split.
  - apply Z.div_le_lower_bound; [ lia | ]. nia.
  - apply Z.lt_succ_r. apply Z.div_lt_upper_bound; [ lia | ]. nia.
Qed.

Lemma Math_round_inject (z : Z) : Math_round (inject_Z z) = z.
Proof.
  unfold Math_round, Qfloor, Qplus, inject_Z. simpl.
  symmetry. apply (Z.div_unique _ _ z 1); lia.
Qed.

Lemma sum_scores_bounds lo hi cs :
  Forall (fun c => lo <= score c <= hi) cs ->
  lo * zlen cs <= sum_scores cs <= hi * zlen cs.
Proof.
  unfold sum_scores, zlen. intros H.
  assert (G : forall a,
             a + lo * Z.of_nat (length cs)
             <= fold_left (fun s c => s + score c) cs a
             <= a + hi * Z.of_nat (length cs)).
  { induction H as [ | c cs Hc _ IH ]; intros a; simpl fold_left.
    - simpl. lia.
    - specialize (IH (a + score c)). simpl length. lia. }
  specialize (G 0). lia.
Qed.

Lemma scoreAll_range sessions :
  Forall (fun c => 0 <= score c <= 100) (scoreAll sessions).
Proof.
  unfold scoreAll.
  repeat first [ apply List.Forall_nil | apply List.Forall_cons ].
  - apply scorePlans_range.
  - apply scoreClarification_range.
  - apply scoreDelegation_range.
  - apply scoreFollowUpSpecificity_range.
  - apply scoreTokenEfficiency_range.
  - apply scoreSequencing_range.
  - apply scoreCompactionManagement_range.
  - apply scoreSessionLifecycle_range.
  - apply scoreErrorRecovery_range.
  - apply scoreWorkspaceHygiene_range.
  - apply scoreCrossSessionContinuity_range.
  - apply scoreVerification_range.
Qed.

(** X22. The overall score of a scorecard is the rounded mean of its
    category scores, and the clamp changes nothing about it; it lies
    between the score of the worst and the score of the best highlight. *)
Theorem X22_overall_lies_between_the_highlights
  (sessions : list ParsedSession) (project period today : string) :
  let sc := computeScorecard sessions project period today in
  overall sc = round_div (sum_scores (categories sc)) 12
  /\ exists b w,
       best (highlights sc) = Some b /\ worst (highlights sc) = Some w
       /\ score w <= overall sc <= score b.
Proof.
  cbv zeta. unfold computeScorecard.
  cbn [overall highlights best worst categories].
  rewrite head_sort, last_sort.
  destruct (first_max (scoreAll sessions)) as [b | ] eqn:Eb;
    [ | exact (False_ind _ (first_max_cons _ _ Eb)) ].
  destruct (last_min (scoreAll sessions)) as [w | ] eqn:Ew;
    [ | exact (False_ind _ (last_min_cons _ _ Ew)) ].
  destruct (first_max_spec _ _ Eb) as (pre_b & post_b & Hb & Hb1 & Hb2).
  destruct (last_min_spec _ _ Ew) as (pre_w & post_w & Hw & Hw1 & Hw2).
  pose proof (scoreAll_range sessions) as Hr.
  assert (Hall : Forall (fun c => score w <= score c <= score b) (scoreAll sessions)).
  { apply List.Forall_forall. intros c Hc. split.
    - rewrite Hw in Hc. apply in_app_or in Hc. destruct Hc as [Hc | [<- | Hc]].
      + apply (proj1 (List.Forall_forall _ _) Hw1 c Hc).
      + lia.
      + pose proof (proj1 (List.Forall_forall _ _) Hw2 c Hc) as H0.
        simpl in H0. lia.
    - rewrite Hb in Hc. apply in_app_or in Hc. destruct Hc as [Hc | [<- | Hc]].
      + pose proof (proj1 (List.Forall_forall _ _) Hb1 c Hc) as H0.
        simpl in H0. lia.
      + lia.
      + apply (proj1 (List.Forall_forall _ _) Hb2 c Hc). }
  assert (Hlen : zlen (scoreAll sessions) = 12) by reflexivity.
  pose proof (sum_scores_bounds _ _ _ Hall) as Hsum. rewrite Hlen in Hsum.
  pose proof (round_div_bounds (sum_scores (scoreAll sessions)) 12
                (score w) (score b) ltac:(lia) Hsum) as Hrd.
  assert (Hwb : 0 <= score w /\ score b <= 100).
  { split.
    - assert (In w (scoreAll sessions))
        by (rewrite Hw; apply in_or_app; right; left; reflexivity).
      apply (proj1 (List.Forall_forall _ _) Hr w H).
    - assert (In b (scoreAll sessions))
        by (rewrite Hb; apply in_or_app; right; left; reflexivity).
      apply (proj1 (List.Forall_forall _ _) Hr b H). }
  assert (Ho : clamp (inject_Z (Math_round
                 (inject_Z (sum_scores (scoreAll sessions))
                  / inject_Z (zlen (scoreAll sessions)))%Q))
               = round_div (sum_scores (scoreAll sessions)) 12).
  { rewrite Hlen. unfold clamp. rewrite Math_round_inject.
    unfold round_div in *. lia. }
  rewrite Ho. split; [ reflexivity | ]. exists b, w. auto.
Qed.

(** *** The baseline *)

Lemma round_div_between (a s n : Z) :
  0 <= n -> Z.min a s <= round_div (a * n + s) (n + 1) <= Z.max a s.
Proof.
  intros Hn. rewrite round_div_floor by lia. split.
  - apply Z.div_le_lower_bound; [ lia | ]. nia.
  - apply Z.lt_succ_r. apply Z.div_lt_upper_bound; [ lia | ]. nia.
Qed.

Section Baseline.

Variable homedir : string.
Variable md5_hex : string -> string.

Local Abbreviation baselinePath := (baselinePath homedir md5_hex).
Local Abbreviation loadBaseline := (loadBaseline homedir md5_hex).
Local Abbreviation saveBaseline := (saveBaseline homedir md5_hex).
Local Abbreviation updateBaseline := (updateBaseline homedir md5_hex).

Lemma stored_other cs : forall (m : gmap string Z) (k : string),
  ~ In k (map name cs) ->
  fold_left (fun (m : gmap string Z) c => <[name c := score c]> m) cs m !! k
  = m !! k.
Proof.
  induction cs as [ | c cs IH ]; intros m k Hk; simpl; [ reflexivity | ].
  simpl in Hk. rewrite IH by tauto. apply lookup_insert_ne. tauto.
Qed.

Lemma stored_category cs : forall (m : gmap string Z) (c : CategoryScore),
  List.NoDup (map name cs) ->
  In c cs ->
  fold_left (fun (m : gmap string Z) c => <[name c := score c]> m) cs m
    !! name c = Some (score c).
Proof.
  induction cs as [ | c0 cs IH ]; intros m c Hnd Hin; simpl in *; [ contradiction | ].
  inversion Hnd as [ | ? ? Hnotin Hnd' ]; subst.
  destruct Hin as [-> | Hin].
  - rewrite stored_other by exact Hnotin. apply lookup_insert_eq.
  - apply IH; assumption.
Qed.

(** X18. Without a usable baseline, the file missing or not parseable,
    the first update stores the scorecard itself: the session count 1, the
    overall score as the overall average, and the score of each category
    as its average, with no other entry. *)
Theorem X18_first_update_stores_the_scorecard
  (disk : gmap string baselineFile) (project now : string)
  (scorecard : Scorecard) :
  disk !! baselinePath project = None
  \/ disk !! baselinePath project = Some Corrupt ->
  List.NoDup (map name (categories scorecard)) ->
  exists updated,
    loadBaseline (updateBaseline disk project scorecard now) project
      = Some updated
    /\ sessionCount updated = 1
    /\ overallAverage updated = overall scorecard
    /\ lastUpdated updated = now
    /\ (forall c, In c (categories scorecard) ->
          categoryAverages updated !! name c = Some (score c))
    /\ (forall k, ~ In k (map name (categories scorecard)) ->
          categoryAverages updated !! k = None).
Proof.
  intros Hdisk Hnd.
  assert (Hload : loadBaseline disk project = None).
  { unfold Scorecard.loadBaseline. destruct Hdisk as [-> | ->]; reflexivity. }
  unfold Scorecard.updateBaseline. rewrite Hload.
  eexists. split.
  { unfold Scorecard.loadBaseline, Scorecard.saveBaseline.
    rewrite lookup_insert_eq. reflexivity. }
  cbn [sessionCount overallAverage categoryAverages lastUpdated].
  repeat split.
  - intros c Hc. apply stored_category; assumption.
  - intros k Hk. rewrite stored_other by exact Hk. apply lookup_empty.
Qed.

(** X19. An update moves an average towards the new score and not beyond
    it: the new overall average lies between the stored average and the
    overall score of the scorecard, and the new average of each category
    between its stored average and its score. An average that equals the
    score stays. *)
Theorem X19_averages_move_towards_the_score
  (disk : gmap string baselineFile) (project now : string)
  (scorecard : Scorecard) (existing : BaselineData) :
  loadBaseline disk project = Some existing ->
  0 <= sessionCount existing ->
  List.NoDup (map name (categories scorecard)) ->
  exists updated,
    loadBaseline (updateBaseline disk project scorecard now) project
      = Some updated
    /\ Z.min (overallAverage existing) (overall scorecard)
       <= overallAverage updated
       <= Z.max (overallAverage existing) (overall scorecard)
    /\ (forall c, In c (categories scorecard) ->
          let prev := default (score c) (categoryAverages existing !! name c) in
          exists v, categoryAverages updated !! name c = Some v
                    /\ Z.min prev (score c) <= v <= Z.max prev (score c)).
Proof.
  intros Hload Hn Hnd.
  unfold Scorecard.updateBaseline. rewrite Hload.
  eexists. split.
  { unfold Scorecard.loadBaseline, Scorecard.saveBaseline.
    rewrite lookup_insert_eq. reflexivity. }
  cbn [sessionCount overallAverage categoryAverages].
  split; [ apply round_div_between; exact Hn | ].
  intros c Hc. cbv zeta. eexists. split.
  - eapply averaged_category; assumption.
  - apply round_div_between. exact Hn.
Qed.

(** X20. A baseline that is saved is the one loaded afterwards. An update
    for one project leaves the baseline of a project with another baseline
    path as it is; two projects with the same path, that is, whose digests
    agree on their first twelve characters, share one baseline. *)
Theorem X20_baselines_are_kept_by_path (disk : gmap string baselineFile)
  (p q now : string) (data : BaselineData) (scorecard : Scorecard) :
  loadBaseline (saveBaseline disk p data) p = Some data
  /\ (baselinePath q <> baselinePath p ->
      loadBaseline (updateBaseline disk p scorecard now) q = loadBaseline disk q)
  /\ (slice0 12 (md5_hex q) = slice0 12 (md5_hex p) ->
      loadBaseline (updateBaseline disk p scorecard now) q
      = loadBaseline (updateBaseline disk p scorecard now) p).
Proof.
  split; [ | split ].
  - unfold Scorecard.loadBaseline, Scorecard.saveBaseline.
    rewrite lookup_insert_eq. reflexivity.
  - intros Hne. unfold Scorecard.updateBaseline.
    destruct (loadBaseline disk p);
      unfold Scorecard.loadBaseline, Scorecard.saveBaseline;
      rewrite lookup_insert_ne by congruence; reflexivity.
  - intros Heq. unfold Scorecard.loadBaseline, Scorecard.baselinePath.
    rewrite Heq. reflexivity.
Qed.

End Baseline.

End ScorecardExtras.

(** ** Properties of the reports *)

Section ReportExtras.
Import Js Reports.

(** X21. The colour of a score: green from 85 on, the grades that begin
    with A; yellow from 70 to 84, those that begin with B; orange from 55
    to 69, those that begin with C; and red below 55, the grades D and
    F. *)
Theorem X21_grade_colours_follow_score_bands (s : Z) :
  gradeColor (Scorecard.letterGrade s) =
    if 85 <=? s then "#22c55e"
    else if 70 <=? s then "#eab308"
    else if 55 <=? s then "#f97316"
    else "#ef4444".
Proof.
  unfold Scorecard.letterGrade.
  repeat match goal with
    | |- context [?a <=? s] => destruct (Z.leb_spec a s)
    end; try lia; reflexivity.
Qed.

Lemma halves_app (ds : list DailyScore) :
  (firstHalf ds ++ secondHalf ds)%list = ds.
Proof. apply firstn_skipn. Qed.

Lemma firstHalf_length (ds : list DailyScore) :
  length (firstHalf ds)
  = Nat.min (Nat.max 1 (length ds / 2)) (length ds).
Proof. unfold firstHalf. apply List.length_firstn. Qed.

Lemma secondHalf_length (ds : list DailyScore) :
  length (secondHalf ds)
  = (length ds - Nat.max 1 (length ds / 2))%nat.
Proof. unfold secondHalf. apply List.length_skipn. Qed.

(** X23. The trend of a category compares the earlier days with the
    later ones: the two halves make up the daily scores, the earlier one is
    not empty when there is a day at all, and from two days on neither is
    and the later half has as many days as the earlier one, or one more.
    The trends are those of the categories of the first day, in their
    order. *)
Theorem X23_trend_halves (dailyScores : list DailyScore) :
  (firstHalf dailyScores ++ secondHalf dailyScores)%list = dailyScores
  /\ (dailyScores <> [] -> firstHalf dailyScores <> [])
  /\ ((2 <= length dailyScores)%nat ->
      (1 <= length (firstHalf dailyScores) <= length (secondHalf dailyScores))%nat
      /\ (length (secondHalf dailyScores)
          <= length (firstHalf dailyScores) + 1)%nat)
  /\ map name (categoryTrends dailyScores)
     = match head dailyScores with
       | Some d => map Scorecard.name (categories d)
       | None => []
       end.
Proof.
  split; [ apply halves_app | ]. split; [ | split ].
  - intros Hne Hf. destruct dailyScores as [ | d ds ]; [ contradiction | ].
    unfold firstHalf in Hf. destruct (Nat.max 1 _) eqn:E; [ lia | ].
    discriminate Hf.
  - intros Hlen. rewrite firstHalf_length, secondHalf_length.
    pose proof (Nat.div_mod_eq (length dailyScores) 2) as Hd.
    pose proof (Nat.mod_upper_bound (length dailyScores) 2 ltac:(lia)) as Hm.
    lia.
  - unfold categoryTrends. cbv zeta.
    destruct dailyScores as [ | d ds ]; [ reflexivity | ]. cbn [hd_error].
    rewrite List.map_map. simpl. apply List.map_id.
Qed.

Lemma average_nil n : average n [] = 0%Q.
Proof. reflexivity. Qed.

Lemma Math_round_over_one (z : Z) : Math_round (inject_Z z / inject_Z 1) = z.
Proof.
  unfold Math_round, Qfloor, Qplus, Qdiv, Qmult, Qinv, inject_Z. simpl.
  symmetry. apply (Z.div_unique _ _ z 1); lia.
Qed.

(** X24. With a single day of data there are no later days to compare
    with: every category is reported with the current score 0 and, as its
    previous score, its score of that day, and its trend is downwards as
    soon as that score is above 5. *)
Theorem X24_single_day_trends (d : DailyScore) :
  categoryTrends [d] =
    map (fun c =>
           let s := scoreOf (Scorecard.name c) (categories d) in
           {| name := Scorecard.name c; current := 0; previous := s;
              trend := if s <? -5 then Up else if 5 <? s then Down else Flat |})
        (categories d).
Proof.
  unfold categoryTrends. cbn [hd_error]. cbv zeta. rewrite List.map_map.
  apply List.map_ext. intros c. change (secondHalf [d]) with (@nil DailyScore).
  change (firstHalf [d]) with [d]. rewrite average_nil.
  set (s := scoreOf (Scorecard.name c) (categories d)).
  assert (Ha : average (Scorecard.name c) [d] = (inject_Z s / inject_Z 1)%Q)
    by reflexivity.
  rewrite Ha, Math_round_over_one. f_equal.
  unfold trendArrow, Qle_bool, Qminus, Qplus, Qopp, Qdiv, Qmult, Qinv, inject_Z.
  simpl.
  destruct (Z.ltb_spec s (-5)), (Z.ltb_spec 5 s); try lia;
    repeat match goal with
      | |- context [?a <=? ?b] => destruct (Z.leb_spec a b); try lia
      end; reflexivity.
Qed.

(** *** The areas to improve *)

Lemma insert_perm {A} (cmp : A -> A -> Z) (x : A) (l : list A) :
  Scorecard.insert cmp x l ≡ₚ x :: l.
Proof.
  induction l as [ | y l IH ]; simpl; [ reflexivity | ].
  destruct (cmp x y <=? 0); [ reflexivity | ].
  rewrite IH. apply Permutation_swap.
Qed.

Lemma sort_perm {A} (cmp : A -> A -> Z) (l : list A) :
  Scorecard.sort cmp l ≡ₚ l.
Proof.
  induction l as [ | x l IH ]; simpl; [ reflexivity | ].
  rewrite insert_perm, IH. reflexivity.
Qed.

Lemma insert_asc x l :
  StronglySorted ReportNotions.asc l ->
  StronglySorted ReportNotions.asc (Scorecard.insert by_current x l).
Proof.
  induction 1 as [ | y l Hs IH Hy ]; simpl.
  - apply SSorted_cons; [ apply SSorted_nil | apply List.Forall_nil ].
  - unfold by_current at 1.
    destruct (Z.leb_spec (current x - current y) 0) as [Hle | Hgt].
    + apply SSorted_cons; [ apply SSorted_cons; assumption | ].
      apply List.Forall_cons; [ unfold ReportNotions.asc; lia | ].
      eapply Forall_impl; [ exact Hy | ]. unfold ReportNotions.asc. simpl.
      intros; lia.
    + apply SSorted_cons; [ exact IH | ].
      assert (Hp : Forall (ReportNotions.asc y) (x :: l)).
      { apply List.Forall_cons; [ unfold ReportNotions.asc; lia | exact Hy ]. }
      eapply Permutation_Forall; [ | exact Hp ].
      symmetry. apply insert_perm.
Qed.

Lemma sort_asc l : StronglySorted ReportNotions.asc (Scorecard.sort by_current l).
Proof.
  induction l as [ | x l IH ]; simpl; [ constructor | apply insert_asc, IH ].
Qed.

Lemma sorted_app {A} (R : A -> A -> Prop) (l1 l2 : list A) :
  StronglySorted R (l1 ++ l2) ->
  StronglySorted R l1 /\ forall a b, In a l1 -> In b l2 -> R a b.
Proof.
  induction l1 as [ | x l1 IH ]; simpl; intros H.
  - split; [ constructor | intros a b [] ].
  - inversion H as [ | ? ? Hs Hx ]; subst. destruct (IH Hs) as [IH1 IH2].
    apply Forall_app in Hx. destruct Hx as [Hx1 Hx2]. split.
    + constructor; assumption.
    + intros a b [<- | Ha] Hb.
      * apply (proj1 (List.Forall_forall _ _) Hx2 b Hb).
      * apply IH2; assumption.
Qed.

(** X25. The areas to improve are the categories with the lowest current
    scores: at most three, in ascending order of their current score, and
    none of the categories left out has a lower current score than one
    that is listed. *)
Theorem X25_areas_to_improve_are_the_lowest (trends : list CategoryTrend) :
  exists chosen rest,
    (chosen ++ rest)%list ≡ₚ trends
    /\ length chosen = Nat.min 3 (length trends)
    /\ map category (top3Improve trends) = map name chosen
    /\ map improve_score (top3Improve trends) = map current chosen
    /\ StronglySorted ReportNotions.asc chosen
    /\ (forall t u, In t chosen -> In u rest -> current t <= current u).
Proof.
  exists (firstn 3 (Scorecard.sort by_current trends)),
         (skipn 3 (Scorecard.sort by_current trends)).
  pose proof (sort_asc trends) as Hs.
  rewrite <- (firstn_skipn 3 (Scorecard.sort by_current trends)) in Hs.
  apply sorted_app in Hs. destruct Hs as [Hs1 Hs2].
  split; [ rewrite firstn_skipn; apply sort_perm | ].
  split; [ rewrite List.length_firstn, (Permutation_length (sort_perm _ trends));
           reflexivity | ].
  unfold top3Improve. rewrite !List.map_map. simpl.
  split; [ reflexivity | ]. split; [ reflexivity | ].
  split; [ exact Hs1 | exact Hs2 ].
Qed.

(** *** Cross-project patterns *)

Lemma round_div_le (p q hi : Z) : 0 < q -> p <= hi * q -> Scorecard.round_div p q <= hi.
Proof.
  intros Hq Hp. rewrite round_div_floor by exact Hq.
  apply Z.lt_succ_r. apply Z.div_lt_upper_bound; [ lia | ]. nia.
Qed.

Lemma round_div_ge (p q lo : Z) : 0 < q -> lo * q <= p -> lo <= Scorecard.round_div p q.
Proof.
  intros Hq Hp. rewrite round_div_floor by exact Hq.
  apply Z.div_le_lower_bound; [ lia | ]. nia.
Qed.

Lemma sum_le hi l : forall acc,
  Forall (fun s => s <= hi) l ->
  fold_left Z.add l acc <= acc + hi * Z.of_nat (length l).
Proof.
  induction l as [ | x l IH ]; intros acc H; simpl fold_left.
  - simpl. lia.
  - inversion H; subst. specialize (IH (acc + x) ltac:(assumption)).
    simpl length. lia.
Qed.

Lemma sum_ge lo l : forall acc,
  Forall (fun s => lo <= s) l ->
  acc + lo * Z.of_nat (length l) <= fold_left Z.add l acc.
Proof.
  induction l as [ | x l IH ]; intros acc H; simpl fold_left.
  - simpl. lia.
  - inversion H; subst. specialize (IH (acc + x) ltac:(assumption)).
    simpl length. lia.
Qed.

Lemma patternsOf_inv (projects : list ProjectScore) (pt : pattern) :
  In pt (patternsOf projects) ->
  (2 <= length projects)%nat
  /\ exists c,
       let scores := scoresOf c projects in
       let avg := Scorecard.round_div (fold_left Z.add scores 0) (Z.of_nat (length scores)) in
       (pt = Weakest c avg /\ forallb (fun s => s <? 65) scores = true)
       \/ (pt = Strong c avg /\ forallb (fun s => 80 <=? s) scores = true).
Proof.
  unfold patternsOf. destruct (Nat.leb_spec 2 (length projects)) as [Hl | Hl];
    [ | intros [] ].
  intros H. split; [ exact Hl | ]. apply in_flat_map in H.
  destruct H as (c & _ & H). exists c. cbv zeta in H |- *.
  apply in_app_or in H. destruct H as [H | H].
  - destruct (forallb (fun s => s <? 65) _) eqn:E; [ | destruct H ].
    destruct H as [<- | []]. left. split; reflexivity.
  - destruct (forallb (fun s => 80 <=? s) _) eqn:E; [ | destruct H ].
    destruct H as [<- | []]. right. split; reflexivity.
Qed.

Lemma scoresOf_length c projects : length (scoresOf c projects) = length projects.
Proof. unfold scoresOf. apply List.length_map. Qed.

Lemma weakest_inv projects c a :
  In (Weakest c a) (patternsOf projects) ->
  (2 <= length projects)%nat
  /\ Forall (fun s => s < 65) (scoresOf c projects) /\ a <= 64.
Proof.
  intros H. apply patternsOf_inv in H. destruct H as (Hl & c' & H).
  cbv zeta in H. destruct H as [[Heq Hall] | [Heq _]]; [ | discriminate Heq ].
  inversion Heq; subst. split; [ exact Hl | ].
  assert (HF : Forall (fun s => s < 65) (scoresOf c' projects)).
  { apply List.Forall_forall. intros s Hs.
    apply (proj1 (forallb_forall _ _) Hall) in Hs. apply Z.ltb_lt in Hs. exact Hs. }
  split; [ exact HF | ].
  apply round_div_le; [ rewrite scoresOf_length; lia | ].
  pose proof (sum_le 64 (scoresOf c' projects) 0) as Hsum.
  assert (Forall (fun s => s <= 64) (scoresOf c' projects))
    by (eapply Forall_impl; [ exact HF | ]; simpl; intros; lia).
  specialize (Hsum ltac:(assumption)). lia.
Qed.

Lemma strong_inv projects c a :
  In (Strong c a) (patternsOf projects) ->
  (2 <= length projects)%nat
  /\ Forall (fun s => 80 <= s) (scoresOf c projects) /\ 80 <= a.
Proof.
  intros H. apply patternsOf_inv in H. destruct H as (Hl & c' & H).
  cbv zeta in H. destruct H as [[Heq _] | [Heq Hall]]; [ discriminate Heq | ].
  inversion Heq; subst. split; [ exact Hl | ].
  assert (HF : Forall (fun s => 80 <= s) (scoresOf c' projects)).
  { apply List.Forall_forall. intros s Hs.
    apply (proj1 (forallb_forall _ _) Hall) in Hs. apply Z.leb_le in Hs. exact Hs. }
  split; [ exact HF | ].
  apply round_div_ge; [ rewrite scoresOf_length; lia | ].
  pose proof (sum_ge 80 (scoresOf c' projects) 0 HF) as Hsum. lia.
Qed.

(** X26. Cross-project patterns are reported from two projects on. A
    category is called the weakest across all projects only when every
    project scores below 65 in it, and the mean shown is then at most 64;
    it is called strong everywhere only when every project scores at least
    80, and the mean shown is then at least 80; no category is called
    both. *)
Theorem X26_cross_project_patterns (projects : list ProjectScore) :
  ((length projects < 2)%nat -> patternsOf projects = [])
  /\ (forall c a, In (Weakest c a) (patternsOf projects) ->
        Forall (fun s => s < 65) (scoresOf c projects) /\ a <= 64)
  /\ (forall c a, In (Strong c a) (patternsOf projects) ->
        Forall (fun s => 80 <= s) (scoresOf c projects) /\ 80 <= a)
  /\ (forall c a a', In (Weakest c a) (patternsOf projects) ->
        ~ In (Strong c a') (patternsOf projects)).
Proof.
  split; [ | split; [ | split ] ].
  - intros Hl. unfold patternsOf.
    destruct (Nat.leb_spec 2 (length projects)); [ lia | reflexivity ].
  - intros c a H. apply weakest_inv in H. tauto.
  - intros c a H. apply strong_inv in H. tauto.
  - intros c a a' Hw Hs. apply weakest_inv in Hw. apply strong_inv in Hs.
    destruct Hw as (Hl & Hw & _). destruct Hs as (_ & Hs & _).
    unfold scoresOf in Hw, Hs. destruct projects as [ | p ps ]; [ simpl in Hl; lia | ].
    simpl in Hw, Hs. inversion Hw; subst. inversion Hs; subst. lia.
Qed.

(** *** The handler *)

Section Handler.

Variable homedir : string.
Variable md5_hex : string -> string.

Local Abbreviation loadBaseline := (Scorecard.loadBaseline homedir md5_hex).
Local Abbreviation updateBaseline := (Scorecard.updateBaseline homedir md5_hex).
Local Abbreviation handler := (handler homedir md5_hex).

Lemma handler_comparative disk params sessions compared today now :
  report_type params = comparative_report ->
  snd (handler disk params sessions compared today now) = disk.
Proof.
  intros H. unfold Reports.handler. rewrite H.
  destruct (_ <? 2)%nat; [ reflexivity | ].
  destruct (buildComparativeReport _ _ _). reflexivity.
Qed.

Lemma handler_sessions disk params sessions compared today now :
  report_type params <> comparative_report ->
  sessions <> [] ->
  let pn := projectNameOf params sessions in
  let sc := Scorecard.computeScorecard sessions pn (periodName (period params))
              today in
  snd (handler disk params sessions compared today now)
  = updateBaseline disk pn sc now
  /\ (fst (handler disk params sessions compared today now)
      = if match report_type params with trend_report => true | _ => false end
           || (match period params with week | month => true | _ => false end
               && negb (SessionParser.truthy
                          (option_map SessionParser.JStr (session_id params))))
        then TrendReport pn (loadBaseline disk pn)
        else ScorecardReport sc (loadBaseline disk pn)).
Proof.
  intros Hrt Hne. cbv zeta. unfold Reports.handler.
  destruct sessions as [ | s0 rest ]; [ contradiction | ]. cbn [length Nat.eqb].
  destruct (report_type params); [ | | contradiction ];
    destruct (period params);
    destruct (SessionParser.truthy _); split; reflexivity.
Qed.

(** X27. The handler leaves the baseline files as they are for a
    comparative report and when no session is found. Otherwise it answers
    with a trend report when one is asked for, or when a scorecard is asked
    for over a week or a month and for no particular session, and with a
    scorecard else; either shows the baseline stored before the call, and
    either way the baseline of the project is updated once, with the
    scorecard of all the sessions. *)
Theorem X27_handler_routes_and_updates
  (disk : gmap string Scorecard.baselineFile) (params : Params)
  (sessions : list Scorecard.ParsedSession)
  (compared : list (string * list Scorecard.ParsedSession))
  (today now : string) :
  let r := handler disk params sessions compared today now in
  let pn := projectNameOf params sessions in
  let sc := Scorecard.computeScorecard sessions pn (periodName (period params))
              today in
  (report_type params = comparative_report -> snd r = disk)
  /\ (report_type params <> comparative_report -> sessions = [] ->
      r = (NoSessions, disk))
  /\ (report_type params <> comparative_report -> sessions <> [] ->
      snd r = updateBaseline disk pn sc now
      /\ (fst r = TrendReport pn (loadBaseline disk pn)
          \/ fst r = ScorecardReport sc (loadBaseline disk pn))
      /\ (fst r = TrendReport pn (loadBaseline disk pn) <->
          report_type params = trend_report
          \/ ((period params = week \/ period params = month)
              /\ SessionParser.truthy
                   (option_map SessionParser.JStr (session_id params)) = false))).
Proof.
  cbv zeta. split; [ apply handler_comparative | ]. split.
  - intros Hrt ->. unfold Reports.handler.
    destruct (report_type params); [ reflexivity | reflexivity | contradiction ].
  - intros Hrt Hne.
    destruct (handler_sessions disk params sessions compared today now Hrt Hne)
      as [Hd Hr].
    split; [ exact Hd | ]. rewrite Hr.
    destruct (report_type params); [ | | contradiction ];
      destruct (period params);
      destruct (SessionParser.truthy _); simpl;
      (split; [ auto | ]);
      (split; [ intros H; try discriminate H; auto | ]);
      intros [H | [[H | H] H']]; try discriminate; auto.
Qed.

(** X28. The session count of a baseline counts the reports made, not
    the sessions scored: a scorecard or trend report over one or more
    sessions adds one to it, and the same report asked for again over the
    same sessions adds one more. *)
Theorem X28_baseline_counts_reports
  (disk : gmap string Scorecard.baselineFile) (params : Params)
  (sessions : list Scorecard.ParsedSession)
  (compared : list (string * list Scorecard.ParsedSession))
  (today now today' now' : string) :
  report_type params <> comparative_report ->
  sessions <> [] ->
  let pn := projectNameOf params sessions in
  let disk1 := snd (handler disk params sessions compared today now) in
  let disk2 := snd (handler disk1 params sessions compared today' now') in
  exists b1 b2,
    loadBaseline disk1 pn = Some b1
    /\ loadBaseline disk2 pn = Some b2
    /\ Scorecard.sessionCount b1
       = match loadBaseline disk pn with
         | Some b => Scorecard.sessionCount b + 1
         | None => 1
         end
    /\ Scorecard.sessionCount b2 = Scorecard.sessionCount b1 + 1.
Proof.
  intros Hrt Hne. cbv zeta.
  rewrite (proj1 (handler_sessions _ params sessions compared today' now' Hrt Hne)).
  rewrite (proj1 (handler_sessions disk params sessions compared today now Hrt Hne)).
  set (pn := projectNameOf params sessions).
  assert (Hup : forall d sc t,
            exists b, loadBaseline (updateBaseline d pn sc t) pn = Some b
                      /\ Scorecard.sessionCount b
                         = match loadBaseline d pn with
                           | Some e => Scorecard.sessionCount e + 1
                           | None => 1
                           end).
  { intros d sc t. unfold Scorecard.updateBaseline.
    destruct (loadBaseline d pn) as [e | ];
      unfold Scorecard.loadBaseline, Scorecard.saveBaseline;
      rewrite lookup_insert_eq; eexists; split; reflexivity. }
  destruct (Hup disk (Scorecard.computeScorecard sessions pn
                        (periodName (period params)) today) now)
    as (b1 & Hb1 & Hc1).
  destruct (Hup (updateBaseline disk pn
                   (Scorecard.computeScorecard sessions pn
                      (periodName (period params)) today) now)
              (Scorecard.computeScorecard sessions pn
                 (periodName (period params)) today') now')
    as (b2 & Hb2 & Hc2).
  exists b1, b2. rewrite Hb1 in Hc2. auto.
Qed.

End Handler.

End ReportExtras.

(** ** Properties of the task ordering *)

Section SequenceExtras.
Import Js SequenceTasks SequenceNotions.







(** *** The two orders *)

Lemma insert_by_key {A} (key : A -> Z) (cmp : A -> A -> Z) (x : A) (l : list A) :
  (forall a b, cmp a b = key a - key b) ->
  StronglySorted (fun a b => key a <= key b) l ->
  StronglySorted (fun a b => key a <= key b) (Scorecard.insert cmp x l).
Proof.
  intros Hcmp. induction 1 as [ | y l Hs IH Hy ]; simpl.
  - apply SSorted_cons; [ apply SSorted_nil | apply List.Forall_nil ].
  - rewrite Hcmp.
    destruct (Z.leb_spec (key x - key y) 0) as [Hle | Hgt].
    + apply SSorted_cons; [ apply SSorted_cons; assumption | ].
      apply List.Forall_cons; [ lia | ].
      eapply Forall_impl; [ exact Hy | ]. simpl. intros; lia.
    + apply SSorted_cons; [ exact IH | ].
      assert (Hp : Forall (fun b => key y <= key b) (x :: l)).
      { apply List.Forall_cons; [ lia | exact Hy ]. }
      eapply Permutation_Forall; [ | exact Hp ].
      symmetry. apply insert_perm.
Qed.

Lemma sort_by_key {A} (key : A -> Z) (cmp : A -> A -> Z) (l : list A) :
  (forall a b, cmp a b = key a - key b) ->
  StronglySorted (fun a b => key a <= key b) (Scorecard.sort cmp l).
Proof.
  intros Hcmp. induction l as [ | x l IH ]; simpl; [ constructor | ].
  apply insert_by_key; assumption.
Qed.

Lemma sort_layered items :
  StronglySorted layered (Scorecard.sort by_dependency items).
Proof.
  apply (sort_by_key (fun i => depIndex (cats i))). reflexivity.
Qed.

Lemma sorted_weaken {A} (R S : A -> A -> Prop) (l : list A) :
  (forall a b, R a b -> S a b) -> StronglySorted R l -> StronglySorted S l.
Proof.
  intros HRS. induction 1 as [ | x l Hs IH Hx ]; constructor; [ exact IH | ].
  eapply Forall_impl; [ exact Hx | ]. exact (HRS x).
Qed.

Lemma sort_riskier items :
  StronglySorted riskier (Scorecard.sort by_risk items).
Proof.
  apply (sorted_weaken (fun a b => - riskScore (cats a) <= - riskScore (cats b))).
  - intros a b Hab. unfold riskier. lia.
  - apply (sort_by_key (fun i => - riskScore (cats i))).
    intros a b. unfold by_risk. lia.
Qed.

Lemma indexIn_values c :
  indexIn c DEP_ORDER
  = match c with config => 0 | schema => 1 | api => 2 | ui => 3 | test => 4 end.
Proof. destruct c; reflexivity. Qed.

Lemma depIndex_cons c cs :
  depIndex (c :: cs) = Z.min (indexIn c DEP_ORDER) (depIndex cs).
Proof. destruct c; reflexivity. Qed.

Lemma depIndex_nonneg cs : 0 <= depIndex cs.
Proof.
  induction cs as [ | c cs IH ]; [ unfold depIndex; simpl; lia | ].
  rewrite depIndex_cons, indexIn_values. destruct c; lia.
Qed.

Lemma includes_cons c x cs :
  includes c (x :: cs) = Cat_eqb c x || includes c cs.
Proof. reflexivity. Qed.

Lemma depIndex_config cs :
  (includes config cs = true -> depIndex cs = 0)
  /\ (includes config cs = false -> 1 <= depIndex cs).
Proof.
  induction cs as [ | c cs [IH1 IH2] ].
  - split; [ discriminate | unfold depIndex; simpl; lia ].
  - rewrite depIndex_cons, indexIn_values, includes_cons.
    pose proof (depIndex_nonneg cs) as Hr.
    destruct c; simpl; split; intros H;
      try discriminate H; try specialize (IH1 H); try specialize (IH2 H); lia.
Qed.

Lemma riskScore_schema cats :
  (includes schema cats = true -> 10 <= riskScore cats)
  /\ (includes schema cats = false -> includes config cats = false ->
      riskScore cats <= 7).
Proof.
  unfold riskScore. split.
  - intros ->.
    repeat match goal with
      | |- context [if ?b then _ else _] => destruct b
      end; lia.
  - intros -> ->.
    repeat match goal with
      | |- context [if ?b then _ else _] => destruct b
      end; lia.
Qed.

(** In a sorted list an element is related to every later one. *)
Lemma sorted_before {A} (R : A -> A -> Prop) (pre mid post : list A) (a b : A) :
  StronglySorted R (pre ++ a :: mid ++ b :: post) -> R a b.
Proof.
  induction pre as [ | x pre IH ]; simpl; intros H.
  - inversion H as [ | ? ? _ Hf ]; subst.
    apply (proj1 (List.Forall_forall _ _) Hf b).
    apply in_or_app. right. left. reflexivity.
  - inversion H; subst. apply IH. assumption.
Qed.

Lemma ordered_perm strategy tasks : ordered strategy tasks ≡ₚ classified tasks.
Proof. destruct strategy; apply sort_perm. Qed.

Lemma classified_tasks tasks : map task (classified tasks) = tasks.
Proof.
  unfold classified. rewrite List.map_map. simpl. apply List.map_id.
Qed.

Lemma classified_cats tasks :
  Forall (fun i => cats i = classify (task i)) (classified tasks).
Proof.
  unfold classified. apply List.Forall_map. apply List.Forall_forall.
  intros t _. reflexivity.
Qed.

(** X30. Both strategies return the given tasks, each with its
    categories, in another order. The dependency strategy sorts them by
    their first layer in the order config, schema, api, ui, test, so that
    no task without a config category comes before one with it; the
    risk-first strategy sorts them by descending risk score, so that a task
    that is neither schema nor config never comes before a schema task. *)
Theorem X30_strategies_order_the_tasks (strategy : Strategy)
  (tasks : list string) :
  let r := ordered strategy tasks in
  map task r ≡ₚ tasks
  /\ Forall (fun i => cats i = classify (task i)) r
  /\ match strategy with
     | dependency => StronglySorted layered r
     | risk_first => StronglySorted riskier r
     end
  /\ (forall pre a mid b post,
        r = (pre ++ a :: mid ++ b :: post)%list ->
        match strategy with
        | dependency =>
            includes config (cats b) = true -> includes config (cats a) = true
        | risk_first =>
            includes schema (cats b) = true ->
            includes schema (cats a) = true \/ includes config (cats a) = true
        end).
Proof.
  cbv zeta. pose proof (ordered_perm strategy tasks) as Hp.
  split; [ rewrite <- (classified_tasks tasks) at 2;
           apply Permutation_map; exact Hp | ].
  split; [ eapply Permutation_Forall;
           [ symmetry; exact Hp | apply classified_cats ] | ].
  destruct strategy; simpl ordered.
  - pose proof (sort_layered (classified tasks)) as Hs.
    split; [ exact Hs | ].
    intros pre a mid b post Hr Hb. rewrite Hr in Hs.
    apply sorted_before in Hs. unfold layered in Hs.
    destruct (includes config (cats a)) eqn:Ha; [ reflexivity | ].
    pose proof (proj1 (depIndex_config (cats b)) Hb).
    pose proof (proj2 (depIndex_config (cats a)) Ha). lia.
  - pose proof (sort_riskier (classified tasks)) as Hs.
    split; [ exact Hs | ].
    intros pre a mid b post Hr Hb. rewrite Hr in Hs.
    apply sorted_before in Hs. unfold riskier in Hs.
    destruct (includes schema (cats a)) eqn:Ha; [ left; reflexivity | ].
    destruct (includes config (cats a)) eqn:Hc; [ right; reflexivity | ].
    pose proof (proj1 (riskScore_schema (cats b)) Hb).
    pose proof (proj2 (riskScore_schema (cats a)) Ha Hc). lia.
Qed.

End SequenceExtras.

Lemma X18_first_update_stores_the_scorecard_witness :
  exists updated,
    Scorecard.loadBaseline "/home/u" Examples.digest
      (Scorecard.updateBaseline "/home/u" Examples.digest ∅ "demo"
         Examples.demo_scorecard "2026-01-02T00:00:00.000Z") "demo"
    = Some updated
    /\ Scorecard.sessionCount updated = 1
    /\ Scorecard.overallAverage updated
       = Scorecard.overall Examples.demo_scorecard
    /\ Scorecard.lastUpdated updated = "2026-01-02T00:00:00.000Z"
    /\ (forall c, In c (Scorecard.categories Examples.demo_scorecard) ->
          Scorecard.categoryAverages updated !! Scorecard.name c
          = Some (Scorecard.score c))
    /\ (forall k,
          ~ In k (map Scorecard.name
                    (Scorecard.categories Examples.demo_scorecard)) ->
          Scorecard.categoryAverages updated !! k = None).
Proof.
  apply (X18_first_update_stores_the_scorecard "/home/u" Examples.digest ∅
           "demo" "2026-01-02T00:00:00.000Z" Examples.demo_scorecard).
  - left. apply lookup_empty.
  - apply computeScorecard_names_NoDup.
Defined.

Lemma X19_averages_move_towards_the_score_witness :
  exists updated,
    Scorecard.loadBaseline "/home/u" Examples.digest
      (Scorecard.updateBaseline "/home/u" Examples.digest Examples.demo_disk
         "demo" Examples.demo_scorecard "2026-01-02T00:00:00.000Z") "demo"
    = Some updated
    /\ Z.min (Scorecard.overallAverage Examples.demo_baseline)
         (Scorecard.overall Examples.demo_scorecard)
       <= Scorecard.overallAverage updated
       <= Z.max (Scorecard.overallAverage Examples.demo_baseline)
            (Scorecard.overall Examples.demo_scorecard)
    /\ (forall c, In c (Scorecard.categories Examples.demo_scorecard) ->
          let prev :=
            default (Scorecard.score c)
              (Scorecard.categoryAverages Examples.demo_baseline
                 !! Scorecard.name c) in
          exists v,
            Scorecard.categoryAverages updated !! Scorecard.name c = Some v
            /\ Z.min prev (Scorecard.score c) <= v
               <= Z.max prev (Scorecard.score c)).
Proof.
  apply (X19_averages_move_towards_the_score "/home/u" Examples.digest
           Examples.demo_disk "demo" "2026-01-02T00:00:00.000Z"
           Examples.demo_scorecard Examples.demo_baseline).
  - vm_compute. reflexivity.
  - vm_compute. discriminate.
  - apply computeScorecard_names_NoDup.
Defined.

Lemma X28_baseline_counts_reports_witness :
  let pn := Reports.projectNameOf MoreExamples.week_of_demo Examples.demo_sessions in
  let disk1 :=
    snd (Reports.handler "/home/u" Examples.digest ∅ MoreExamples.week_of_demo
           Examples.demo_sessions [] "2026-01-02" "2026-01-02T00:00:00.000Z") in
  let disk2 :=
    snd (Reports.handler "/home/u" Examples.digest disk1
           MoreExamples.week_of_demo Examples.demo_sessions [] "2026-01-02"
           "2026-01-02T00:05:00.000Z") in
  exists b1 b2,
    Scorecard.loadBaseline "/home/u" Examples.digest disk1 pn = Some b1
    /\ Scorecard.loadBaseline "/home/u" Examples.digest disk2 pn = Some b2
    /\ Scorecard.sessionCount b1
       = match Scorecard.loadBaseline "/home/u" Examples.digest ∅ pn with
         | Some b => Scorecard.sessionCount b + 1
         | None => 1
         end
    /\ Scorecard.sessionCount b2 = Scorecard.sessionCount b1 + 1.
Proof.
  apply (X28_baseline_counts_reports "/home/u" Examples.digest ∅
           MoreExamples.week_of_demo Examples.demo_sessions []
           "2026-01-02" "2026-01-02T00:00:00.000Z"
           "2026-01-02" "2026-01-02T00:05:00.000Z").
  - discriminate.
  - intros H. vm_compute in H. discriminate H.
Defined.
